(** * Ledger: period reporting and trend aggregation

    A shallow embedding of [ledger.services.statistics_service] and of the
    storage reads of [ledger.db.database] it relies on, followed by the
    properties of the period calculator, the granularity bucketer and the
    summary service.

    Conventions of the embedding.
    - Python [int] is [Z]; Python [str] is [string].
    - A call that can raise returns an [outcome]; the exceptions are the ones
      the standard library raises on the paths modelled here.
    - [datetime.date] is a record of year, month and day; the functions of
      [datetime] and [calendar] follow the CPython implementations
      ([_ymd2ord], [_isoweek1monday], [isocalendar], [monthrange]).
    - [date.today()] is an explicit argument.
    - A display amount [x / 100.0] keeps its integer numerator: binary
      floating point is not part of the model.
    - [date.strftime] prints the year with four digits, which is what every
      platform prints from year 1000 on; a property that depends on the
      strings the trend functions print carries that bound on its dates.
    - [datetime.strptime] is the library function on strings of ASCII
      characters; a property that assumes a string is rejected says that the
      string is one. *)

From Stdlib Require Import ZArith Lia List String Ascii Bool.
From stdpp Require Import gmap strings pretty list sorting.

Open Scope string_scope.
Open Scope list_scope.
Open Scope Z_scope.

#[local] Set Warnings "-clear-no-such-hyp".

(* ===================================================================== *)
(** * Part I: definitions                                                 *)
(* ===================================================================== *)

(** ** Exceptions and outcomes *)

Inductive exn : Type :=
| ValueError          (* strptime on a malformed string, date out of range *)
| OverflowError       (* date + timedelta beyond date.max *)
| ZeroDivisionError   (* int / 0 *)
| IllegalMonthError   (* calendar.monthrange with a month outside 1..12 *)
| OutOfFuel.          (* the bound of a modelled while loop was too small *)

Inductive outcome (A : Type) : Type :=
| Ok (a : A)
| Raise (e : exn).
Arguments Ok {A} a.
Arguments Raise {A} e.

#[global] Instance outcome_ret : MRet outcome := fun _ a => Ok a.
#[global] Instance outcome_bind : MBind outcome := fun _ _ f m =>
  match m with
  | Ok a => f a
  | Raise e => Raise e
  end.

Definition returns {A} (m : outcome A) : Prop := exists a, m = Ok a.

(** ** String formatting *)

Module Format.

(** [str(n)] for an int. *)
Definition str (n : Z) : string := pretty n.

Fixpoint zeros (k : nat) : string :=
  match k with
  | O => ""
  | S k' => String "0" (zeros k')
  end.

(** Left padding with ["0"] up to [width] characters. *)
Definition zfill (width : nat) (s : string) : string :=
  zeros (width - String.length s) +:+ s.

(** [format(n, "0<width>d")]: zero padding is inserted after the sign. *)
Definition fmt_0d (width : nat) (n : Z) : string :=
  if n <? 0 then "-" +:+ zfill (width - 1) (pretty (- n))
  else zfill width (pretty n).

(** [s[:k]] *)
Fixpoint prefix (k : nat) (s : string) : string :=
  match k, s with
  | S k', String c s' => String c (prefix k' s')
  | _, _ => ""
  end.

(** [f"{year:04d}-{month:02d}-{day:02d}"] *)
Definition ymd (y m d : Z) : string :=
  fmt_0d 4 y +:+ "-" +:+ fmt_0d 2 m +:+ "-" +:+ fmt_0d 2 d.

(** [f"{year:04d}-{month:02d}"] *)
Definition ym (y m : Z) : string :=
  fmt_0d 4 y +:+ "-" +:+ fmt_0d 2 m.

(** [f"{iso_year}-W{iso_week:02d}"] *)
Definition week_key (iso_year iso_week : Z) : string :=
  str iso_year +:+ "-W" +:+ fmt_0d 2 iso_week.

End Format.

(** ** Calendar: [calendar] and [datetime.date] *)

Module Calendar.

Record date : Type := Date { year : Z; month : Z; day : Z }.

Definition MINYEAR : Z := 1.
Definition MAXYEAR : Z := 9999.

(** [calendar.isleap] *)
Definition isleap (y : Z) : bool :=
  (y mod 4 =? 0) && (negb (y mod 100 =? 0) || (y mod 400 =? 0)).

(** [calendar.mdays] *)
Definition mdays (m : Z) : Z :=
  match m with
  | 1 => 31 | 2 => 28 | 3 => 31 | 4 => 30 | 5 => 31 | 6 => 30
  | 7 => 31 | 8 => 31 | 9 => 30 | 10 => 31 | 11 => 30 | 12 => 31
  | _ => 0
  end.

Definition days_in_month (y m : Z) : Z :=
  mdays m + (if (m =? 2) && isleap y then 1 else 0).

(** [calendar.monthrange(year, month)[1]].  The weekday it also computes is
    dropped by both callers; computing it does not raise for a month in
    1..12, because [calendar.weekday] maps a year outside
    MINYEAR..MAXYEAR into that range first. *)
Definition monthrange (y m : Z) : outcome Z :=
  if (1 <=? m) && (m <=? 12) then Ok (days_in_month y m)
  else Raise IllegalMonthError.

(** [datetime._days_before_year] *)
Definition days_before_year (y : Z) : Z :=
  let y' := y - 1 in y' * 365 + y' / 4 - y' / 100 + y' / 400.

(** [datetime._days_before_month] *)
Definition days_before_month (y m : Z) : Z :=
  match m with
  | 1 => 0 | 2 => 31 | 3 => 59 | 4 => 90 | 5 => 120 | 6 => 151
  | 7 => 181 | 8 => 212 | 9 => 243 | 10 => 273 | 11 => 304 | 12 => 334
  | _ => 0
  end + (if (2 <? m) && isleap y then 1 else 0).

(** [datetime._ymd2ord] *)
Definition ymd2ord (y m d : Z) : Z :=
  days_before_year y + days_before_month y m + d.

Definition toordinal (d : date) : Z := ymd2ord (year d) (month d) (day d).

(** [date.max.toordinal()] *)
Definition MAXORDINAL : Z := 3652059.

(** The invariant of every [datetime.date] object. *)
Definition valid_date (d : date) : bool :=
  (MINYEAR <=? year d) && (year d <=? MAXYEAR) &&
  (1 <=? month d) && (month d <=? 12) &&
  (1 <=? day d) && (day d <=? days_in_month (year d) (month d)).

(** [d1 <= d2] and [d1 < d2]: comparison of (year, month, day). *)
Definition date_leb (d1 d2 : date) : bool :=
  (year d1 <? year d2) ||
  ((year d1 =? year d2) &&
   ((month d1 <? month d2) ||
    ((month d1 =? month d2) && (day d1 <=? day d2)))).

Definition date_ltb (d1 d2 : date) : bool :=
  (year d1 <? year d2) ||
  ((year d1 =? year d2) &&
   ((month d1 <? month d2) ||
    ((month d1 =? month d2) && (day d1 <? day d2)))).

(** The calendar day after [d]. *)
Definition tomorrow (d : date) : date :=
  if day d <? days_in_month (year d) (month d)
  then Date (year d) (month d) (day d + 1)
  else if month d <? 12 then Date (year d) (month d + 1) 1
  else Date (year d + 1) 1 1.

(** [d + timedelta(days=1)]: the date whose ordinal is one more, or
    OverflowError past [date.max]. *)
Definition add_one_day (d : date) : outcome date :=
  if toordinal d + 1 <=? MAXORDINAL then Ok (tomorrow d)
  else Raise OverflowError.

(** [(d2 - d1).days] *)
Definition days_between (d1 d2 : date) : Z := toordinal d2 - toordinal d1.

(** [datetime._isoweek1monday]: ordinal of the Monday that starts ISO
    week 1 of [y]. *)
Definition isoweek1monday (y : Z) : Z :=
  let firstday := ymd2ord y 1 1 in
  let firstweekday := (firstday + 6) mod 7 in
  let week1monday := firstday - firstweekday in
  if 3 <? firstweekday then week1monday + 7 else week1monday.

(** [date.isocalendar()], as (ISO year, ISO week, ISO weekday). *)
Definition isocalendar (d : date) : Z * Z * Z :=
  let y := year d in
  let week1monday := isoweek1monday y in
  let today := toordinal d in
  let week := (today - week1monday) / 7 in
  let wday := (today - week1monday) mod 7 in
  if week <? 0 then
    let y' := y - 1 in
    let week1monday' := isoweek1monday y' in
    (y', (today - week1monday') / 7 + 1, (today - week1monday') mod 7 + 1)
  else if (52 <=? week) && (isoweek1monday (y + 1) <=? today) then
    (y + 1, 1, wday + 1)
  else (y, week + 1, wday + 1).

(** [d.strftime("%Y-%m-%d")], with the four-digit year of the library
    documentation.  From year 1000 on every platform prints this; for an
    earlier year the C library decides whether [%Y] is padded with zeros
    (glibc prints 999, not 0999).  The properties that depend on what the
    trend functions print are therefore stated for dates from year 1000 on;
    as the format of the stored dates, YYYY-MM-DD, the definition is used
    for every year. *)
Definition strftime (d : date) : string :=
  Format.ymd (year d) (month d) (day d).

End Calendar.

(** ** [datetime.strptime(s, "%Y-%m-%d").date()]

    The format compiles to the regular expression
    [(\d\d\d\d)-(1[0-2]|0[1-9]|[1-9])-(3[01]|[12]\d|0[1-9]|[1-9]| [1-9])],
    matched at the start of the string; unmatched input, text left over and a
    (year, month, day) that is no calendar date all raise ValueError.  Digits
    are the ASCII digits: on a string of ASCII characters the definition is
    the library function.  The library also takes any other Unicode decimal
    digit for [\d], so a result [Ok d] here is the result of the library,
    while a [Raise] speaks for the library on ASCII strings only. *)

Module Strptime.
Import Calendar.

Definition digit (c : ascii) : option Z :=
  let n := Z.of_N (N_of_ascii c) in
  if (48 <=? n) && (n <=? 57) then Some (n - 48) else None.

(** [[1-9]-] *)
Definition month_one_digit (s : string) : option (Z * string) :=
  match s with
  | String a (String "-" rest) =>
      match digit a with
      | Some x => if 1 <=? x then Some (x, rest) else None
      | None => None
      end
  | _ => None
  end.

(** [(1[0-2]|0[1-9]|[1-9])-] *)
Definition parse_month (s : string) : option (Z * string) :=
  match s with
  | String a (String b (String "-" rest)) =>
      match digit a, digit b with
      | Some x, Some y =>
          if ((x =? 1) && (y <=? 2)) || ((x =? 0) && (1 <=? y))
          then Some (10 * x + y, rest) else None
      | _, _ => month_one_digit s
      end
  | _ => month_one_digit s
  end.

(** [3[01]|[12]\d|0[1-9]] *)
Definition day_two_digits (s : string) : option (Z * string) :=
  match s with
  | String a (String b rest) =>
      match digit a, digit b with
      | Some x, Some y =>
          if ((x =? 3) && (y <=? 1)) || ((1 <=? x) && (x <=? 2))
             || ((x =? 0) && (1 <=? y))
          then Some (10 * x + y, rest) else None
      | _, _ => None
      end
  | _ => None
  end.

(** [[1-9]| [1-9]] *)
Definition day_one_digit (s : string) : option (Z * string) :=
  match s with
  | String a rest =>
      match digit a with
      | Some x => if 1 <=? x then Some (x, rest) else None
      | None =>
          if Ascii.eqb a " " then
            match rest with
            | String b rest' =>
                match digit b with
                | Some y => if 1 <=? y then Some (y, rest') else None
                | None => None
                end
            | _ => None
            end
          else None
      end
  | _ => None
  end.

Definition parse_day (s : string) : option (Z * string) :=
  match day_two_digits s with
  | Some r => Some r
  | None => day_one_digit s
  end.

(** [datetime.date(y, m, d)] *)
Definition make_date (y m d : Z) : outcome date :=
  if valid_date (Date y m d) then Ok (Date y m d) else Raise ValueError.

Definition strptime (s : string) : outcome date :=
  match s with
  | String y1 (String y2 (String y3 (String y4 (String "-" rest)))) =>
      match digit y1, digit y2, digit y3, digit y4 with
      | Some a, Some b, Some c, Some d =>
          match parse_month rest with
          | Some (m, rest') =>
              match parse_day rest' with
              | Some (dd, "") =>
                  make_date (1000 * a + 100 * b + 10 * c + d) m dd
              | _ => Raise ValueError
              end
          | None => Raise ValueError
          end
      | _, _, _, _ => Raise ValueError
      end
  | _ => Raise ValueError
  end.

End Strptime.

(** ** Storage: the [transactions] table and the reads of [Database] *)

Module Database.

(** The columns of [transactions] the statistics queries read.  [category]
    is nullable. *)
Record Transaction : Type := {
  tx_type : string;
  tx_amount_cents : Z;
  tx_date : string;
  tx_category : option string
}.

Definition t : Type := list Transaction.

(** A row [{"date", "income", "expense"}] of the daily summaries. *)
Record DailyRow : Type := {
  row_date : string;
  row_income : Z;
  row_expense : Z
}.

(** A row [{"category", "amount_cents"}] of the category summary. *)
Record CategoryRow : Type := {
  cat_category : string;
  cat_amount_cents : Z
}.

(** TEXT comparison under the BINARY collation. *)
Definition text_le (a b : string) : Prop := String.leb a b = true.

#[global] Instance text_le_dec : RelDecision text_le :=
  fun a b => decide (String.leb a b = true).

(** [WHERE date >= ? AND date <= ?] *)
Definition in_range (start_date end_date : string) (tx : Transaction) : Prop :=
  text_le start_date (tx_date tx) /\ text_le (tx_date tx) end_date.

#[global] Instance in_range_dec start_date end_date tx
    : Decision (in_range start_date end_date tx) :=
  and_dec (text_le_dec _ _) (text_le_dec _ _).

(** [SUM(CASE WHEN cond THEN amount_cents ELSE 0 END)] over a group. *)
Definition sum_case (cond : Transaction -> bool) (group : list Transaction) : Z :=
  foldr (fun tx acc => (if cond tx then tx_amount_cents tx else 0) + acc) 0 group.

Definition is_income (tx : Transaction) : bool := String.eqb (tx_type tx) "income".
Definition is_expense (tx : Transaction) : bool := String.eqb (tx_type tx) "expense".

(** [type = 'expense' AND category = ?]; a NULL category matches nothing. *)
Definition is_expense_of (category : string) (tx : Transaction) : bool :=
  is_expense tx &&
  match tx_category tx with
  | Some c => String.eqb c category
  | None => false
  end.

(** [SELECT date, SUM(CASE income), SUM(CASE expense) FROM transactions
     WHERE date >= ? AND date <= ? GROUP BY date ORDER BY date], with the
    condition of the expense column as a parameter. *)
Definition daily_query (expense_cond : Transaction -> bool)
    (db : t) (start_date end_date : string) : list DailyRow :=
  let rows := filter (in_range start_date end_date) db in
  let dates := merge_sort text_le (remove_dups (tx_date <$> rows)) in
  (fun d =>
     let group := filter (fun tx => tx_date tx = d) rows in
     {| row_date := d;
        row_income := sum_case is_income group;
        row_expense := sum_case expense_cond group |}) <$> dates.

Definition get_daily_summary (db : t) (start_date end_date : string)
    : list DailyRow :=
  daily_query is_expense db start_date end_date.

Definition get_daily_summary_by_category (db : t)
    (start_date end_date : string) (category : option string)
    : list DailyRow :=
  match category with
  | None => get_daily_summary db start_date end_date
  | Some c => daily_query (is_expense_of c) db start_date end_date
  end.

(** The label COALESCE gives a NULL category (UTF-8 bytes of the source
    literal). *)
Definition uncategorized : string :=
  String (ascii_of_N 230) (String (ascii_of_N 156) (String (ascii_of_N 170)
  (String (ascii_of_N 229) (String (ascii_of_N 136) (String (ascii_of_N 134)
  (String (ascii_of_N 231) (String (ascii_of_N 177) (String (ascii_of_N 187)
  ""))))))))%N.

(** [ORDER BY total DESC] *)
Definition total_desc (a b : CategoryRow) : Prop :=
  cat_amount_cents b <= cat_amount_cents a.

#[global] Instance total_desc_dec : RelDecision total_desc :=
  fun a b => decide (cat_amount_cents b <= cat_amount_cents a).

(** [SELECT COALESCE(category, ...), SUM(amount_cents) FROM transactions
     WHERE date >= ? AND date <= ? AND type = ?
     GROUP BY category ORDER BY total DESC].  Rows with equal totals come
    in the order the sort leaves them; SQL fixes none. *)
Definition get_category_summary (db : t)
    (start_date end_date tx_ty : string) : list CategoryRow :=
  let rows :=
    filter (fun tx => in_range start_date end_date tx /\ tx_type tx = tx_ty) db in
  let groups := remove_dups (tx_category <$> rows) in
  merge_sort total_desc
    ((fun g =>
        {| cat_category := default uncategorized g;
           cat_amount_cents :=
             sum_case (fun _ => true) (filter (fun tx => tx_category tx = g) rows) |})
       <$> groups).

(** [get_summary_by_date_range]: the dict starts as
    [{"income": 0, "expense": 0}] and gets one entry per type present. *)
Definition get_summary_by_date_range (db : t) (start_date end_date : string)
    : gmap string Z :=
  let rows := filter (in_range start_date end_date) db in
  let types := remove_dups (tx_type <$> rows) in
  foldl
    (fun result ty =>
       let total := sum_case (fun _ => true) (filter (fun tx => tx_type tx = ty) rows) in
       <[ty := if total =? 0 then 0 else total]> result)
    (<["expense" := 0]> (<["income" := 0]> ∅))
    types.

End Database.

(** ** [StatisticsService] *)

Module StatisticsService.
Import Calendar Database.

Record PeriodSummary : Type := {
  income_cents : Z;
  expense_cents : Z
}.

Definition balance_cents (s : PeriodSummary) : Z :=
  income_cents s - expense_cents s.

(** A float obtained as [cents / 100.0], kept as its numerator.  The
    literal [0.0] is [Hundredths 0]. *)
Inductive display : Type := Hundredths (cents : Z).

Definition div100 (cents : Z) : display := Hundredths cents.
Definition minor_units (x : display) : Z := let 'Hundredths c := x in c.

(** What a percentage field holds: the int [0] of the guarded branch, or the
    float [num / den * 100]. *)
Inductive percentage : Type :=
| PctInt (n : Z)
| PctOf (num den : Z).

(** [num / den * 100]; the true division raises on a zero divisor. *)
Definition percent_of (num den : Z) : outcome percentage :=
  if den =? 0 then Raise ZeroDivisionError else Ok (PctOf num den).

(** *** Period calculator *)

Definition get_month_range (y m : Z) : outcome (string * string) :=
  last_day ← monthrange y m;
  Ok (Format.ym y m +:+ "-01", Format.ymd y m last_day).

Definition get_year_range (y : Z) : string * string :=
  (Format.fmt_0d 4 y +:+ "-01-01", Format.fmt_0d 4 y +:+ "-12-31").

(** One turn of the loop that walks back from the end month. *)
Definition previous_month (ym : Z * Z) : Z * Z :=
  let '(start_year, start_month) := ym in
  if start_month =? 1 then (start_year - 1, 12)
  else (start_year, start_month - 1).

(** The (year, month) pairs the function formats: the start month and the
    end month. *)
Definition last_n_full_months (today : date) (n : Z) : (Z * Z) * (Z * Z) :=
  let end_ym :=
    if month today =? 1 then (year today - 1, 12)
    else (year today, month today - 1) in
  (Nat.iter (Z.to_nat (n - 1)) previous_month end_ym, end_ym).

Definition get_last_n_full_months_range (today : date) (n : Z)
    : outcome (string * string) :=
  let '((start_year, start_month), (end_year, end_month)) :=
    last_n_full_months today n in
  end_last_day ← monthrange end_year end_month;
  let end_date := Format.ymd end_year end_month end_last_day in
  let start_date := Format.ym start_year start_month +:+ "-01" in
  Ok (start_date, end_date).

Definition get_last_3_months_range (today : date) :=
  get_last_n_full_months_range today 3.
Definition get_last_6_months_range (today : date) :=
  get_last_n_full_months_range today 6.
Definition get_last_12_months_range (today : date) :=
  get_last_n_full_months_range today 12.

(** *** Period summaries *)

Definition _get_period_summary (db : Database.t) (start_date end_date : string)
    : PeriodSummary :=
  let summary := get_summary_by_date_range db start_date end_date in
  {| income_cents := default 0 (summary !! "income");
     expense_cents := default 0 (summary !! "expense") |}.

Definition get_current_month_summary (db : Database.t) (today : date)
    : outcome PeriodSummary :=
  '(start, end_) ← get_month_range (year today) (month today);
  Ok (_get_period_summary db start end_).

Definition get_last_month_summary (db : Database.t) (today : date)
    : outcome PeriodSummary :=
  let '(y, m) :=
    if month today =? 1 then (year today - 1, 12)
    else (year today, month today - 1) in
  '(start, end_) ← get_month_range y m;
  Ok (_get_period_summary db start end_).

Definition get_current_year_summary (db : Database.t) (today : date)
    : PeriodSummary :=
  let '(start, end_) := get_year_range (year today) in
  _get_period_summary db start end_.

Definition get_custom_period_summary (db : Database.t)
    (start_date end_date : string) : PeriodSummary :=
  _get_period_summary db start_date end_date.

(** *** Category breakdown *)

Record BreakdownEntry : Type := {
  be_category : string;
  be_amount_cents : Z;
  be_amount : display;
  be_percentage : percentage
}.

(** The body of [get_category_breakdown] after the storage read. *)
Definition category_breakdown_of (raw_data : list CategoryRow)
    : outcome (list BreakdownEntry) :=
  let total := foldr (fun item acc => cat_amount_cents item + acc) 0 raw_data in
  foldl
    (fun acc item =>
       result ← acc;
       let amount := cat_amount_cents item in
       pct ← (if 0 <? total then percent_of amount total else Ok (PctInt 0));
       Ok (result ++ [{| be_category := cat_category item;
                         be_amount_cents := amount;
                         be_amount := div100 amount;
                         be_percentage := pct |}]))
    (Ok []) raw_data.

Definition get_category_breakdown (db : Database.t)
    (start_date end_date tx_ty : string) : outcome (list BreakdownEntry) :=
  category_breakdown_of (get_category_summary db start_date end_date tx_ty).

Definition get_expense_categories (db : Database.t)
    (start_date end_date : string) : list string :=
  cat_category <$> get_category_summary db start_date end_date "expense".

(** *** Daily trend *)

(** An entry of [get_daily_trend]: the date, both totals as displayed and
    both in minor units. *)
Record DailyTrendEntry : Type := {
  dt_date : string;
  dt_income : display;
  dt_expense : display;
  dt_income_cents : Z;
  dt_expense_cents : Z
}.

(** Only the dates that have transactions. *)
Definition get_daily_trend (db : Database.t) (start_date end_date : string)
    : list DailyTrendEntry :=
  (fun item =>
     {| dt_date := row_date item;
        dt_income := div100 (row_income item);
        dt_expense := div100 (row_expense item);
        dt_income_cents := row_income item;
        dt_expense_cents := row_expense item |})
    <$> get_daily_summary db start_date end_date.

(** *** Month over month *)

Record MonthOverMonth : Type := {
  expense_change_cents : Z;
  expense_change : display;
  expense_change_pct : percentage;
  income_change_cents : Z;
  income_change : display;
  income_change_pct : percentage
}.

Definition get_month_over_month_change (db : Database.t) (today : date)
    : outcome MonthOverMonth :=
  current ← get_current_month_summary db today;
  last ← get_last_month_summary db today;
  let expense_change := expense_cents current - expense_cents last in
  let income_change := income_cents current - income_cents last in
  e_pct ← (if 0 <? expense_cents last
           then percent_of expense_change (expense_cents last)
           else Ok (PctInt 0));
  i_pct ← (if 0 <? income_cents last
           then percent_of income_change (income_cents last)
           else Ok (PctInt 0));
  Ok {| expense_change_cents := expense_change;
        expense_change := div100 expense_change;
        expense_change_pct := e_pct;
        income_change_cents := income_change;
        income_change := div100 income_change;
        income_change_pct := i_pct |}.

(** *** Trend buckets *)

Record TrendBucket : Type := {
  label : string;
  income : display;
  expense : display
}.

Record TrendResult : Type := {
  granularity : string;
  data : list TrendBucket
}.

(** The per-key accumulator [{"income": int, "expense": int}]. *)
Record Totals : Type := {
  t_income : Z;
  t_expense : Z
}.

Definition zero_bucket (key : string) : TrendBucket :=
  {| label := key; income := Hundredths 0; expense := Hundredths 0 |}.

(** The bucket appended for [key], from the accumulated map. *)
Definition bucket_of (totals : gmap string Totals) (key : string) : TrendBucket :=
  match totals !! key with
  | Some item =>
      {| label := key;
         income := div100 (t_income item);
         expense := div100 (t_expense item) |}
  | None => zero_bucket key
  end.

(** [if key not in m: m[key] = {"income": 0, "expense": 0}], then both
    [+=] on the entry. *)
Definition add_item (m : gmap string Totals) (key : string) (item : DailyRow)
    : gmap string Totals :=
  let m0 :=
    match m !! key with
    | None => <[key := {| t_income := 0; t_expense := 0 |}]> m
    | Some _ => m
    end in
  let m1 :=
    alter (fun e => {| t_income := t_income e + row_income item;
                       t_expense := t_expense e |}) key m0 in
  alter (fun e => {| t_income := t_income e;
                     t_expense := t_expense e + row_expense item |}) key m1.

(** **** Day *)

(** [{item["date"]: item for item in raw_data}] *)
Definition data_map_of (raw_data : list DailyRow) : gmap string DailyRow :=
  foldl (fun m item => <[row_date item := item]> m) ∅ raw_data.

Definition day_bucket (data_map : gmap string DailyRow) (date_str : string)
    : TrendBucket :=
  match data_map !! date_str with
  | Some item =>
      {| label := date_str;
         income := div100 (row_income item);
         expense := div100 (row_expense item) |}
  | None => zero_bucket date_str
  end.

(** [while current <= end: ...; current += timedelta(days=1)] *)
Fixpoint daily_loop (fuel : nat) (data_map : gmap string DailyRow)
    (end_ current : date) (result : list TrendBucket)
    : outcome (list TrendBucket) :=
  if date_leb current end_ then
    match fuel with
    | O => Raise OutOfFuel
    | S fuel' =>
        let date_str := strftime current in
        let result := result ++ [day_bucket data_map date_str] in
        current ← add_one_day current;
        daily_loop fuel' data_map end_ current result
    end
  else Ok result.

(** A bound on the turns of the day loops: the days from [start] up to
    [end_]. *)
Definition day_fuel (start end_ : date) : nat :=
  Z.to_nat (days_between start end_ + 1).

Definition _get_daily_trend_advanced (db : Database.t) (start end_ : date)
    (category : option string) : outcome TrendResult :=
  let raw_data :=
    get_daily_summary_by_category db (strftime start) (strftime end_) category in
  let data_map := data_map_of raw_data in
  result ← daily_loop (day_fuel start end_) data_map end_ start [];
  Ok {| granularity := "day"; data := result |}.

(** **** Week *)

Definition week_key_of (d : date) : string :=
  let '(iso_year, iso_week, _) := isocalendar d in
  Format.week_key iso_year iso_week.

(** The first loop of the weekly path; [strptime] may raise. *)
Definition weekly_map_of (raw_data : list DailyRow) : outcome (gmap string Totals) :=
  foldl
    (fun acc item =>
       weekly_map ← acc;
       item_date ← Strptime.strptime (row_date item);
       Ok (add_item weekly_map (week_key_of item_date) item))
    (Ok ∅) raw_data.

Fixpoint weekly_loop (fuel : nat) (weekly_map : gmap string Totals)
    (end_ current : date) (result : list TrendBucket)
    (visited_weeks : gset string) : outcome (list TrendBucket) :=
  if date_leb current end_ then
    match fuel with
    | O => Raise OutOfFuel
    | S fuel' =>
        let week_key := week_key_of current in
        let '(result, visited_weeks) :=
          if decide (week_key ∉ visited_weeks)
          then (result ++ [bucket_of weekly_map week_key],
                {[week_key]} ∪ visited_weeks)
          else (result, visited_weeks) in
        current ← add_one_day current;
        weekly_loop fuel' weekly_map end_ current result visited_weeks
    end
  else Ok result.

Definition _get_weekly_trend_advanced (db : Database.t) (start end_ : date)
    (category : option string) : outcome TrendResult :=
  let raw_data :=
    get_daily_summary_by_category db (strftime start) (strftime end_) category in
  weekly_map ← weekly_map_of raw_data;
  result ← weekly_loop (day_fuel start end_) weekly_map end_ start [] ∅;
  Ok {| granularity := "week"; data := result |}.

(** **** Month *)

Definition monthly_map_of (raw_data : list DailyRow) : gmap string Totals :=
  foldl (fun m item => add_item m (Format.prefix 7 (row_date item)) item)
        ∅ raw_data.

(** [(a, b) <= (c, d)] on tuples of ints. *)
Definition pair_leb (p q : Z * Z) : bool :=
  (p.1 <? q.1) || ((p.1 =? q.1) && (p.2 <=? q.2)).

Fixpoint monthly_loop (fuel : nat) (monthly_map : gmap string Totals)
    (end_year end_month current_year current_month : Z)
    (result : list TrendBucket) : outcome (list TrendBucket) :=
  if pair_leb (current_year, current_month) (end_year, end_month) then
    match fuel with
    | O => Raise OutOfFuel
    | S fuel' =>
        let month_key := Format.ym current_year current_month in
        let result := result ++ [bucket_of monthly_map month_key] in
        if current_month =? 12
        then monthly_loop fuel' monthly_map end_year end_month
               (current_year + 1) 1 result
        else monthly_loop fuel' monthly_map end_year end_month
               current_year (current_month + 1) result
    end
  else Ok result.

(** A bound on the turns of the month loop. *)
Definition month_fuel (start end_ : date) : nat :=
  Z.to_nat (12 * year end_ + month end_ - (12 * year start + month start) + 1).

Definition _get_monthly_trend_advanced (db : Database.t) (start end_ : date)
    (category : option string) : outcome TrendResult :=
  let raw_data :=
    get_daily_summary_by_category db (strftime start) (strftime end_) category in
  let monthly_map := monthly_map_of raw_data in
  result ← monthly_loop (month_fuel start end_) monthly_map
             (year end_) (month end_) (year start) (month start) [];
  Ok {| granularity := "month"; data := result |}.

(** **** Year *)

Definition yearly_map_of (raw_data : list DailyRow) : gmap string Totals :=
  foldl (fun m item => add_item m (Format.prefix 4 (row_date item)) item)
        ∅ raw_data.

Definition _get_yearly_trend_advanced (db : Database.t) (start end_ : date)
    (category : option string) : outcome TrendResult :=
  let raw_data :=
    get_daily_summary_by_category db (strftime start) (strftime end_) category in
  let yearly_map := yearly_map_of raw_data in
  (* for year in range(start.year, end.year + 1) *)
  let result :=
    (fun y => bucket_of yearly_map (Format.fmt_0d 4 y))
      <$> seqZ (year start) (year end_ + 1 - year start) in
  Ok {| granularity := "year"; data := result |}.

(** **** Dispatch *)

Definition get_trend_data_advanced (db : Database.t)
    (start_date end_date granularity : string) (category : option string)
    : outcome TrendResult :=
  start ← Strptime.strptime start_date;
  end_ ← Strptime.strptime end_date;
  if String.eqb granularity "day" then
    _get_daily_trend_advanced db start end_ category
  else if String.eqb granularity "week" then
    _get_weekly_trend_advanced db start end_ category
  else if String.eqb granularity "month" then
    _get_monthly_trend_advanced db start end_ category
  else if String.eqb granularity "year" then
    _get_yearly_trend_advanced db start end_ category
  else
    _get_daily_trend_advanced db start end_ category.

Definition get_trend_data (db : Database.t) (start_date end_date : string)
    : outcome TrendResult :=
  start ← Strptime.strptime start_date;
  end_ ← Strptime.strptime end_date;
  let days_diff := days_between start end_ + 1 in
  let granularity := if days_diff <=? 31 then "day" else "month" in
  get_trend_data_advanced db start_date end_date granularity None.

End StatisticsService.

(** ** [StatisticsWidget]: the period selector *)

Module StatisticsWidget.
Import Calendar StatisticsService.

(** [_get_date_range], with what it reads as arguments: the data of the
    selected entry of the period combo box, the date of today and the two
    date edits in the format ["yyyy-MM-dd"]. *)
Definition _get_date_range (period : string) (today : date)
    (custom_start custom_end : string) : outcome (string * string) :=
  if String.eqb period "current_month" then
    get_month_range (year today) (month today)
  else if String.eqb period "last_3_months" then
    get_last_3_months_range today
  else if String.eqb period "last_6_months" then
    get_last_6_months_range today
  else if String.eqb period "last_12_months" then
    get_last_12_months_range today
  else if String.eqb period "current_year" then
    Ok (get_year_range (year today))
  else (* custom *)
    Ok (custom_start, custom_end).

End StatisticsWidget.

(* ===================================================================== *)
(** * Part II: specification vocabulary                                   *)
(* ===================================================================== *)

(** The notions the properties are stated with: orders, enumerations of
    calendar units, sums over rows.  None of them is part of the program. *)

Import Calendar Database StatisticsService.

(** ** Digits and orders *)

(** [f] holds of the [n] integers from [z] on: used to settle a bounded
    statement by evaluation. *)
Fixpoint all_from (n : nat) (f : Z -> bool) (z : Z) : bool :=
  match n with
  | O => true
  | S n' => f z && all_from n' f (z + 1)
  end.

(** The character of a decimal digit. *)
Definition dchar (k : Z) : ascii := ascii_of_N (Z.to_N (48 + k)).

(** The two-digit and four-digit renderings of a number. *)
Definition digits2 (n : Z) : string :=
  String (dchar (n / 10)) (String (dchar (n mod 10)) "").

Definition digits4 (n : Z) : string :=
  String (dchar (n / 1000)) (String (dchar (n / 100 mod 10))
    (String (dchar (n / 10 mod 10)) (String (dchar (n mod 10)) ""))).

(** Lexicographic comparison of (year, month, day). *)
Definition compare3 (y1 m1 d1 y2 m2 d2 : Z) : comparison :=
  match y1 ?= y2 with
  | Eq => match m1 ?= m2 with
          | Eq => d1 ?= d2
          | c => c
          end
  | c => c
  end.

(** The order of dates, as propositions. *)
Definition date_le (d1 d2 : date) : Prop := date_leb d1 d2 = true.

Definition date_lt (d1 d2 : date) : Prop := date_ltb d1 d2 = true.

(** [date.max] *)
Definition date_max : date := Date 9999 12 31.

(** ** Storage *)

(** Stored dates are printed calendar dates (the data model of the
    transaction record). *)
Definition wf_db (db : Database.t) : Prop :=
  forall tx, tx ∈ db ->
    exists d, valid_date d = true /\ tx_date tx = strftime d.

(** What the storage contract promises about the rows of a daily summary
    for the closed range [start, end_]. *)
Definition rows_in_range (start end_ : date) (raw : list DailyRow) : Prop :=
  NoDup (row_date <$> raw) /\
  forall r, r ∈ raw ->
    exists d, valid_date d = true /\ row_date r = strftime d /\
              date_le start d /\ date_le d end_.

(** ** Sums and buckets *)

(** The sum of [f] over the rows whose key is [k]. *)
Definition sum_where (f : DailyRow -> Z) (key : DailyRow -> string)
    (k : string) (raw : list DailyRow) : Z :=
  foldr (fun r acc => (if decide (key r = k) then f r else 0) + acc) 0 raw.

(** The sum of [f] over all rows. *)
Definition sum_rows (f : DailyRow -> Z) (raw : list DailyRow) : Z :=
  foldr (fun r acc => f r + acc) 0 raw.

(** The bucket of key [k]: the display of the totals of its rows. *)
Definition bucket_for (key : DailyRow -> string) (raw : list DailyRow)
    (k : string) : TrendBucket :=
  {| label := k;
     income := div100 (sum_where row_income key k raw);
     expense := div100 (sum_where row_expense key k raw) |}.

(** The shape shared by the accumulation loops. *)
Definition accumulate (key : DailyRow -> string) (raw : list DailyRow)
    : gmap string Totals :=
  foldl (fun m item => add_item m (key item) item) ∅ raw.

(** Totals of a bucket sequence, in minor units. *)
Definition sum_income (bs : list TrendBucket) : Z :=
  foldr (fun b acc => minor_units (income b) + acc) 0 bs.

Definition sum_expense (bs : list TrendBucket) : Z :=
  foldr (fun b acc => minor_units (expense b) + acc) 0 bs.

(** ** Calendar units of a range *)

(** [n] consecutive days from [d]. *)
Fixpoint date_seq (n : nat) (d : date) : list date :=
  match n with
  | O => []
  | S n' => d :: date_seq n' (tomorrow d)
  end.

(** The days of the closed range [start, end_]. *)
Definition days_of (start end_ : date) : list date :=
  date_seq (Z.to_nat (days_between start end_ + 1)) start.

(** The (year, month) after [ym]. *)
Definition next_month (ym : Z * Z) : Z * Z :=
  if ym.2 =? 12 then (ym.1 + 1, 1) else (ym.1, ym.2 + 1).

(** [n] consecutive (year, month) pairs from [ym]. *)
Fixpoint month_seq (n : nat) (ym : Z * Z) : list (Z * Z) :=
  match n with
  | O => []
  | S n' => ym :: month_seq n' (next_month ym)
  end.

(** The months and the years of the closed range. *)
Definition months_of (start end_ : date) : list (Z * Z) :=
  month_seq (StatisticsService.month_fuel start end_) (year start, month start).

Definition years_of (start end_ : date) : list Z :=
  seqZ (year start) (year end_ + 1 - year start).

(** Lexicographic order on pairs of ints. *)
Definition pair_lt (p q : Z * Z) : Prop :=
  p.1 < q.1 \/ (p.1 = q.1 /\ p.2 < q.2).

Definition pair_le (p q : Z * Z) : Prop :=
  p.1 < q.1 \/ (p.1 = q.1 /\ p.2 <= q.2).

(** The (year, month) of a date. *)
Definition month_of (d : date) : Z * Z := (year d, month d).

(** A calendar unit is spanned by [start, end_] when a date of the range
    lies in it. *)
Definition spanned {U : Type} (unit_of : date -> U) (start end_ : date) (u : U)
    : Prop :=
  exists d, valid_date d = true /\ date_le start d /\ date_le d end_ /\
            unit_of d = u.

(** [units] lists the spanned units, each once, in ascending order. *)
Definition enumerates {U : Type} (lt : U -> U -> Prop) (unit_of : date -> U)
    (start end_ : date) (units : list U) : Prop :=
  StronglySorted lt units /\
  forall u, u ∈ units <-> spanned unit_of start end_ u.

(** Months counted on one axis. *)
Definition month_index (p : Z * Z) : Z := 12 * p.1 + p.2.

(** Ordinal of January 1st. *)
Definition firstday (y : Z) : Z := ymd2ord y 1 1.

(** The (ISO year, ISO week) of a date. *)
Definition iso_week_of (d : date) : Z * Z :=
  let '(y, w, _) := isocalendar d in (y, w).

(** [date.weekday()]: Monday is 0. *)
Definition weekday (d : date) : Z := (toordinal d + 6) mod 7.

(** Ordinal of the Thursday of the Monday-based week of [d]. *)
Definition thursday_of (d : date) : Z := toordinal d - weekday d + 3.

(** Labels of the calendar units. *)
Definition month_label (p : Z * Z) : string := Format.ym p.1 p.2.

Definition week_label (p : Z * Z) : string := Format.week_key p.1 p.2.

Definition year_label (y : Z) : string := Format.fmt_0d 4 y.

(** Keys of the rows, per granularity. *)
Definition month_key_row (r : DailyRow) : string := Format.prefix 7 (row_date r).

Definition year_key_row (r : DailyRow) : string := Format.prefix 4 (row_date r).

Definition week_key_row (r : DailyRow) : string :=
  match Strptime.strptime (row_date r) with
  | Ok d => week_key_of d
  | Raise _ => ""
  end.

(** The keys a walk appends: each key at its first occurrence, unless
    already visited. *)
Fixpoint fresh_keys (visited : gset string) (keys : list string) : list string :=
  match keys with
  | [] => []
  | k :: ks =>
      if decide (k ∉ visited) then k :: fresh_keys ({[k]} ∪ visited) ks
      else fresh_keys visited ks
  end.

(** First occurrences in a list of units. *)
Fixpoint first_seen {A} `{EqDecision A} (seen l : list A) : list A :=
  match l with
  | [] => []
  | x :: l' =>
      if decide (x ∈ seen) then first_seen seen l'
      else x :: first_seen (x :: seen) l'
  end.

(** The ISO weeks of the closed range, in order of first occurrence. *)
Definition weeks_of (start end_ : date) : list (Z * Z) :=
  first_seen [] (iso_week_of <$> days_of start end_).

(** ** Outcomes *)

(** The day walk over [start, end_] never has to step past [date.max]:
    either the range ends before it, or the range is empty. *)
Definition reachable (start end_ : date) : Prop :=
  end_ <> date_max \/ date_lt end_ start.

(** The rows the trend functions read. *)
Definition raw_rows (db : Database.t) (start end_ : date)
    (category : option string) : list DailyRow :=
  get_daily_summary_by_category db (strftime start) (strftime end_) category.

#[global] Instance date_eq_dec : EqDecision date.
Proof. solve_decision. Defined.

(** The date of the row is accepted by [strptime]. *)
Definition parses (r : DailyRow) : Prop :=
  exists d, Strptime.strptime (row_date r) = Ok d.

#[global] Instance parses_dec r : Decision (parses r).
Proof.
  unfold parses. destruct (Strptime.strptime (row_date r)) as [d|e].
  - left. by exists d.
  - right. by intros [d [=]].
Defined.

#[global] Instance reachable_dec start end_ : Decision (reachable start end_).
Proof. unfold reachable, date_lt. apply _. Defined.

(** ** Vocabulary of the claims *)

(** A small ledger used where a statement is run on concrete data. *)
Definition sample_db : Database.t :=
  [ {| tx_type := "expense"; tx_amount_cents := 1000;
       tx_date := "2026-01-05"; tx_category := Some "food" |};
    {| tx_type := "expense"; tx_amount_cents := 2000;
       tx_date := "2026-01-05"; tx_category := Some "food" |};
    {| tx_type := "income"; tx_amount_cents := 500;
       tx_date := "2026-01-03"; tx_category := None |};
    {| tx_type := "expense"; tx_amount_cents := 3000;
       tx_date := "2026-01-10"; tx_category := Some "transport" |} ].

(** What a guarded ratio evaluates to. *)
Definition guarded_pct (num den : Z) : percentage :=
  if 0 <? den then PctOf num den else PctInt 0.

(** The entry [get_category_breakdown] appends for a row. *)
Definition breakdown_entry (total : Z) (item : CategoryRow) : BreakdownEntry :=
  {| be_category := cat_category item;
     be_amount_cents := cat_amount_cents item;
     be_amount := div100 (cat_amount_cents item);
     be_percentage := guarded_pct (cat_amount_cents item) total |}.

Definition category_total (raw_data : list CategoryRow) : Z :=
  foldr (fun item acc => cat_amount_cents item + acc) 0 raw_data.

(** Descending order of a list of amounts. *)
Definition descending (l : list Z) : Prop := StronglySorted (fun a b => b <= a) l.

Definition unsorted_rows : list CategoryRow :=
  [ {| cat_category := "food"; cat_amount_cents := 100 |};
    {| cat_category := "rent"; cat_amount_cents := 300 |} ].

(** What a caller sees of the incomes: the tag and, per bucket, the label
    and the income. *)
Definition incomes (o : outcome TrendResult)
    : outcome (string * list (string * display)) :=
  res ← o; Ok (granularity res, (fun b => (label b, income b)) <$> data res).

(** A kind of calendar unit: what the four granularities differ in. *)
Record unit_kind : Type := {
  uk_name : string;                       (* the granularity string *)
  uk_unit : Type;                         (* the calendar unit *)
  uk_unit_of : date -> uk_unit;           (* the unit a date lies in *)
  uk_lt : uk_unit -> uk_unit -> Prop;     (* chronological order *)
  uk_label : uk_unit -> string;           (* the bucket label *)
  uk_key : DailyRow -> string             (* the key the rows are summed by *)
}.

Definition day_kind : unit_kind :=
  {| uk_name := "day"; uk_unit := date; uk_unit_of := id; uk_lt := date_lt;
     uk_label := strftime; uk_key := row_date |}.

Definition week_kind : unit_kind :=
  {| uk_name := "week"; uk_unit := Z * Z; uk_unit_of := iso_week_of;
     uk_lt := pair_lt; uk_label := week_label; uk_key := week_key_row |}.

Definition month_kind : unit_kind :=
  {| uk_name := "month"; uk_unit := Z * Z; uk_unit_of := month_of;
     uk_lt := pair_lt; uk_label := month_label; uk_key := month_key_row |}.

Definition year_kind : unit_kind :=
  {| uk_name := "year"; uk_unit := Z; uk_unit_of := year; uk_lt := Z.lt;
     uk_label := year_label; uk_key := year_key_row |}.

Definition unit_kinds : list unit_kind :=
  [day_kind; week_kind; month_kind; year_kind].

(** The units of kind [g] that [start, end_] spans, in order. *)
Definition units_of (g : unit_kind) (start end_ : date)
    (units : list (uk_unit g)) : Prop :=
  enumerates (uk_lt g) (uk_unit_of g) start end_ units.

(** The buckets of kind [g] over the rows [raw], for the units [units]. *)
Definition buckets_of (g : unit_kind) (raw : list DailyRow)
    (units : list (uk_unit g)) : list TrendBucket :=
  bucket_for (uk_key g) raw <$> (uk_label g <$> units).

(** The day-stepping kinds are the ones whose walk adds a day at a time. *)
Definition steps_days (g : unit_kind) : Prop :=
  uk_name g = "day" \/ uk_name g = "week".

(** The facts about a kind that the shared properties rest on. *)
Record kind_ok (g : unit_kind) : Prop := {
  ko_irrefl : forall u, ~ uk_lt g u u;
  ko_inj : forall d d', valid_date d = true -> valid_date d' = true ->
             uk_label g (uk_unit_of g d) = uk_label g (uk_unit_of g d') ->
             uk_unit_of g d = uk_unit_of g d';
  ko_key : forall r d, valid_date d = true -> row_date r = strftime d ->
             uk_key g r = uk_label g (uk_unit_of g d)
}.

(** The kind a granularity string selects. *)
Definition kind_of (g : string) : unit_kind :=
  if decide (g = "week") then week_kind
  else if decide (g = "month") then month_kind
  else if decide (g = "year") then year_kind
  else day_kind.

(** ** Vocabulary of the further properties *)

(** [x] lies in the closed TEXT range [start_date, end_date]. *)
Definition text_between (start_date end_date x : string) : Prop :=
  String.leb start_date x = true /\ String.leb x end_date = true.

(** The calendar date a transaction is stored with, when its text is a
    printed date. *)
Definition date_of (tx : Transaction) : option date :=
  match Strptime.strptime (tx_date tx) with
  | Ok d => if decide (strftime d = tx_date tx) then Some d else None
  | Raise _ => None
  end.

(** The transaction is dated on a date that satisfies [P]. *)
Definition dated_in (P : date -> bool) (tx : Transaction) : bool :=
  match date_of tx with
  | Some d => P d
  | None => false
  end.

Definition in_month (p : Z * Z) (d : date) : bool := bool_decide (month_of d = p).

Definition in_year (y : Z) (d : date) : bool := bool_decide (year d = y).

(** The total of the transactions of [db] that satisfy [cond] and are dated
    on a date that satisfies [P]. *)
Definition total_of (cond : Transaction -> bool) (P : date -> bool)
    (db : Database.t) : Z :=
  sum_case (fun tx => cond tx && dated_in P tx) db.

(** The transactions of the TEXT range. *)
Definition stored_between (db : Database.t) (start_date end_date : string)
    : list Transaction :=
  filter (in_range start_date end_date) db.

(** The condition of the expense column, per category filter. *)
Definition expense_cond (category : option string) : Transaction -> bool :=
  match category with
  | None => is_expense
  | Some c => is_expense_of c
  end.

(** Strict TEXT order. *)
Definition text_lt (a b : string) : Prop := text_le a b /\ a <> b.

(** The amounts of a breakdown, added up. *)
Definition sum_amounts (entries : list BreakdownEntry) : Z :=
  foldr (fun en acc => be_amount_cents en + acc) 0 entries.

(** The date lies in the closed range [start, end_]. *)
Definition between (start end_ d : date) : bool :=
  date_leb start d && date_leb d end_.

(** The labels a granularity string gives the range, in order. *)
Definition trend_labels (g : string) (start end_ : date) : list string :=
  if decide (g = "week") then week_label <$> weeks_of start end_
  else if decide (g = "month") then month_label <$> months_of start end_
  else if decide (g = "year") then year_label <$> years_of start end_
  else strftime <$> days_of start end_.

(** The bucket that shows an entry of the daily trend. *)
Definition bucket_of_entry (en : DailyTrendEntry) : TrendBucket :=
  {| label := dt_date en; income := dt_income en; expense := dt_expense en |}.

(** Monday-based weeks counted on one axis: the week of 0001-01-01, a
    Monday, is week 1. *)
Definition week_index (d : date) : Z := (toordinal d + 6) / 7.

(** The periods the selector computes from the date of today. *)
Definition named_periods : list string :=
  ["current_month"; "last_3_months"; "last_6_months"; "last_12_months";
   "current_year"].

(** A ledger that stores a timestamp where a date belongs. *)
Definition timestamp_db : Database.t :=
  [ {| tx_type := "expense"; tx_amount_cents := 100;
       tx_date := "2026-01-10T08:00"; tx_category := None |} ].

(** Every character of the string is an ASCII character. *)
Fixpoint ascii_only (s : string) : bool :=
  match s with
  | EmptyString => true
  | String c s' => (N_of_ascii c <? 128)%N && ascii_only s'
  end.

(** [strptime] rejects the string. *)
Definition rejected (s : string) : Prop :=
  forall d, Strptime.strptime s <> Ok d.

(** A transaction matches a call when the call counts it: an income, or an
    expense (of the category, under a filter).  No transaction dated in the
    unit [u] matches. *)
Definition no_matching_transaction_in {U : Type} (unit_of : date -> U)
    (db : Database.t) (category : option string) (u : U) : Prop :=
  forall tx d, tx ∈ db -> valid_date d = true -> tx_date tx = strftime d ->
    unit_of d = u ->
    is_income tx = false /\ expense_cond category tx = false.

(* ===================================================================== *)
(** * Part III: properties                                                *)
(* ===================================================================== *)

(** ** Bounded checks by evaluation *)

Lemma all_from_spec n f z :
  all_from n f z = true -> forall k, z <= k < z + Z.of_nat n -> f k = true.
Proof.
  revert z. induction n as [|n IH]; intros z H k Hk; [lia|].
  simpl in H. apply andb_prop in H as [Hz Hrest].
  destruct (decide (k = z)) as [->|Hne]; [done|].
  apply (IH (z + 1)); [done|lia].
Qed.

(** ** Decimal formatting *)

Module FormatFacts.
Import Format.

Lemma fmt_0d_2_digits n : 0 <= n <= 99 -> fmt_0d 2 n = digits2 n.
Proof.
  intros Hn.
  assert (H : all_from (Z.to_nat 100) (fun k => String.eqb (fmt_0d 2 k) (digits2 k)) 0 = true)
    by (vm_compute; reflexivity).
  apply String.eqb_eq, (all_from_spec _ _ _ H). lia.
Qed.

Lemma fmt_0d_4_digits n : 0 <= n <= 9999 -> fmt_0d 4 n = digits4 n.
Proof.
  intros Hn.
  assert (H : all_from (Z.to_nat 10000) (fun k => String.eqb (fmt_0d 4 k) (digits4 k)) 0 = true)
    by (vm_compute; reflexivity).
  apply String.eqb_eq, (all_from_spec _ _ _ H). lia.
Qed.

Lemma dchar_code k : 0 <= k <= 9 -> Z.of_N (N_of_ascii (dchar k)) = 48 + k.
Proof.
  intros Hk. unfold dchar. rewrite N_ascii_embedding; lia.
Qed.

Lemma dchar_compare a b :
  0 <= a <= 9 -> 0 <= b <= 9 -> Ascii.compare (dchar a) (dchar b) = (a ?= b).
Proof.
  intros Ha Hb. unfold Ascii.compare.
  rewrite <- N2Z.inj_compare, !dchar_code by done.
  destruct (Z.compare_spec a b), (Z.compare_spec (48 + a) (48 + b)); lia || done.
Qed.

(** The digits of a number below 100 and below 10000. *)
Lemma digits2_bounds n :
  0 <= n <= 99 -> 0 <= n / 10 <= 9 /\ 0 <= n mod 10 <= 9.
Proof. intros. Z.div_mod_to_equations. lia. Qed.

Lemma digits4_bounds n :
  0 <= n <= 9999 ->
  0 <= n / 1000 <= 9 /\ 0 <= n / 100 mod 10 <= 9 /\
  0 <= n / 10 mod 10 <= 9 /\ 0 <= n mod 10 <= 9.
Proof. intros. Z.div_mod_to_equations. lia. Qed.

Lemma digits2_value n : n = 10 * (n / 10) + n mod 10.
Proof. Z.div_mod_to_equations. lia. Qed.

Lemma digits4_value n :
  n = 1000 * (n / 1000) + 100 * (n / 100 mod 10) + 10 * (n / 10 mod 10) + n mod 10.
Proof. Z.div_mod_to_equations. lia. Qed.

Lemma append_cons c s t : String c s +:+ t = String c (s +:+ t).
Proof. reflexivity. Qed.

Lemma append_nil t : "" +:+ t = t.
Proof. reflexivity. Qed.

Lemma append_nil_r s : s +:+ "" = s.
Proof. induction s as [|c s IH]; [done|]. by rewrite append_cons, IH. Qed.

Ltac str_norm := rewrite ?append_cons, ?append_nil.

(** Comparison of fixed-width digit strings is comparison of numbers. *)
Lemma String_compare_cons a b s t :
  String.compare (String a s) (String b t) =
  match Ascii.compare a b with
  | Eq => String.compare s t
  | Lt => Lt
  | Gt => Gt
  end.
Proof. reflexivity. Qed.

Lemma digits2_compare m1 m2 s t :
  0 <= m1 <= 99 -> 0 <= m2 <= 99 ->
  String.compare (digits2 m1 +:+ s) (digits2 m2 +:+ t) =
  match m1 ?= m2 with
  | Eq => String.compare s t
  | c => c
  end.
Proof.
  intros H1 H2.
  destruct (digits2_bounds m1 H1) as [? ?], (digits2_bounds m2 H2) as [? ?].
  pose proof (digits2_value m1). pose proof (digits2_value m2).
  unfold digits2. str_norm.
  rewrite !String_compare_cons, !dchar_compare by done.
  destruct (Z.compare_spec (m1 / 10) (m2 / 10)),
           (Z.compare_spec (m1 mod 10) (m2 mod 10)),
           (Z.compare_spec m1 m2); try done; lia.
Qed.

Lemma digits4_compare y1 y2 s t :
  0 <= y1 <= 9999 -> 0 <= y2 <= 9999 ->
  String.compare (digits4 y1 +:+ s) (digits4 y2 +:+ t) =
  match y1 ?= y2 with
  | Eq => String.compare s t
  | c => c
  end.
Proof.
  intros H1 H2.
  destruct (digits4_bounds y1 H1) as (? & ? & ? & ?).
  destruct (digits4_bounds y2 H2) as (? & ? & ? & ?).
  pose proof (digits4_value y1). pose proof (digits4_value y2).
  unfold digits4. str_norm.
  rewrite !String_compare_cons, !dchar_compare by done.
  destruct (Z.compare_spec (y1 / 1000) (y2 / 1000)),
           (Z.compare_spec (y1 / 100 mod 10) (y2 / 100 mod 10)),
           (Z.compare_spec (y1 / 10 mod 10) (y2 / 10 mod 10)),
           (Z.compare_spec (y1 mod 10) (y2 mod 10)),
           (Z.compare_spec y1 y2); try done; lia.
Qed.

Lemma dash_compare s t :
  String.compare ("-" +:+ s) ("-" +:+ t) = String.compare s t.
Proof. reflexivity. Qed.

Lemma ymd_digits y m d :
  0 <= y <= 9999 -> 0 <= m <= 99 -> 0 <= d <= 99 ->
  ymd y m d = digits4 y +:+ "-" +:+ digits2 m +:+ "-" +:+ digits2 d +:+ "".
Proof.
  intros. unfold ymd. rewrite fmt_0d_4_digits, !fmt_0d_2_digits by done.
  by rewrite append_nil_r.
Qed.

Lemma ym_digits y m :
  0 <= y <= 9999 -> 0 <= m <= 99 ->
  ym y m = digits4 y +:+ "-" +:+ digits2 m +:+ "".
Proof.
  intros. unfold ym. rewrite fmt_0d_4_digits, !fmt_0d_2_digits by done.
  by rewrite append_nil_r.
Qed.

Lemma ymd_compare y1 m1 d1 y2 m2 d2 :
  0 <= y1 <= 9999 -> 0 <= m1 <= 99 -> 0 <= d1 <= 99 ->
  0 <= y2 <= 9999 -> 0 <= m2 <= 99 -> 0 <= d2 <= 99 ->
  String.compare (ymd y1 m1 d1) (ymd y2 m2 d2) = compare3 y1 m1 d1 y2 m2 d2.
Proof.
  intros. rewrite !ymd_digits by done.
  rewrite digits4_compare, dash_compare, digits2_compare, dash_compare,
    digits2_compare by done.
  unfold compare3. cbn [String.compare].
  destruct (y1 ?= y2), (m1 ?= m2), (d1 ?= d2); reflexivity.
Qed.

Lemma ymd_inj y1 m1 d1 y2 m2 d2 :
  0 <= y1 <= 9999 -> 0 <= m1 <= 99 -> 0 <= d1 <= 99 ->
  0 <= y2 <= 9999 -> 0 <= m2 <= 99 -> 0 <= d2 <= 99 ->
  ymd y1 m1 d1 = ymd y2 m2 d2 -> y1 = y2 /\ m1 = m2 /\ d1 = d2.
Proof.
  intros ?????? E.
  assert (C : String.compare (ymd y1 m1 d1) (ymd y2 m2 d2) = Eq)
    by (rewrite E; clear; induction (ymd y2 m2 d2) as [|c s IH];
        [done | rewrite String_compare_cons; unfold Ascii.compare;
                by rewrite N.compare_refl]).
  rewrite ymd_compare in C by done. unfold compare3 in C.
  destruct (Z.compare_spec y1 y2), (Z.compare_spec m1 m2),
           (Z.compare_spec d1 d2); done.
Qed.

End FormatFacts.

(** ** Calendar arithmetic *)

Module CalendarFacts.
Import Calendar.

Lemma valid_date_spec d :
  valid_date d = true <->
  1 <= year d <= 9999 /\ 1 <= month d <= 12 /\
  1 <= day d <= days_in_month (year d) (month d).
Proof. unfold valid_date, MINYEAR, MAXYEAR. rewrite !andb_true_iff. lia. Qed.

Lemma date_leb_spec d1 d2 :
  date_leb d1 d2 = true <->
  year d1 < year d2 \/
  (year d1 = year d2 /\
   (month d1 < month d2 \/ (month d1 = month d2 /\ day d1 <= day d2))).
Proof.
  unfold date_leb. rewrite !orb_true_iff, !andb_true_iff, !orb_true_iff,
    !andb_true_iff. lia.
Qed.

Lemma date_ltb_spec d1 d2 :
  date_ltb d1 d2 = true <->
  year d1 < year d2 \/
  (year d1 = year d2 /\
   (month d1 < month d2 \/ (month d1 = month d2 /\ day d1 < day d2))).
Proof.
  unfold date_ltb. rewrite !orb_true_iff, !andb_true_iff, !orb_true_iff,
    !andb_true_iff. lia.
Qed.

Lemma date_leb_false d1 d2 : date_leb d1 d2 = false <-> date_ltb d2 d1 = true.
Proof.
  rewrite <- not_true_iff_false, date_leb_spec, date_ltb_spec. lia.
Qed.

Lemma date_eq d1 d2 :
  year d1 = year d2 -> month d1 = month d2 -> day d1 = day d2 -> d1 = d2.
Proof. destruct d1, d2; simpl; congruence. Qed.

Ltac month_cases m :=
  let H := fresh "Hm" in
  assert (H : m = 1 \/ m = 2 \/ m = 3 \/ m = 4 \/ m = 5 \/ m = 6 \/
              m = 7 \/ m = 8 \/ m = 9 \/ m = 10 \/ m = 11 \/ m = 12) by lia;
  destruct H as [->|[->|[->|[->|[->|[->|[->|[->|[->|[->|[->| ->]]]]]]]]]]].

Lemma days_in_month_bounds y m :
  1 <= m <= 12 -> 28 <= days_in_month y m <= 31.
Proof.
  intros Hm. unfold days_in_month.
  month_cases m; simpl; destruct (isleap y); simpl; lia.
Qed.

Lemma isleap_spec y :
  isleap y = true <-> y mod 4 = 0 /\ (y mod 100 <> 0 \/ y mod 400 = 0).
Proof.
  unfold isleap. rewrite andb_true_iff, orb_true_iff, negb_true_iff,
    !Z.eqb_eq, Z.eqb_neq. tauto.
Qed.

Lemma days_before_year_succ y :
  days_before_year (y + 1) =
  days_before_year y + 365 + (if isleap y then 1 else 0).
Proof.
  unfold days_before_year.
  destruct (isleap y) eqn:L.
  - apply isleap_spec in L. Z.div_mod_to_equations. lia.
  - apply not_true_iff_false in L. rewrite isleap_spec in L.
    Z.div_mod_to_equations. lia.
Qed.

Lemma days_before_year_step y : days_before_year y + 365 <= days_before_year (y + 1).
Proof. rewrite days_before_year_succ. destruct (isleap y); lia. Qed.

Lemma days_before_year_mono y1 y2 :
  y1 <= y2 -> days_before_year y1 + 365 * (y2 - y1) <= days_before_year y2.
Proof.
  intros H. replace y2 with (y1 + Z.of_nat (Z.to_nat (y2 - y1))) by lia.
  generalize (Z.to_nat (y2 - y1)) as k. clear. intros k.
  induction k as [|k IH]; [rewrite Z.add_0_r; lia|].
  replace (y1 + Z.of_nat (S k)) with (y1 + Z.of_nat k + 1) by lia.
  pose proof (days_before_year_step (y1 + Z.of_nat k)). lia.
Qed.

(** Day of the year of a valid (month, day): between 1 and the length of
    the year. *)
Lemma day_of_year_bounds y m d :
  1 <= m <= 12 -> 1 <= d <= days_in_month y m ->
  1 <= days_before_month y m + d <= 365 + (if isleap y then 1 else 0).
Proof.
  intros Hm. unfold days_before_month, days_in_month.
  month_cases m; simpl; destruct (isleap y); simpl; lia.
Qed.

Lemma days_before_month_lt y m1 d1 m2 :
  1 <= m1 -> m1 < m2 -> m2 <= 12 -> 1 <= d1 <= days_in_month y m1 ->
  days_before_month y m1 + d1 <= days_before_month y m2.
Proof.
  intros H1 H2 H3. unfold days_before_month, days_in_month.
  month_cases m1; simpl; destruct (isleap y); simpl; intros Hd;
    month_cases m2; simpl; lia.
Qed.

Lemma toordinal_lt d1 d2 :
  valid_date d1 = true -> valid_date d2 = true ->
  date_lt d1 d2 -> toordinal d1 < toordinal d2.
Proof.
  unfold date_lt. rewrite !valid_date_spec, date_ltb_spec.
  destruct d1 as [y1 m1 d1], d2 as [y2 m2 d2]. unfold toordinal, ymd2ord. simpl.
  intros (Hy1 & Hm1 & Hd1) (Hy2 & Hm2 & Hd2) H.
  pose proof (day_of_year_bounds y1 m1 d1 Hm1 Hd1).
  pose proof (day_of_year_bounds y2 m2 d2 Hm2 Hd2).
  destruct H as [H|[-> [H|[-> H]]]].
  - pose proof (days_before_year_succ y1).
    pose proof (days_before_year_mono (y1 + 1) y2). lia.
  - pose proof (days_before_month_lt y2 m1 d1 m2). lia.
  - lia.
Qed.

Lemma date_le_lt_eq d1 d2 : date_le d1 d2 <-> date_lt d1 d2 \/ d1 = d2.
Proof.
  unfold date_le, date_lt. rewrite date_leb_spec, date_ltb_spec. split.
  - intros H. destruct (decide (day d1 = day d2 /\ month d1 = month d2 /\ year d1 = year d2))
      as [(?&?&?)|?]; [right; by apply date_eq | left; lia].
  - intros [H| ->]; lia.
Qed.

Lemma toordinal_le d1 d2 :
  valid_date d1 = true -> valid_date d2 = true ->
  date_le d1 d2 -> toordinal d1 <= toordinal d2.
Proof.
  intros V1 V2 [H| ->]%date_le_lt_eq; [|lia].
  pose proof (toordinal_lt d1 d2 V1 V2 H). lia.
Qed.

Lemma date_lt_total d1 d2 : date_lt d1 d2 \/ d1 = d2 \/ date_lt d2 d1.
Proof.
  unfold date_lt. rewrite !date_ltb_spec.
  destruct (decide (day d1 = day d2 /\ month d1 = month d2 /\ year d1 = year d2))
    as [(?&?&?)|?]; [right; left; by apply date_eq | lia].
Qed.

(** Dates are ordered as their ordinals. *)
Lemma toordinal_lt_iff d1 d2 :
  valid_date d1 = true -> valid_date d2 = true ->
  date_lt d1 d2 <-> toordinal d1 < toordinal d2.
Proof.
  intros V1 V2. split; [by apply toordinal_lt|]. intros H.
  destruct (date_lt_total d1 d2) as [?|[->|H']]; [done|lia|].
  pose proof (toordinal_lt d2 d1 V2 V1 H'). lia.
Qed.

Lemma toordinal_le_iff d1 d2 :
  valid_date d1 = true -> valid_date d2 = true ->
  date_le d1 d2 <-> toordinal d1 <= toordinal d2.
Proof.
  intros V1 V2. split; [by apply toordinal_le|]. intros H.
  apply date_le_lt_eq.
  destruct (date_lt_total d1 d2) as [?|[->|H']]; [by left|by right|].
  pose proof (toordinal_lt d2 d1 V2 V1 H'). lia.
Qed.

Lemma toordinal_inj d1 d2 :
  valid_date d1 = true -> valid_date d2 = true ->
  toordinal d1 = toordinal d2 -> d1 = d2.
Proof.
  intros V1 V2 E. destruct (date_lt_total d1 d2) as [H|[?|H]]; [|done|].
  - pose proof (toordinal_lt d1 d2 V1 V2 H). lia.
  - pose proof (toordinal_lt d2 d1 V2 V1 H). lia.
Qed.

Lemma date_max_valid : valid_date date_max = true.
Proof. reflexivity. Qed.

Lemma date_le_max d : valid_date d = true -> date_le d date_max.
Proof.
  intros V. pose proof V as (Hy & Hm & Hd)%valid_date_spec.
  pose proof (days_in_month_bounds (year d) (month d) Hm).
  unfold date_le. rewrite date_leb_spec. simpl. lia.
Qed.

Lemma toordinal_bounds d :
  valid_date d = true -> 1 <= toordinal d <= MAXORDINAL.
Proof.
  intros V. split.
  - assert (V1 : valid_date (Date 1 1 1) = true) by reflexivity.
    apply (toordinal_le (Date 1 1 1) d V1 V).
    pose proof V as (Hy & Hm & Hd)%valid_date_spec.
    unfold date_le. rewrite date_leb_spec. simpl. lia.
  - apply (toordinal_le d date_max V date_max_valid), date_le_max, V.
Qed.

Lemma toordinal_max_iff d :
  valid_date d = true -> toordinal d = MAXORDINAL <-> d = date_max.
Proof.
  intros V. split; [|by intros ->].
  intros E. by apply toordinal_inj; [|apply date_max_valid|].
Qed.

(** [tomorrow] is the date with the next ordinal. *)
Lemma toordinal_tomorrow d :
  valid_date d = true -> toordinal (tomorrow d) = toordinal d + 1.
Proof.
  intros (Hy & Hm & Hd)%valid_date_spec.
  destruct d as [y m d]. unfold tomorrow, toordinal, ymd2ord. simpl in *.
  destruct (Z.ltb_spec d (days_in_month y m)); simpl; [lia|].
  assert (d = days_in_month y m) as -> by lia.
  destruct (Z.ltb_spec m 12); simpl.
  - unfold days_before_month, days_in_month.
    month_cases m; simpl; destruct (isleap y); simpl; lia.
  - assert (m = 12) as -> by lia. rewrite days_before_year_succ.
    unfold days_before_month, days_in_month. simpl.
    destruct (isleap y); simpl; lia.
Qed.

Lemma tomorrow_valid d :
  valid_date d = true -> d <> date_max -> valid_date (tomorrow d) = true.
Proof.
  intros V Hmax. pose proof V as (Hy & Hm & Hd)%valid_date_spec.
  apply valid_date_spec.
  destruct d as [y m d]. unfold tomorrow. simpl in *.
  destruct (Z.ltb_spec d (days_in_month y m)); simpl; [lia|].
  assert (d = days_in_month y m) as -> by lia.
  destruct (Z.ltb_spec m 12); simpl.
  - pose proof (days_in_month_bounds y (m + 1)). lia.
  - assert (m = 12) as -> by lia.
    assert (y <> 9999) by (intros ->; by apply Hmax).
    unfold days_in_month. simpl. lia.
Qed.

Lemma add_one_day_ok d :
  valid_date d = true -> d <> date_max -> add_one_day d = Ok (tomorrow d).
Proof.
  intros V Hmax. unfold add_one_day.
  pose proof (toordinal_bounds d V) as Hb.
  destruct (Z.leb_spec (toordinal d + 1) MAXORDINAL); [done|].
  exfalso. apply Hmax, (toordinal_max_iff d V). lia.
Qed.

Lemma add_one_day_max : add_one_day date_max = Raise OverflowError.
Proof. reflexivity. Qed.

End CalendarFacts.

(** ** Dates as strings *)

Module StringFacts.
Import Calendar Strptime Format FormatFacts CalendarFacts.

Lemma digit_dchar k : 0 <= k <= 9 -> digit (dchar k) = Some k.
Proof.
  intros Hk. unfold digit. rewrite dchar_code by done.
  destruct (Z.leb_spec 48 (48 + k)), (Z.leb_spec (48 + k) 57); simpl;
    try lia. f_equal. lia.
Qed.

Lemma parse_month_digits m rest :
  1 <= m <= 12 -> parse_month (digits2 m +:+ String "-" rest) = Some (m, rest).
Proof.
  intros Hm. assert (Hm' : 0 <= m <= 99) by lia.
  destruct (digits2_bounds m Hm') as [? ?]. pose proof (digits2_value m) as Hv.
  unfold digits2. rewrite !append_cons, !append_nil. unfold parse_month.
  rewrite !digit_dchar by done.
  replace (((m / 10 =? 1) && (m mod 10 <=? 2)) || ((m / 10 =? 0) && (1 <=? m mod 10)))
    with true.
  - by rewrite <- Hv.
  - symmetry. apply orb_true_iff. rewrite !andb_true_iff. lia.
Qed.

Lemma parse_day_digits d :
  1 <= d <= 31 -> parse_day (digits2 d) = Some (d, "").
Proof.
  intros Hd. assert (Hd' : 0 <= d <= 99) by lia.
  destruct (digits2_bounds d Hd') as [? ?]. pose proof (digits2_value d) as Hv.
  unfold parse_day, day_two_digits, digits2.
  rewrite !digit_dchar by done.
  replace (((d / 10 =? 3) && (d mod 10 <=? 1)) || ((1 <=? d / 10) && (d / 10 <=? 2))
           || ((d / 10 =? 0) && (1 <=? d mod 10))) with true.
  - by rewrite <- Hv.
  - symmetry. rewrite !orb_true_iff, !andb_true_iff. lia.
Qed.

Lemma valid_date_ranges d :
  valid_date d = true ->
  0 <= year d <= 9999 /\ 1 <= month d <= 12 /\ 1 <= day d <= 31.
Proof.
  intros (Hy & Hm & Hd)%valid_date_spec.
  pose proof (days_in_month_bounds (year d) (month d) Hm). lia.
Qed.

Lemma strftime_digits d :
  valid_date d = true ->
  strftime d =
  digits4 (year d) +:+ "-" +:+ digits2 (month d) +:+ "-" +:+ digits2 (day d) +:+ "".
Proof.
  intros (? & ? & ?)%valid_date_ranges. unfold strftime.
  apply ymd_digits; lia.
Qed.

(** Parsing what [strftime] printed gives the date back. *)
Lemma strptime_strftime d :
  valid_date d = true -> strptime (strftime d) = Ok d.
Proof.
  intros V. pose proof V as (Hy & Hm & Hd)%valid_date_ranges.
  rewrite strftime_digits by done.
  destruct (digits4_bounds (year d) Hy) as (? & ? & ? & ?).
  pose proof (digits4_value (year d)) as Hv.
  unfold digits4 at 1. rewrite !append_cons, !append_nil, append_nil_r.
  unfold strptime. rewrite !digit_dchar by done.
  rewrite parse_month_digits, parse_day_digits by done.
  rewrite <- Hv. unfold make_date. destruct d as [y m dd]. simpl in *.
  by rewrite V.
Qed.

Lemma strftime_inj d1 d2 :
  valid_date d1 = true -> valid_date d2 = true ->
  strftime d1 = strftime d2 -> d1 = d2.
Proof.
  intros V1 V2 E. apply (f_equal strptime) in E.
  rewrite !strptime_strftime in E by done. congruence.
Qed.

Lemma String_leb_compare a b :
  String.leb a b = match String.compare a b with Gt => false | _ => true end.
Proof. reflexivity. Qed.

(** TEXT order on printed dates is the order of the dates. *)
Lemma strftime_leb d1 d2 :
  valid_date d1 = true -> valid_date d2 = true ->
  String.leb (strftime d1) (strftime d2) = date_leb d1 d2.
Proof.
  intros (? & ? & ?)%valid_date_ranges (? & ? & ?)%valid_date_ranges.
  rewrite String_leb_compare. unfold strftime.
  rewrite ymd_compare by lia. unfold compare3.
  destruct (date_leb d1 d2) eqn:E.
  - apply date_leb_spec in E.
    destruct (Z.compare_spec (year d1) (year d2)),
             (Z.compare_spec (month d1) (month d2)),
             (Z.compare_spec (day d1) (day d2)); done || lia.
  - apply not_true_iff_false in E. rewrite date_leb_spec in E.
    destruct (Z.compare_spec (year d1) (year d2)),
             (Z.compare_spec (month d1) (month d2)),
             (Z.compare_spec (day d1) (day d2)); done || lia.
Qed.

Lemma String_compare_trans_le a b c :
  String.compare a b <> Gt -> String.compare b c <> Gt -> String.compare a c <> Gt.
Proof.
  revert b c. induction a as [|x a IH]; intros [|y b] [|z c]; try done.
  rewrite !String_compare_cons. unfold Ascii.compare.
  destruct (N.compare_spec (N_of_ascii x) (N_of_ascii y)) as [E1|L1|G1];
    destruct (N.compare_spec (N_of_ascii y) (N_of_ascii z)) as [E2|L2|G2];
    try done.
  - rewrite E1, E2, N.compare_refl. apply IH.
  - intros _ _. rewrite E1. by apply N.compare_lt_iff in L2 as ->.
  - intros _ _. rewrite <- E2. by apply N.compare_lt_iff in L1 as ->.
  - intros _ _. assert (N_of_ascii x < N_of_ascii z)%N as L by lia.
    by apply N.compare_lt_iff in L as ->.
Qed.

Lemma String_leb_trans a b c :
  String.leb a b = true -> String.leb b c = true -> String.leb a c = true.
Proof.
  rewrite !String_leb_compare. intros H1 H2.
  pose proof (String_compare_trans_le a b c).
  destruct (String.compare a b), (String.compare b c), (String.compare a c);
    try done; exfalso; by apply H.
Qed.

Lemma prefix_strftime_7 d :
  valid_date d = true -> prefix 7 (strftime d) = ym (year d) (month d).
Proof.
  intros V. pose proof V as (? & ? & ?)%valid_date_ranges.
  rewrite strftime_digits, ym_digits by (done || lia).
  unfold digits4, digits2. by rewrite !append_cons, !append_nil.
Qed.

Lemma prefix_strftime_4 d :
  valid_date d = true -> prefix 4 (strftime d) = fmt_0d 4 (year d).
Proof.
  intros V. pose proof V as (? & ? & ?)%valid_date_ranges.
  rewrite strftime_digits, fmt_0d_4_digits by (done || lia).
  unfold digits4, digits2. by rewrite !append_cons, !append_nil.
Qed.

Lemma ym_inj y1 m1 y2 m2 :
  0 <= y1 <= 9999 -> 0 <= m1 <= 99 -> 0 <= y2 <= 9999 -> 0 <= m2 <= 99 ->
  ym y1 m1 = ym y2 m2 -> y1 = y2 /\ m1 = m2.
Proof.
  intros ? ? ? ? E.
  assert (E' : ymd y1 m1 1 = ymd y2 m2 1).
  { unfold ymd. unfold ym in E.
    rewrite fmt_0d_4_digits, fmt_0d_2_digits in E by done.
    rewrite (fmt_0d_4_digits y2), (fmt_0d_2_digits m2) in E by done.
    rewrite (fmt_0d_4_digits y1), (fmt_0d_2_digits m1) by done.
    rewrite (fmt_0d_4_digits y2), (fmt_0d_2_digits m2) by done.
    unfold digits4, digits2 in *. rewrite !append_cons, !append_nil in *.
    congruence. }
  apply ymd_inj in E'; lia.
Qed.

Lemma fmt_0d_4_inj y1 y2 :
  0 <= y1 <= 9999 -> 0 <= y2 <= 9999 -> fmt_0d 4 y1 = fmt_0d 4 y2 -> y1 = y2.
Proof.
  intros ? ? E.
  assert (E' : ymd y1 1 1 = ymd y2 1 1) by (unfold ymd; by rewrite E).
  apply ymd_inj in E'; lia.
Qed.

Lemma fmt_0d_2_inj m1 m2 :
  0 <= m1 <= 99 -> 0 <= m2 <= 99 -> fmt_0d 2 m1 = fmt_0d 2 m2 -> m1 = m2.
Proof.
  intros ? ? E.
  assert (E' : ymd 1 m1 1 = ymd 1 m2 1) by (unfold ymd; by rewrite E).
  apply ymd_inj in E'; lia.
Qed.

Lemma append_length s t :
  String.length (s +:+ t) = (String.length s + String.length t)%nat.
Proof.
  induction s as [|c s IH]; [done|]. rewrite append_cons. simpl. by rewrite IH.
Qed.

Lemma append_inj_r s1 s2 t1 t2 :
  String.length t1 = String.length t2 ->
  s1 +:+ t1 = s2 +:+ t2 -> s1 = s2 /\ t1 = t2.
Proof.
  revert s2. induction s1 as [|c s1 IH]; intros [|c2 s2] L E.
  - by rewrite !append_nil in E.
  - rewrite append_nil in E. apply (f_equal String.length) in E.
    rewrite append_length in E. simpl in E. lia.
  - rewrite append_nil in E. apply (f_equal String.length) in E.
    rewrite append_length in E. simpl in E. lia.
  - rewrite !append_cons in E. injection E as -> E.
    destruct (IH s2 L E) as [-> ->]. done.
Qed.

Lemma week_key_inj y1 w1 y2 w2 :
  0 <= w1 <= 99 -> 0 <= w2 <= 99 ->
  week_key y1 w1 = week_key y2 w2 -> y1 = y2 /\ w1 = w2.
Proof.
  intros H1 H2 E. unfold week_key, str in E.
  apply append_inj_r in E as [Ey Ew].
  - apply pretty_Z_inj in Ey.
    rewrite !append_cons, !append_nil in Ew. injection Ew as Ew.
    by apply fmt_0d_2_inj in Ew.
  - rewrite !fmt_0d_2_digits by done. reflexivity.
Qed.

End StringFacts.

(** ** The storage reads *)

Module DatabaseFacts.
Import Calendar Database CalendarFacts StringFacts.

Lemma daily_query_dates cond db s e :
  row_date <$> daily_query cond db s e =
  merge_sort text_le (remove_dups (tx_date <$> filter (in_range s e) db)).
Proof.
  unfold daily_query. rewrite <- list_fmap_compose.
  rewrite <- (list_fmap_id (merge_sort _ _)) at 2.
  by apply list_fmap_ext.
Qed.

Lemma daily_query_NoDup cond db s e :
  NoDup (row_date <$> daily_query cond db s e).
Proof.
  rewrite daily_query_dates, merge_sort_Permutation. apply NoDup_remove_dups.
Qed.

Lemma daily_query_elem cond db s e x :
  x ∈ (row_date <$> daily_query cond db s e) <->
  exists tx, tx ∈ db /\ in_range s e tx /\ tx_date tx = x.
Proof.
  rewrite daily_query_dates, merge_sort_Permutation, elem_of_remove_dups,
    list_elem_of_fmap.
  setoid_rewrite list_elem_of_filter.
  split; [intros (tx & -> & ? & ?) | intros (tx & ? & ? & <-)]; by exists tx.
Qed.

(** Dates and incomes of the rows do not depend on the expense column. *)
Lemma daily_query_income cond1 cond2 db s e :
  (fun r => (row_date r, row_income r)) <$> daily_query cond1 db s e =
  (fun r => (row_date r, row_income r)) <$> daily_query cond2 db s e.
Proof.
  unfold daily_query. rewrite <- !list_fmap_compose. by apply list_fmap_ext.
Qed.

Lemma daily_query_empty cond db s e :
  String.leb s e = false -> daily_query cond db s e = [].
Proof.
  intros H. destruct (daily_query cond db s e) as [|r raw] eqn:E; [done|].
  assert (Hr : row_date r ∈ (row_date <$> daily_query cond db s e))
    by (rewrite E; set_solver).
  apply daily_query_elem in Hr as (tx & _ & [H1 H2] & _).
  unfold text_le in *. by rewrite (String_leb_trans _ _ _ H1 H2) in H.
Qed.

Lemma by_category_is_query db s e category :
  exists cond, get_daily_summary_by_category db s e category = daily_query cond db s e.
Proof. destruct category; unfold get_daily_summary_by_category; eauto. Qed.

Lemma by_category_in_range db start end_ category :
  wf_db db -> valid_date start = true -> valid_date end_ = true ->
  rows_in_range start end_
    (get_daily_summary_by_category db (strftime start) (strftime end_) category).
Proof.
  intros Hwf Vs Ve.
  destruct (by_category_is_query db (strftime start) (strftime end_) category)
    as [cond ->].
  split; [apply daily_query_NoDup|]. intros r Hr.
  assert (Hd : row_date r ∈ (row_date <$> daily_query cond db (strftime start) (strftime end_)))
    by (apply list_elem_of_fmap; eauto).
  apply daily_query_elem in Hd as (tx & Htx & [H1 H2] & Ex).
  destruct (Hwf tx Htx) as (d & Vd & Ed). exists d.
  unfold text_le in *. rewrite Ed in *.
  rewrite strftime_leb in H1, H2 by done. done.
Qed.

Lemma by_category_empty db start end_ category :
  valid_date start = true -> valid_date end_ = true -> date_lt end_ start ->
  get_daily_summary_by_category db (strftime start) (strftime end_) category = [].
Proof.
  intros Vs Ve H.
  destruct (by_category_is_query db (strftime start) (strftime end_) category)
    as [cond ->].
  apply daily_query_empty. rewrite strftime_leb by done.
  by apply date_leb_false.
Qed.

Lemma by_category_income db s e category :
  (fun r => (row_date r, row_income r)) <$> get_daily_summary_by_category db s e category =
  (fun r => (row_date r, row_income r)) <$> get_daily_summary_by_category db s e None.
Proof.
  destruct category; [|done]. apply daily_query_income.
Qed.

End DatabaseFacts.

(** ** Accumulated totals and buckets *)

Module BucketFacts.
Import Database StatisticsService.

Lemma sum_where_snoc f key k raw r :
  sum_where f key k (raw ++ [r]) =
  sum_where f key k raw + (if decide (key r = k) then f r else 0).
Proof.
  unfold sum_where. induction raw as [|x raw IH]; simpl; [lia|].
  rewrite IH. lia.
Qed.

Lemma sum_where_absent f key k raw :
  k ∉ (key <$> raw) -> sum_where f key k raw = 0.
Proof.
  induction raw as [|x raw IH]; [done|]. simpl. intros H.
  apply not_elem_of_cons in H as [H1 H2]. rewrite IH by done.
  by rewrite decide_False by done.
Qed.

Lemma add_item_lookup m k item k' :
  add_item m k item !! k' =
  if decide (k = k') then
    Some {| t_income := default 0 (t_income <$> m !! k) + row_income item;
            t_expense := default 0 (t_expense <$> m !! k) + row_expense item |}
  else m !! k'.
Proof.
  unfold add_item. destruct (decide (k = k')) as [<-|Hne].
  - rewrite !lookup_alter_eq. destruct (m !! k) as [e|] eqn:E.
    + rewrite E. by destruct e.
    + by rewrite lookup_insert_eq.
  - rewrite !lookup_alter_ne by done. destruct (m !! k); [done|].
    by rewrite lookup_insert_ne.
Qed.

Lemma accumulate_snoc key raw r :
  accumulate key (raw ++ [r]) = add_item (accumulate key raw) (key r) r.
Proof. unfold accumulate. by rewrite foldl_app. Qed.

(** What the accumulated map holds under each key. *)
Lemma accumulate_lookup key raw k :
  accumulate key raw !! k =
  if decide (k ∈ key <$> raw) then
    Some {| t_income := sum_where row_income key k raw;
            t_expense := sum_where row_expense key k raw |}
  else None.
Proof.
  induction raw as [|r raw IH] using rev_ind.
  - by rewrite decide_False by set_solver.
  - rewrite accumulate_snoc, add_item_lookup, !sum_where_snoc, fmap_app.
    destruct (decide (key r = k)) as [E|Hne].
    + rewrite decide_True by (rewrite <- E; set_solver). rewrite E, IH. f_equal.
      destruct (decide (k ∈ key <$> raw)) as [?|Hn]; simpl; [done|].
      rewrite !sum_where_absent by done. done.
    + rewrite IH. destruct (decide (k ∈ key <$> raw)).
      * rewrite decide_True by set_solver. f_equal. f_equal; lia.
      * by rewrite decide_False by set_solver.
Qed.

Lemma bucket_of_accumulate key raw k :
  bucket_of (accumulate key raw) k = bucket_for key raw k.
Proof.
  unfold bucket_of, bucket_for. rewrite accumulate_lookup.
  destruct (decide (k ∈ key <$> raw)); [done|].
  by rewrite !sum_where_absent by done.
Qed.

Lemma data_map_of_snoc raw r :
  data_map_of (raw ++ [r]) = <[row_date r := r]> (data_map_of raw).
Proof. unfold data_map_of. by rewrite foldl_app. Qed.

(** With one row per date, the day map yields the same buckets. *)
Lemma day_bucket_data_map raw k :
  NoDup (row_date <$> raw) ->
  day_bucket (data_map_of raw) k = bucket_for row_date raw k.
Proof.
  induction raw as [|r raw IH] using rev_ind; [done|].
  rewrite fmap_app. intros [Hraw [Hr _]]%NoDup_app.
  unfold day_bucket, bucket_for in *.
  rewrite data_map_of_snoc, !sum_where_snoc.
  destruct (decide (row_date r = k)) as [<-|Hne].
  - rewrite lookup_insert_eq.
    rewrite !sum_where_absent; [done| |]; intros Hin; apply (Hr _ Hin); set_solver.
  - rewrite lookup_insert_ne by done. specialize (IH Hraw).
    destruct (data_map_of raw !! k); injection IH as <- <-; f_equal; f_equal; lia.
Qed.

(** Zero fill: a key with no row gets the zero bucket. *)
Lemma bucket_for_absent key raw k :
  k ∉ (key <$> raw) -> bucket_for key raw k = zero_bucket k.
Proof.
  intros H. unfold bucket_for. by rewrite !sum_where_absent by done.
Qed.

(** Conservation: distinct keys that cover the rows share out the total. *)
Lemma sum_indicator (x : Z) (k : string) (ks : list string) :
  NoDup ks -> k ∈ ks ->
  foldr (fun k' acc => (if decide (k = k') then x else 0) + acc) 0 ks = x.
Proof.
  induction 1 as [|k0 ks Hk0 Hnd IH]; [set_solver|]. simpl.
  intros [->|Hin]%elem_of_cons.
  - rewrite decide_True by done.
    assert (E : foldr (fun k' acc => (if decide (k0 = k') then x else 0) + acc) 0 ks = 0).
    { clear -Hk0. induction ks as [|y ks IH]; [done|]. simpl.
      apply not_elem_of_cons in Hk0 as [? ?].
      rewrite decide_False by done. by rewrite IH. }
    lia.
  - rewrite decide_False by (intros ->; done). by rewrite IH.
Qed.

Lemma foldr_add_split (a b : string -> Z) (ks : list string) :
  foldr (fun k acc => a k + b k + acc) 0 ks =
  foldr (fun k acc => a k + acc) 0 ks + foldr (fun k acc => b k + acc) 0 ks.
Proof. induction ks as [|k ks IH]; [done|]. cbn [foldr]. rewrite IH. lia. Qed.

Lemma sum_over_keys f key raw ks :
  NoDup ks -> (forall r, r ∈ raw -> key r ∈ ks) ->
  foldr (fun k acc => sum_where f key k raw + acc) 0 ks = sum_rows f raw.
Proof.
  intros Hnd. induction raw as [|r raw IH]; intros Hcov.
  - clear. induction ks as [|k ks IH]; [done|]. cbn [foldr]. by rewrite IH.
  - change (foldr (fun k acc => sum_where f key k (r :: raw) + acc) 0 ks)
      with (foldr (fun k acc => (if decide (key r = k) then f r else 0)
                                + sum_where f key k raw + acc) 0 ks).
    rewrite foldr_add_split, sum_indicator, IH; [done| |done|].
    + intros r' Hr'. apply Hcov. by right.
    + apply Hcov. by left.
Qed.

Lemma sum_income_buckets key raw ks :
  sum_income (bucket_for key raw <$> ks) =
  foldr (fun k acc => sum_where row_income key k raw + acc) 0 ks.
Proof. induction ks as [|k ks IH]; [done|]. simpl. by rewrite <- IH. Qed.

Lemma sum_expense_buckets key raw ks :
  sum_expense (bucket_for key raw <$> ks) =
  foldr (fun k acc => sum_where row_expense key k raw + acc) 0 ks.
Proof. induction ks as [|k ks IH]; [done|]. simpl. by rewrite <- IH. Qed.

Lemma buckets_conserve key raw ks :
  NoDup ks -> (forall r, r ∈ raw -> key r ∈ ks) ->
  sum_income (bucket_for key raw <$> ks) = sum_rows row_income raw /\
  sum_expense (bucket_for key raw <$> ks) = sum_rows row_expense raw.
Proof.
  intros. rewrite sum_income_buckets, sum_expense_buckets.
  split; by apply sum_over_keys.
Qed.

Lemma label_bucket_for key raw (ks : list string) :
  label <$> (bucket_for key raw <$> ks) = ks.
Proof.
  rewrite <- list_fmap_compose. rewrite <- (list_fmap_id ks) at 2.
  by apply list_fmap_ext.
Qed.

(** Incomes only read the dates and incomes of the rows. *)
Lemma sum_where_income_ext (kf : string -> string) k raw1 raw2 :
  (fun r => (row_date r, row_income r)) <$> raw1 =
  (fun r => (row_date r, row_income r)) <$> raw2 ->
  sum_where row_income (fun r => kf (row_date r)) k raw1 =
  sum_where row_income (fun r => kf (row_date r)) k raw2.
Proof.
  revert raw2. induction raw1 as [|r1 raw1 IH]; intros [|r2 raw2] E; try done.
  simpl in *. injection E as E1 E2 E3. rewrite (IH raw2 E3), E1, E2. done.
Qed.

End BucketFacts.

(** ** Calendar units of a date range *)

Module RangeFacts.
Import Calendar CalendarFacts.

(** *** Days *)

Lemma date_seq_spec n d :
  valid_date d = true -> toordinal d + Z.of_nat n <= MAXORDINAL + 1 ->
  Forall (fun x => valid_date x = true) (date_seq n d) /\
  toordinal <$> date_seq n d = seqZ (toordinal d) (Z.of_nat n).
Proof.
  revert d. induction n as [|n IH]; intros d V Hb; [done|].
  cbn [date_seq]. rewrite seqZ_cons by lia.
  replace (Z.pred (Z.of_nat (S n))) with (Z.of_nat n) by lia.
  destruct n as [|n].
  { split; [by repeat constructor | done]. }
  assert (Hmax : d <> date_max).
  { intros ->. change (toordinal date_max) with MAXORDINAL in Hb. lia. }
  destruct (IH (tomorrow d)) as [IH1 IH2].
  - by apply tomorrow_valid.
  - rewrite toordinal_tomorrow by done. lia.
  - split; [by constructor|]. rewrite fmap_cons, IH2.
    by rewrite toordinal_tomorrow.
Qed.

Lemma date_seq_elem n d x :
  valid_date d = true -> toordinal d + Z.of_nat n <= MAXORDINAL + 1 ->
  x ∈ date_seq n d <->
  valid_date x = true /\ toordinal d <= toordinal x < toordinal d + Z.of_nat n.
Proof.
  intros V Hb. destruct (date_seq_spec n d V Hb) as [Hv Ho].
  rewrite Forall_forall in Hv. split.
  - intros Hx. split; [by apply Hv|].
    apply (list_elem_of_fmap_2 toordinal) in Hx. rewrite Ho in Hx.
    by apply elem_of_seqZ in Hx.
  - intros [Vx Hx]. apply elem_of_seqZ in Hx. rewrite <- Ho in Hx.
    apply list_elem_of_fmap in Hx as (y & Ey & Hy).
    by rewrite (toordinal_inj x y Vx (Hv y Hy) Ey).
Qed.

Lemma date_seq_sorted n d :
  valid_date d = true -> toordinal d + Z.of_nat n <= MAXORDINAL + 1 ->
  StronglySorted date_lt (date_seq n d).
Proof.
  revert d. induction n as [|n IH]; intros d V Hb; [constructor|].
  cbn [date_seq]. destruct n as [|n]; [by repeat constructor|].
  assert (Hmax : d <> date_max).
  { intros ->. change (toordinal date_max) with MAXORDINAL in Hb. lia. }
  pose proof (tomorrow_valid d V Hmax) as Vt.
  pose proof (toordinal_tomorrow d V) as Et.
  constructor; [apply IH; [done|lia]|].
  apply Forall_forall. intros x Hx.
  apply date_seq_elem in Hx as [Vx Hx]; [|done|lia].
  apply toordinal_lt_iff; [done|done|lia].
Qed.

Lemma days_of_bound start end_ :
  valid_date start = true -> valid_date end_ = true ->
  toordinal start + Z.of_nat (Z.to_nat (days_between start end_ + 1))
  <= MAXORDINAL + 1.
Proof.
  intros Vs Ve. unfold days_between.
  pose proof (toordinal_bounds start Vs). pose proof (toordinal_bounds end_ Ve).
  lia.
Qed.

Lemma days_of_elem start end_ x :
  valid_date start = true -> valid_date end_ = true ->
  x ∈ days_of start end_ <->
  valid_date x = true /\ date_le start x /\ date_le x end_.
Proof.
  intros Vs Ve. unfold days_of.
  rewrite date_seq_elem by (done || by apply days_of_bound).
  unfold days_between. split.
  - intros [Vx Hx]. rewrite !toordinal_le_iff by done. split; [done|lia].
  - intros (Vx & H1 & H2). rewrite toordinal_le_iff in H1, H2 by done.
    split; [done|lia].
Qed.

Lemma days_of_enumerates start end_ :
  valid_date start = true -> valid_date end_ = true ->
  enumerates date_lt id start end_ (days_of start end_).
Proof.
  intros Vs Ve. split.
  - apply date_seq_sorted; [done | by apply days_of_bound].
  - intros d. rewrite days_of_elem by done. unfold spanned, id. split.
    + intros (? & ? & ?). by exists d.
    + by intros (? & ? & ? & ? & ->).
Qed.

Lemma days_of_length start end_ :
  date_le start end_ ->
  valid_date start = true -> valid_date end_ = true ->
  Z.of_nat (length (days_of start end_)) = days_between start end_ + 1.
Proof.
  intros Hle Vs Ve. apply toordinal_le in Hle; [|done..].
  unfold days_of.
  assert (L : forall n d, length (date_seq n d) = n)
    by (induction n; intros; simpl; [done | by f_equal]).
  rewrite L. unfold days_between in *. lia.
Qed.

(** *** Months *)

Lemma next_month_spec p :
  1 <= p.2 <= 12 ->
  1 <= (next_month p).2 <= 12 /\ month_index (next_month p) = month_index p + 1.
Proof.
  destruct p as [y m]. unfold next_month, month_index. simpl. intros Hm.
  destruct (Z.eqb_spec m 12); simpl; lia.
Qed.

Lemma month_index_inj p q :
  1 <= p.2 <= 12 -> 1 <= q.2 <= 12 -> month_index p = month_index q -> p = q.
Proof.
  destruct p as [y m], q as [y' m']. unfold month_index. simpl.
  intros ? ? ?. f_equal; lia.
Qed.

Lemma pair_lt_index p q :
  1 <= p.2 <= 12 -> 1 <= q.2 <= 12 ->
  pair_lt p q <-> month_index p < month_index q.
Proof.
  destruct p as [y m], q as [y' m']. unfold pair_lt, month_index. simpl. lia.
Qed.

Lemma month_seq_spec n p :
  1 <= p.2 <= 12 ->
  Forall (fun q => 1 <= q.2 <= 12) (month_seq n p) /\
  month_index <$> month_seq n p = seqZ (month_index p) (Z.of_nat n).
Proof.
  revert p. induction n as [|n IH]; intros p Hp; [done|].
  cbn [month_seq]. rewrite seqZ_cons by lia.
  replace (Z.pred (Z.of_nat (S n))) with (Z.of_nat n) by lia.
  destruct (next_month_spec p Hp) as [Hn En].
  destruct (IH (next_month p) Hn) as [IH1 IH2].
  split; [by constructor|]. rewrite fmap_cons, IH2, En. done.
Qed.

Lemma month_seq_elem n p q :
  1 <= p.2 <= 12 ->
  q ∈ month_seq n p <->
  1 <= q.2 <= 12 /\ month_index p <= month_index q < month_index p + Z.of_nat n.
Proof.
  intros Hp. destruct (month_seq_spec n p Hp) as [Hv Ho].
  rewrite Forall_forall in Hv. split.
  - intros Hq. split; [by apply Hv|].
    apply (list_elem_of_fmap_2 month_index) in Hq. rewrite Ho in Hq.
    by apply elem_of_seqZ in Hq.
  - intros [Vq Hq]. apply elem_of_seqZ in Hq. rewrite <- Ho in Hq.
    apply list_elem_of_fmap in Hq as (y & Ey & Hy).
    by rewrite (month_index_inj q y Vq (Hv y Hy) Ey).
Qed.

Lemma month_seq_sorted n p :
  1 <= p.2 <= 12 -> StronglySorted pair_lt (month_seq n p).
Proof.
  revert p. induction n as [|n IH]; intros p Hp; [constructor|].
  cbn [month_seq]. destruct (next_month_spec p Hp) as [Hn En].
  constructor; [by apply IH|].
  apply Forall_forall. intros q Hq.
  apply month_seq_elem in Hq as [Vq Hq]; [|done].
  apply pair_lt_index; [done|done|lia].
Qed.

Lemma date_le_month_index d1 d2 :
  valid_date d1 = true -> valid_date d2 = true -> date_le d1 d2 ->
  month_index (month_of d1) <= month_index (month_of d2).
Proof.
  intros (? & ? & ?)%valid_date_spec (? & ? & ?)%valid_date_spec.
  unfold date_le. rewrite date_leb_spec. unfold month_index, month_of. simpl. lia.
Qed.

Lemma months_of_enumerates start end_ :
  valid_date start = true -> valid_date end_ = true -> date_le start end_ ->
  enumerates pair_lt month_of start end_ (months_of start end_).
Proof.
  intros Vs Ve Hle.
  pose proof Vs as (Hys & Hms & Hds)%valid_date_spec.
  pose proof Ve as (Hye & Hme & Hde)%valid_date_spec.
  pose proof (date_le_month_index start end_ Vs Ve Hle) as Hidx.
  unfold months_of, StatisticsService.month_fuel. split.
  - by apply month_seq_sorted.
  - intros [y m]. rewrite month_seq_elem by done.
    unfold month_index in *. simpl in *. split.
    + intros [Hm Hi].
      destruct (decide ((y, m) = month_of start)) as [E|Hne].
      * exists start. split; [done|]. split; [|done].
        unfold date_le. rewrite date_leb_spec. lia.
      * assert (12 * year start + month start < 12 * y + m).
        { destruct (decide (12 * year start + month start = 12 * y + m)); [|lia].
          exfalso. apply Hne. unfold month_of. f_equal; lia. }
        exists (Date y m 1). unfold date_le.
        rewrite valid_date_spec, !date_leb_spec. simpl.
        pose proof (days_in_month_bounds y m Hm). unfold month_of. simpl.
        repeat split; try lia.
    + intros (d & Vd & H1 & H2 & Ed). unfold month_of in Ed.
      injection Ed as <- <-.
      pose proof Vd as (? & ? & ?)%valid_date_spec.
      pose proof (date_le_month_index start d Vs Vd H1) as I1.
      pose proof (date_le_month_index d end_ Vd Ve H2) as I2.
      unfold month_index, month_of in I1, I2. simpl in *. lia.
Qed.

(** *** Years *)

Lemma years_of_enumerates start end_ :
  valid_date start = true -> valid_date end_ = true -> date_le start end_ ->
  enumerates Z.lt year start end_ (years_of start end_).
Proof.
  intros Vs Ve Hle.
  pose proof Vs as (Hys & Hms & Hds)%valid_date_spec.
  pose proof Ve as (Hye & Hme & Hde)%valid_date_spec.
  unfold years_of. split.
  - generalize (year start) (year end_ + 1 - year start). intros a b.
    unfold seqZ. generalize (Z.to_nat b). clear. intros n.
    assert (G : forall k, StronglySorted Z.lt ((fun i => Z.of_nat i + a) <$> seq k n)).
    { induction n as [|n IH]; intros k; [constructor|]. simpl.
      constructor; [apply IH|]. apply Forall_forall. intros x Hx.
      apply list_elem_of_fmap in Hx as (i & -> & Hi).
      apply list_elem_of_In, in_seq in Hi. lia. }
    apply G.
  - intros y. rewrite elem_of_seqZ. split.
    + intros Hy. destruct (decide (y = year start)) as [->|Hne].
      * exists start. split; [done|]. split; [|done].
        unfold date_le. rewrite date_leb_spec. lia.
      * exists (Date y 1 1). unfold date_le.
        rewrite valid_date_spec, !date_leb_spec. simpl.
        unfold days_in_month. simpl. repeat split; try lia.
    + intros (d & Vd & H1 & H2 & <-). unfold date_le in *.
      rewrite date_leb_spec in H1, H2. lia.
Qed.

End RangeFacts.

(** ** ISO 8601 weeks *)

Module IsoFacts.
Import Calendar CalendarFacts RangeFacts.

Lemma firstday_eq y : firstday y = days_before_year y + 1.
Proof. unfold firstday, ymd2ord, days_before_month. simpl. lia. Qed.

Lemma firstday_succ y :
  firstday (y + 1) = firstday y + 365 \/ firstday (y + 1) = firstday y + 366.
Proof.
  rewrite !firstday_eq, days_before_year_succ. destruct (isleap y); lia.
Qed.

Lemma isoweek1monday_spec y :
  firstday y - 3 <= isoweek1monday y <= firstday y + 3 /\
  (isoweek1monday y + 6) mod 7 = 0.
Proof.
  unfold isoweek1monday. fold (firstday y).
  destruct (Z.ltb_spec 3 ((firstday y + 6) mod 7));
    Z.div_mod_to_equations; lia.
Qed.

Lemma isoweek1monday_step y :
  isoweek1monday (y + 1) = isoweek1monday y + 364 \/
  isoweek1monday (y + 1) = isoweek1monday y + 371.
Proof.
  pose proof (isoweek1monday_spec y) as [? ?].
  pose proof (isoweek1monday_spec (y + 1)) as [? ?].
  pose proof (firstday_succ y).
  Z.div_mod_to_equations. lia.
Qed.

Lemma isoweek1monday_mono y1 y2 :
  y1 <= y2 -> isoweek1monday y1 + 364 * (y2 - y1) <= isoweek1monday y2.
Proof.
  intros H. replace y2 with (y1 + Z.of_nat (Z.to_nat (y2 - y1))) by lia.
  generalize (Z.to_nat (y2 - y1)) as k. clear. intros k.
  induction k as [|k IH]; [rewrite Z.add_0_r; lia|].
  replace (y1 + Z.of_nat (S k)) with (y1 + Z.of_nat k + 1) by lia.
  pose proof (isoweek1monday_step (y1 + Z.of_nat k)). lia.
Qed.

Lemma year_ordinal_bounds d :
  valid_date d = true ->
  firstday (year d) <= toordinal d < firstday (year d + 1).
Proof.
  intros (Hy & Hm & Hd)%valid_date_spec.
  pose proof (day_of_year_bounds (year d) (month d) (day d) Hm Hd).
  rewrite !firstday_eq, days_before_year_succ. unfold toordinal, ymd2ord. lia.
Qed.

(** The result of [isocalendar], by the week-1 Mondays around the date. *)
Lemma isocalendar_spec d :
  valid_date d = true ->
  let '(Y, W, D) := isocalendar d in
  isoweek1monday Y <= toordinal d < isoweek1monday (Y + 1) /\
  W = (toordinal d - isoweek1monday Y) / 7 + 1 /\
  D = weekday d + 1 /\
  year d - 1 <= Y <= year d + 1.
Proof.
  intros V. pose proof (year_ordinal_bounds d V) as Hb.
  pose proof (isoweek1monday_spec (year d)) as [? ?].
  pose proof (isoweek1monday_spec (year d - 1)) as [? ?].
  pose proof (isoweek1monday_spec (year d + 1)) as [? ?].
  pose proof (isoweek1monday_step (year d)).
  pose proof (isoweek1monday_step (year d - 1)) as Hs.
  replace (year d - 1 + 1) with (year d) in Hs by lia.
  pose proof (firstday_succ (year d)). pose proof (firstday_succ (year d - 1)) as Hf.
  replace (year d - 1 + 1) with (year d) in Hf by lia.
  unfold isocalendar, weekday.
  destruct (Z.ltb_spec ((toordinal d - isoweek1monday (year d)) / 7) 0).
  - replace (year d - 1 + 1) with (year d) by lia.
    repeat split; try lia; Z.div_mod_to_equations; lia.
  - destruct (Z.leb_spec 52 ((toordinal d - isoweek1monday (year d)) / 7)),
             (Z.leb_spec (isoweek1monday (year d + 1)) (toordinal d)); simpl.
    + pose proof (isoweek1monday_step (year d + 1)).
      pose proof (isoweek1monday_spec (year d + 1 + 1)) as [? ?].
      repeat split; try lia; Z.div_mod_to_equations; lia.
    + repeat split; try lia; Z.div_mod_to_equations; lia.
    + repeat split; try lia; Z.div_mod_to_equations; lia.
    + repeat split; try lia; Z.div_mod_to_equations; lia.
Qed.

Lemma iso_week_of_spec d :
  valid_date d = true ->
  let Y := (iso_week_of d).1 in
  isoweek1monday Y <= toordinal d < isoweek1monday (Y + 1) /\
  (iso_week_of d).2 = (toordinal d - isoweek1monday Y) / 7 + 1.
Proof.
  intros V. pose proof (isocalendar_spec d V) as H. unfold iso_week_of.
  destruct (isocalendar d) as [[Y W] D]. simpl. tauto.
Qed.

Lemma iso_week_range d :
  valid_date d = true -> 1 <= (iso_week_of d).2 <= 53.
Proof.
  intros V. destruct (iso_week_of_spec d V) as [Hb ->].
  pose proof (isoweek1monday_step (iso_week_of d).1).
  Z.div_mod_to_equations. lia.
Qed.

(** Later dates have later (or the same) ISO weeks. *)
Lemma iso_week_mono d1 d2 :
  valid_date d1 = true -> valid_date d2 = true ->
  toordinal d1 <= toordinal d2 ->
  pair_le (iso_week_of d1) (iso_week_of d2).
Proof.
  intros V1 V2 Hle.
  destruct (iso_week_of_spec d1 V1) as [B1 E1].
  destruct (iso_week_of_spec d2 V2) as [B2 E2].
  unfold pair_le. rewrite E1, E2.
  destruct (Z.lt_trichotomy (iso_week_of d1).1 (iso_week_of d2).1) as [?|[E|Hgt]].
  - by left.
  - right. split; [done|]. rewrite E. Z.div_mod_to_equations. lia.
  - exfalso.
    pose proof (isoweek1monday_mono ((iso_week_of d2).1 + 1) (iso_week_of d1).1).
    lia.
Qed.

(** ISO 8601: the week belongs to the year of its Thursday, and weeks are
    counted from the one holding the first Thursday of that year. *)
Lemma iso_week_thursday d :
  valid_date d = true ->
  let '(Y, W) := iso_week_of d in
  firstday Y <= thursday_of d < firstday (Y + 1) /\
  W = (thursday_of d - firstday Y) / 7 + 1.
Proof.
  intros V. destruct (iso_week_of_spec d V) as [Hb E].
  destruct (iso_week_of d) as [Y W]. simpl in *. subst W.
  pose proof (isoweek1monday_spec Y) as [? ?].
  pose proof (isoweek1monday_spec (Y + 1)) as [? ?].
  unfold thursday_of, weekday.
  repeat split; Z.div_mod_to_equations; lia.
Qed.

End IsoFacts.

(** ** The bucketing loops *)

Module LoopFacts.
Import Calendar Database StatisticsService.
Import CalendarFacts StringFacts DatabaseFacts BucketFacts RangeFacts IsoFacts.

Lemma end_below_max end_ :
  valid_date end_ = true -> end_ <> date_max -> toordinal end_ < MAXORDINAL.
Proof.
  intros V H. pose proof (toordinal_bounds end_ V).
  pose proof (toordinal_max_iff end_ V). 
  destruct (decide (toordinal end_ = MAXORDINAL)); [tauto|lia].
Qed.

Lemma date_leb_ordinal d1 d2 :
  valid_date d1 = true -> valid_date d2 = true ->
  date_leb d1 d2 = (toordinal d1 <=? toordinal d2).
Proof.
  intros V1 V2. pose proof (toordinal_le_iff d1 d2 V1 V2) as H. unfold date_le in H.
  destruct (date_leb d1 d2), (Z.leb_spec (toordinal d1) (toordinal d2));
    try done; [lia|]. exfalso. assert (false = true) by tauto. done.
Qed.

(** *** Day *)

Lemma daily_loop_run dm end_ n :
  valid_date end_ = true -> end_ <> date_max ->
  forall fuel current result,
    valid_date current = true ->
    toordinal current + Z.of_nat n = toordinal end_ + 1 ->
    (n <= fuel)%nat ->
    daily_loop fuel dm end_ current result =
    Ok (result ++ ((fun d => day_bucket dm (strftime d)) <$> date_seq n current)).
Proof.
  intros Ve Hmax. pose proof (end_below_max end_ Ve Hmax) as Hlt.
  induction n as [|n IH]; intros fuel current result Vc Ho Hf.
  - simpl. rewrite app_nil_r.
    destruct fuel; simpl; rewrite date_leb_ordinal by done;
      destruct (Z.leb_spec (toordinal current) (toordinal end_)); done || lia.
  - destruct fuel as [|fuel]; [lia|]. cbn [daily_loop date_seq].
    rewrite date_leb_ordinal by done.
    destruct (Z.leb_spec (toordinal current) (toordinal end_)); [|lia].
    assert (Hc : current <> date_max).
    { intros ->. change (toordinal date_max) with MAXORDINAL in *. lia. }
    rewrite add_one_day_ok by done. cbn.
    rewrite IH; [|by apply tomorrow_valid|rewrite toordinal_tomorrow by done; lia|lia].
    by rewrite <- app_assoc.
Qed.

Lemma daily_loop_empty fuel dm end_ current result :
  date_leb current end_ = false ->
  daily_loop fuel dm end_ current result = Ok result.
Proof. intros H. destruct fuel; simpl; by rewrite H. Qed.

Lemma days_of_empty start end_ :
  valid_date start = true -> valid_date end_ = true -> date_lt end_ start ->
  days_of start end_ = [].
Proof.
  intros Vs Ve H. apply toordinal_lt in H; [|done..].
  unfold days_of, days_between.
  by replace (Z.to_nat (toordinal end_ - toordinal start + 1)) with O by lia.
Qed.

Lemma daily_loop_days dm start end_ :
  valid_date start = true -> valid_date end_ = true -> reachable start end_ ->
  daily_loop (day_fuel start end_) dm end_ start [] =
  Ok ((fun d => day_bucket dm (strftime d)) <$> days_of start end_).
Proof.
  intros Vs Ve Hr.
  destruct (date_leb start end_) eqn:Hle.
  - destruct Hr as [Hmax|Hlt];
      [|apply date_leb_false in Hlt; congruence].
    apply toordinal_le in Hle; [|done..].
    unfold day_fuel, days_of.
    rewrite (daily_loop_run dm end_ (Z.to_nat (days_between start end_ + 1)));
      try done. unfold days_between. lia.
  - rewrite daily_loop_empty by done.
    rewrite days_of_empty; [done..|]. by apply date_leb_false.
Qed.

(** *** Week *)

Lemma weekly_loop_run wm end_ n :
  valid_date end_ = true -> end_ <> date_max ->
  forall fuel current result visited,
    valid_date current = true ->
    toordinal current + Z.of_nat n = toordinal end_ + 1 ->
    (n <= fuel)%nat ->
    weekly_loop fuel wm end_ current result visited =
    Ok (result ++ (bucket_of wm <$> fresh_keys visited (week_key_of <$> date_seq n current))).
Proof.
  intros Ve Hmax. pose proof (end_below_max end_ Ve Hmax) as Hlt.
  induction n as [|n IH]; intros fuel current result visited Vc Ho Hf.
  - simpl. rewrite app_nil_r.
    destruct fuel; simpl; rewrite date_leb_ordinal by done;
      destruct (Z.leb_spec (toordinal current) (toordinal end_)); done || lia.
  - destruct fuel as [|fuel]; [lia|]. cbn [weekly_loop date_seq fmap list_fmap fresh_keys].
    rewrite date_leb_ordinal by done.
    destruct (Z.leb_spec (toordinal current) (toordinal end_)); [|lia].
    assert (Hc : current <> date_max).
    { intros ->. change (toordinal date_max) with MAXORDINAL in *. lia. }
    rewrite add_one_day_ok by done.
    destruct (decide (week_key_of current ∉ visited)); cbn.
    + rewrite IH; [|by apply tomorrow_valid|rewrite toordinal_tomorrow by done; lia|lia].
      by rewrite <- app_assoc.
    + rewrite IH; [|by apply tomorrow_valid|rewrite toordinal_tomorrow by done; lia|lia].
      done.
Qed.

Lemma weekly_loop_empty fuel wm end_ current result visited :
  date_leb current end_ = false ->
  weekly_loop fuel wm end_ current result visited = Ok result.
Proof. intros H. destruct fuel; simpl; by rewrite H. Qed.

Lemma weekly_loop_days wm start end_ :
  valid_date start = true -> valid_date end_ = true -> reachable start end_ ->
  weekly_loop (day_fuel start end_) wm end_ start [] ∅ =
  Ok (bucket_of wm <$> fresh_keys ∅ (week_key_of <$> days_of start end_)).
Proof.
  intros Vs Ve Hr.
  destruct (date_leb start end_) eqn:Hle.
  - destruct Hr as [Hmax|Hlt];
      [|apply date_leb_false in Hlt; congruence].
    apply toordinal_le in Hle; [|done..].
    unfold day_fuel, days_of.
    rewrite (weekly_loop_run wm end_ (Z.to_nat (days_between start end_ + 1)));
      try done. unfold days_between. lia.
  - rewrite weekly_loop_empty by done.
    rewrite days_of_empty; [done..|]. by apply date_leb_false.
Qed.

Lemma weekly_map_of_snoc raw r :
  weekly_map_of (raw ++ [r]) =
  weekly_map ← weekly_map_of raw;
  item_date ← Strptime.strptime (row_date r);
  Ok (add_item weekly_map (week_key_of item_date) r).
Proof. unfold weekly_map_of. by rewrite foldl_app. Qed.

(** When every row date parses, the first weekly loop accumulates by the
    week key. *)
Lemma weekly_map_of_ok raw :
  Forall (fun r => exists d, Strptime.strptime (row_date r) = Ok d) raw ->
  weekly_map_of raw = Ok (accumulate week_key_row raw).
Proof.
  induction raw as [|r raw IH] using rev_ind; [done|].
  intros [Hraw Hr]%Forall_app. apply Forall_singleton in Hr as [d Hd].
  rewrite weekly_map_of_snoc, IH, accumulate_snoc by done. cbn.
  unfold week_key_row. by rewrite Hd.
Qed.

(** *** Month *)

Lemma pair_leb_index p q :
  1 <= p.2 <= 12 -> 1 <= q.2 <= 12 ->
  pair_leb p q = (month_index p <=? month_index q).
Proof.
  destruct p as [y m], q as [y' m']. unfold pair_leb, month_index. simpl.
  intros ? ?.
  destruct (Z.ltb_spec y y'), (Z.eqb_spec y y'), (Z.leb_spec m m'),
    (Z.leb_spec (12 * y + m) (12 * y' + m')); simpl; done || lia.
Qed.

Lemma monthly_loop_run mm end_year end_month n :
  1 <= end_month <= 12 ->
  forall fuel current_year current_month result,
    1 <= current_month <= 12 ->
    month_index (current_year, current_month) + Z.of_nat n =
      month_index (end_year, end_month) + 1 ->
    (n <= fuel)%nat ->
    monthly_loop fuel mm end_year end_month current_year current_month result =
    Ok (result ++ ((fun p => bucket_of mm (month_label p))
                     <$> month_seq n (current_year, current_month))).
Proof.
  intros He.
  induction n as [|n IH]; intros fuel cy cm result Hc Hi Hf.
  - simpl. rewrite app_nil_r.
    destruct fuel; simpl; rewrite pair_leb_index by done;
      destruct (Z.leb_spec (month_index (cy, cm)) (month_index (end_year, end_month)));
      done || lia.
  - destruct fuel as [|fuel]; [lia|]. cbn [monthly_loop month_seq].
    rewrite pair_leb_index by done.
    destruct (Z.leb_spec (month_index (cy, cm)) (month_index (end_year, end_month)));
      [|lia].
    rewrite fmap_cons. unfold next_month. cbn [fst snd].
    unfold month_index in *. cbn [fst snd] in *.
    destruct (Z.eqb_spec cm 12).
    + rewrite IH; [by rewrite <- app_assoc|lia| |lia]. cbn [fst snd]. lia.
    + rewrite IH; [by rewrite <- app_assoc|lia| |lia]. cbn [fst snd]. lia.
Qed.

Lemma monthly_loop_empty fuel mm ey em cy cm result :
  pair_leb (cy, cm) (ey, em) = false ->
  monthly_loop fuel mm ey em cy cm result = Ok result.
Proof. intros H. destruct fuel; simpl; by rewrite H. Qed.

Lemma monthly_loop_months mm start end_ :
  valid_date start = true -> valid_date end_ = true ->
  monthly_loop (month_fuel start end_) mm (year end_) (month end_)
    (year start) (month start) [] =
  Ok ((fun p => bucket_of mm (month_label p)) <$> months_of start end_).
Proof.
  intros (? & Hs & ?)%valid_date_spec (? & He & ?)%valid_date_spec.
  unfold months_of.
  destruct (pair_leb (year start, month start) (year end_, month end_)) eqn:Hle.
  - rewrite pair_leb_index in Hle by done. apply Z.leb_le in Hle.
    rewrite (monthly_loop_run mm (year end_) (month end_) (month_fuel start end_));
      try done.
    unfold month_fuel, month_index in *. cbn [fst snd] in *. lia.
  - rewrite monthly_loop_empty by done.
    rewrite pair_leb_index in Hle by done. apply Z.leb_gt in Hle.
    unfold month_fuel, month_index in *. cbn [fst snd] in *.
    by replace (Z.to_nat (12 * year end_ + month end_ - (12 * year start + month start) + 1))
      with O by lia.
Qed.

End LoopFacts.

(** ** First occurrences *)

Module SeenFacts.
Import LoopFacts.

Lemma first_seen_elem {A} `{EqDecision A} (seen l : list A) x :
  x ∈ first_seen seen l <-> x ∈ l /\ x ∉ seen.
Proof.
  revert seen. induction l as [|y l IH]; intros seen; simpl.
  - set_solver.
  - destruct (decide (y ∈ seen)) as [Hy|Hy].
    + rewrite IH. set_solver.
    + rewrite elem_of_cons, IH. rewrite not_elem_of_cons.
      split.
      * intros [->|(? & ? & ?)]; set_solver.
      * intros [[->|?]%elem_of_cons ?]; [by left|].
        destruct (decide (x = y)) as [->|?]; [by left | by right].
Qed.

Lemma first_seen_sorted {A} `{EqDecision A} (le lt : A -> A -> Prop)
    (seen l : list A) :
  (forall a b, le a b -> a <> b -> lt a b) ->
  StronglySorted le l -> StronglySorted lt (first_seen seen l).
Proof.
  intros Hlt Hl. revert seen.
  induction Hl as [|y l Hl IH Hy]; intros seen; simpl; [constructor|].
  destruct (decide (y ∈ seen)); [apply IH|].
  constructor; [apply IH|].
  apply Forall_forall. intros x [Hx Hn]%first_seen_elem.
  rewrite Forall_forall in Hy. apply Hlt; [by apply Hy|].
  intros ->. apply Hn. by left.
Qed.

(** Walking labels with a visited set keeps the first occurrences of the
    units, when units and labels correspond one to one. *)
Lemma fresh_keys_fmap {A} `{EqDecision A} (f : A -> string)
    (visited : gset string) (seen l : list A) :
  (forall x y, x ∈ seen ++ l -> y ∈ seen ++ l -> f x = f y -> x = y) ->
  (forall k, k ∈ visited <-> k ∈ f <$> seen) ->
  fresh_keys visited (f <$> l) = f <$> first_seen seen l.
Proof.
  revert visited seen. induction l as [|x l IH]; intros visited seen Hinj Hv;
    [done|].
  cbn [fmap list_fmap fresh_keys first_seen].
  destruct (decide (x ∈ seen)) as [Hx|Hx].
  - rewrite decide_False.
    + apply IH; [|done]. intros a b Ha Hb. apply Hinj; set_solver.
    + intros Hn. apply Hn, Hv. by apply list_elem_of_fmap_2.
  - rewrite decide_True.
    + rewrite fmap_cons. f_equal. apply IH.
      * intros a b Ha Hb. apply Hinj; set_solver.
      * intros k. rewrite elem_of_union, elem_of_singleton, fmap_cons,
          elem_of_cons, Hv. done.
    + rewrite Hv. intros (y & Ey & Hy)%list_elem_of_fmap.
      apply Hx. rewrite (Hinj x y); [done| | |done]; set_solver.
Qed.

Lemma StronglySorted_fmap_mono {A B} (R : A -> A -> Prop) (R' : B -> B -> Prop)
    (f : A -> B) (l : list A) :
  (forall x y, x ∈ l -> y ∈ l -> R x y -> R' (f x) (f y)) ->
  StronglySorted R l -> StronglySorted R' (f <$> l).
Proof.
  intros Hf Hl. induction Hl as [|x l Hl IH Hx]; [constructor|].
  rewrite fmap_cons. constructor.
  - apply IH. intros a b Ha Hb. apply Hf; by right.
  - rewrite Forall_fmap. rewrite Forall_forall in Hx |- *.
    intros y Hy. simpl. apply Hf; [by left|by right|by apply Hx].
Qed.

Lemma StronglySorted_NoDup {A} (lt : A -> A -> Prop) (l : list A) :
  (forall a, ~ lt a a) -> StronglySorted lt l -> NoDup l.
Proof.
  intros Hirr Hl. induction Hl as [|x l Hl IH Hx]; constructor; [|done].
  intros Hin. rewrite Forall_forall in Hx. by apply (Hirr x), Hx.
Qed.

End SeenFacts.

(** ** The weeks of a range *)

Module WeekFacts.
Import Calendar Database StatisticsService.
Import CalendarFacts StringFacts RangeFacts IsoFacts LoopFacts SeenFacts.

Lemma week_key_of_label d : week_key_of d = week_label (iso_week_of d).
Proof.
  unfold week_key_of, week_label, iso_week_of.
  by destruct (isocalendar d) as [[y w] wd].
Qed.

Lemma week_label_inj d1 d2 :
  valid_date d1 = true -> valid_date d2 = true ->
  week_label (iso_week_of d1) = week_label (iso_week_of d2) ->
  iso_week_of d1 = iso_week_of d2.
Proof.
  intros V1 V2 E. pose proof (iso_week_range d1 V1). pose proof (iso_week_range d2 V2).
  unfold week_label in E. apply week_key_inj in E as [? ?]; [|lia..].
  destruct (iso_week_of d1), (iso_week_of d2). simpl in *. congruence.
Qed.

Lemma pair_lt_irrefl p : ~ pair_lt p p.
Proof. unfold pair_lt. lia. Qed.

Lemma pair_le_lt p q : pair_le p q -> p <> q -> pair_lt p q.
Proof.
  destruct p as [a b], q as [c d]. unfold pair_le, pair_lt. simpl.
  intros H Hne. destruct (decide (b = d)) as [->|?]; [|lia].
  destruct H as [?|[-> ?]]; [by left|done].
Qed.

Lemma iso_weeks_sorted start end_ :
  valid_date start = true -> valid_date end_ = true ->
  StronglySorted pair_le (iso_week_of <$> days_of start end_).
Proof.
  intros Vs Ve.
  apply (StronglySorted_fmap_mono date_lt).
  - intros x y [Vx _]%days_of_elem [Vy _]%days_of_elem Hlt; [|done..].
    apply iso_week_mono; [done..|].
    apply toordinal_lt in Hlt; [lia|done..].
  - by apply days_of_enumerates.
Qed.

Lemma weeks_of_enumerates start end_ :
  valid_date start = true -> valid_date end_ = true ->
  enumerates pair_lt iso_week_of start end_ (weeks_of start end_).
Proof.
  intros Vs Ve. unfold weeks_of. split.
  - apply (first_seen_sorted pair_le); [apply pair_le_lt|].
    by apply iso_weeks_sorted.
  - intros u. rewrite first_seen_elem, list_elem_of_fmap.
    setoid_rewrite days_of_elem; [|done..]. unfold spanned. split.
    + intros [(d & -> & ? & ? & ?) _]. by exists d.
    + intros (d & ? & ? & ? & <-). split; [by exists d | set_solver].
Qed.

Lemma week_labels_of_days start end_ :
  valid_date start = true -> valid_date end_ = true ->
  fresh_keys ∅ (week_key_of <$> days_of start end_) =
  week_label <$> weeks_of start end_.
Proof.
  intros Vs Ve. unfold weeks_of.
  rewrite <- (fresh_keys_fmap week_label ∅ []).
  - f_equal. rewrite <- list_fmap_compose. apply list_fmap_ext.
    intros ? d _. apply week_key_of_label.
  - intros x y Hx Hy. simpl in Hx, Hy.
    apply list_elem_of_fmap in Hx as (d1 & -> & [V1 _]%days_of_elem); [|done..].
    apply list_elem_of_fmap in Hy as (d2 & -> & [V2 _]%days_of_elem); [|done..].
    by apply week_label_inj.
  - set_solver.
Qed.

End WeekFacts.

(** ** What each granularity returns *)

Module TrendFacts.
Import Calendar Database StatisticsService.
Import CalendarFacts StringFacts DatabaseFacts BucketFacts RangeFacts IsoFacts.
Import LoopFacts SeenFacts WeekFacts.

Lemma raw_rows_NoDup db start end_ category :
  NoDup (row_date <$> raw_rows db start end_ category).
Proof.
  unfold raw_rows.
  destruct (by_category_is_query db (strftime start) (strftime end_) category)
    as [cond ->]. apply daily_query_NoDup.
Qed.

Lemma daily_result db start end_ category :
  valid_date start = true -> valid_date end_ = true -> reachable start end_ ->
  _get_daily_trend_advanced db start end_ category =
  Ok {| granularity := "day";
        data := bucket_for row_date (raw_rows db start end_ category)
                  <$> (strftime <$> days_of start end_) |}.
Proof.
  intros Vs Ve Hr. unfold _get_daily_trend_advanced.
  rewrite daily_loop_days by done. cbn. do 2 f_equal.
  rewrite <- list_fmap_compose. apply list_fmap_ext. intros _ d _. simpl.
  apply day_bucket_data_map, raw_rows_NoDup.
Qed.

Lemma rows_parse start end_ raw :
  rows_in_range start end_ raw ->
  Forall (fun r => exists d, Strptime.strptime (row_date r) = Ok d) raw.
Proof.
  intros [_ H]. apply Forall_forall. intros r Hr.
  destruct (H r Hr) as (d & Vd & -> & _). exists d. by apply strptime_strftime.
Qed.

Lemma bucket_of_accumulate_fmap key raw (ks : list string) :
  bucket_of (accumulate key raw) <$> ks = bucket_for key raw <$> ks.
Proof. apply list_fmap_ext. intros _ k _. apply bucket_of_accumulate. Qed.

Lemma weekly_result db start end_ category :
  wf_db db \/ date_lt end_ start ->
  valid_date start = true -> valid_date end_ = true -> reachable start end_ ->
  _get_weekly_trend_advanced db start end_ category =
  Ok {| granularity := "week";
        data := bucket_for week_key_row (raw_rows db start end_ category)
                  <$> (week_label <$> weeks_of start end_) |}.
Proof.
  intros Hwf Vs Ve Hr. unfold _get_weekly_trend_advanced.
  fold (raw_rows db start end_ category).
  rewrite weekly_map_of_ok.
  - cbn. rewrite weekly_loop_days by done. cbn.
    by rewrite week_labels_of_days, bucket_of_accumulate_fmap.
  - destruct Hwf as [Hwf|Hlt].
    + by apply (rows_parse start end_), by_category_in_range.
    + unfold raw_rows. by rewrite by_category_empty.
Qed.

Lemma monthly_result db start end_ category :
  valid_date start = true -> valid_date end_ = true ->
  _get_monthly_trend_advanced db start end_ category =
  Ok {| granularity := "month";
        data := bucket_for month_key_row (raw_rows db start end_ category)
                  <$> (month_label <$> months_of start end_) |}.
Proof.
  intros Vs Ve. unfold _get_monthly_trend_advanced.
  rewrite monthly_loop_months by done. cbn. do 2 f_equal.
  rewrite <- list_fmap_compose. apply list_fmap_ext. intros _ p _. simpl.
  apply bucket_of_accumulate.
Qed.

Lemma yearly_result db start end_ category :
  _get_yearly_trend_advanced db start end_ category =
  Ok {| granularity := "year";
        data := bucket_for year_key_row (raw_rows db start end_ category)
                  <$> (year_label <$> years_of start end_) |}.
Proof.
  unfold _get_yearly_trend_advanced. do 2 f_equal.
  rewrite <- list_fmap_compose. apply list_fmap_ext. intros _ p _. simpl.
  apply bucket_of_accumulate.
Qed.

(** *** Properties shared by the four granularities *)

Section Granularity.
Context {U : Type}.
Variable unit_of : date -> U.
Variable lt : U -> U -> Prop.
Variable unit_label : U -> string.
Variable key : DailyRow -> string.

Hypothesis lt_irrefl : forall u, ~ lt u u.
Hypothesis unit_label_inj :
  forall d d', valid_date d = true -> valid_date d' = true ->
    unit_label (unit_of d) = unit_label (unit_of d') -> unit_of d = unit_of d'.
Hypothesis key_label :
  forall r d, valid_date d = true -> row_date r = strftime d ->
    key r = unit_label (unit_of d).

Lemma unit_labels_NoDup start end_ units :
  enumerates lt unit_of start end_ units -> NoDup (unit_label <$> units).
Proof.
  intros [Hs He]. apply NoDup_fmap_2_strong.
  - intros u u' (d & Vd & _ & _ & <-)%He (d' & Vd' & _ & _ & <-)%He.
    by apply unit_label_inj.
  - by apply (StronglySorted_NoDup lt).
Qed.

Lemma rows_covered start end_ units raw :
  enumerates lt unit_of start end_ units -> rows_in_range start end_ raw ->
  forall r, r ∈ raw -> key r ∈ unit_label <$> units.
Proof.
  intros [_ He] [_ Hraw] r Hr. destruct (Hraw r Hr) as (d & Vd & Ed & H1 & H2).
  rewrite (key_label r d Vd Ed). apply list_elem_of_fmap_2, He. by exists d.
Qed.

Lemma units_conserve start end_ units raw :
  enumerates lt unit_of start end_ units -> rows_in_range start end_ raw ->
  sum_income (bucket_for key raw <$> (unit_label <$> units)) = sum_rows row_income raw /\
  sum_expense (bucket_for key raw <$> (unit_label <$> units)) = sum_rows row_expense raw.
Proof.
  intros He Hraw. apply buckets_conserve.
  - by apply (unit_labels_NoDup start end_).
  - by apply (rows_covered start end_).
Qed.

End Granularity.

(** *** The four instances *)

Lemma date_lt_irrefl d : ~ date_lt d d.
Proof. unfold date_lt. rewrite date_ltb_spec. lia. Qed.

Lemma day_label_inj d d' :
  valid_date d = true -> valid_date d' = true ->
  strftime (id d) = strftime (id d') -> id d = id d'.
Proof. apply strftime_inj. Qed.

Lemma day_key_label r d :
  valid_date d = true -> row_date r = strftime d -> row_date r = strftime (id d).
Proof. done. Qed.

Lemma week_key_label r d :
  valid_date d = true -> row_date r = strftime d ->
  week_key_row r = week_label (iso_week_of d).
Proof.
  intros V E. unfold week_key_row.
  by rewrite E, strptime_strftime, week_key_of_label.
Qed.

Lemma month_label_inj d d' :
  valid_date d = true -> valid_date d' = true ->
  month_label (month_of d) = month_label (month_of d') -> month_of d = month_of d'.
Proof.
  intros (? & ? & ?)%valid_date_ranges (? & ? & ?)%valid_date_ranges E.
  unfold month_label, month_of in *. simpl in E.
  apply ym_inj in E as [-> ->]; [done|lia..].
Qed.

Lemma month_key_label r d :
  valid_date d = true -> row_date r = strftime d ->
  month_key_row r = month_label (month_of d).
Proof.
  intros V E. unfold month_key_row. rewrite E. by apply prefix_strftime_7.
Qed.

Lemma year_label_inj d d' :
  valid_date d = true -> valid_date d' = true ->
  year_label (year d) = year_label (year d') -> year d = year d'.
Proof.
  intros (? & ? & ?)%valid_date_ranges (? & ? & ?)%valid_date_ranges E.
  by apply fmt_0d_4_inj in E.
Qed.

Lemma year_key_label r d :
  valid_date d = true -> row_date r = strftime d ->
  year_key_row r = year_label (year d).
Proof.
  intros V E. unfold year_key_row. rewrite E. by apply prefix_strftime_4.
Qed.

End TrendFacts.

(** ** Outcomes of the day-stepping paths *)

Module OutcomeFacts.
Import Calendar Database StatisticsService.
Import CalendarFacts StringFacts DatabaseFacts BucketFacts RangeFacts IsoFacts.
Import LoopFacts SeenFacts WeekFacts TrendFacts.

Lemma make_date_valid y m d x :
  Strptime.make_date y m d = Ok x -> valid_date x = true.
Proof.
  unfold Strptime.make_date. destruct (valid_date (Date y m d)) eqn:V; [|done].
  by intros [= <-].
Qed.

Lemma make_date_error y m d e :
  Strptime.make_date y m d = Raise e -> e = ValueError.
Proof.
  unfold Strptime.make_date. destruct (valid_date (Date y m d)); [done|].
  by intros [= <-].
Qed.

(** A parsed date is a calendar date. *)
Lemma strptime_valid s d : Strptime.strptime s = Ok d -> valid_date d = true.
Proof.
  unfold Strptime.strptime. intros H.
  repeat (case_match; try done). by apply make_date_valid in H.
Qed.

(** Parsing fails with ValueError only. *)
Lemma strptime_error s e : Strptime.strptime s = Raise e -> e = ValueError.
Proof.
  unfold Strptime.strptime. intros H.
  repeat (case_match; try (by injection H as <-)).
  by apply make_date_error in H.
Qed.

Lemma weekly_map_of_error raw :
  ~ Forall parses raw -> weekly_map_of raw = Raise ValueError.
Proof.
  induction raw as [|r raw IH] using rev_ind; [by intros []|].
  intros Hn. rewrite weekly_map_of_snoc.
  destruct (decide (Forall parses raw)) as [Hraw|Hraw].
  - rewrite weekly_map_of_ok by done. cbn.
    destruct (Strptime.strptime (row_date r)) as [d|e] eqn:E.
    + exfalso. apply Hn, Forall_app. split; [done|].
      apply Forall_singleton. by exists d.
    + cbn. by rewrite (strptime_error _ _ E).
  - by rewrite IH.
Qed.

Lemma daily_loop_overflow dm n :
  forall fuel current result,
    valid_date current = true ->
    toordinal current + Z.of_nat n = MAXORDINAL + 1 ->
    (n <= fuel)%nat ->
    daily_loop fuel dm date_max current result = Raise OverflowError.
Proof.
  induction n as [|n IH]; intros fuel current result Vc Ho Hf.
  - pose proof (toordinal_bounds current Vc). lia.
  - destruct fuel as [|fuel]; [lia|]. cbn [daily_loop].
    rewrite date_leb_ordinal by done.
    change (toordinal date_max) with MAXORDINAL.
    pose proof (toordinal_bounds current Vc).
    destruct (Z.leb_spec (toordinal current) MAXORDINAL); [|lia].
    destruct (decide (current = date_max)) as [->|Hc]; [done|].
    rewrite add_one_day_ok by done. cbn.
    apply IH; [by apply tomorrow_valid|rewrite toordinal_tomorrow by done; lia|lia].
Qed.

Lemma weekly_loop_overflow wm n :
  forall fuel current result visited,
    valid_date current = true ->
    toordinal current + Z.of_nat n = MAXORDINAL + 1 ->
    (n <= fuel)%nat ->
    weekly_loop fuel wm date_max current result visited = Raise OverflowError.
Proof.
  induction n as [|n IH]; intros fuel current result visited Vc Ho Hf.
  - pose proof (toordinal_bounds current Vc). lia.
  - destruct fuel as [|fuel]; [lia|]. cbn [weekly_loop].
    rewrite date_leb_ordinal by done.
    change (toordinal date_max) with MAXORDINAL.
    pose proof (toordinal_bounds current Vc).
    destruct (Z.leb_spec (toordinal current) MAXORDINAL); [|lia].
    destruct (decide (week_key_of current ∉ visited));
      (destruct (decide (current = date_max)) as [->|Hc]; [done|];
       rewrite add_one_day_ok by done; cbn;
       apply IH; [by apply tomorrow_valid
                 |rewrite toordinal_tomorrow by done; lia|lia]).
Qed.

Lemma not_reachable start end_ :
  valid_date start = true -> ~ reachable start end_ ->
  end_ = date_max /\
  toordinal start + Z.of_nat (day_fuel start end_) = MAXORDINAL + 1.
Proof.
  intros Vs Hn. unfold reachable in Hn.
  destruct (decide (end_ = date_max)) as [->|?]; [|tauto]. split; [done|].
  pose proof (toordinal_bounds start Vs).
  unfold day_fuel, days_between. change (toordinal date_max) with MAXORDINAL. lia.
Qed.

(** The day path: buckets for the days of the range, or OverflowError when
    the walk has to step past [date.max]. *)
Lemma daily_outcome db start end_ category :
  valid_date start = true -> valid_date end_ = true ->
  _get_daily_trend_advanced db start end_ category =
  if decide (reachable start end_) then
    Ok {| granularity := "day";
          data := bucket_for row_date (raw_rows db start end_ category)
                    <$> (strftime <$> days_of start end_) |}
  else Raise OverflowError.
Proof.
  intros Vs Ve. destruct (decide (reachable start end_)) as [Hr|Hn].
  - by apply daily_result.
  - destruct (not_reachable start end_ Vs Hn) as [-> Hf].
    unfold _get_daily_trend_advanced.
    by rewrite (daily_loop_overflow _ (day_fuel start date_max)).
Qed.

(** The week path: ValueError on a stored date that does not parse, else as
    the day path. *)
Lemma weekly_outcome db start end_ category :
  valid_date start = true -> valid_date end_ = true ->
  _get_weekly_trend_advanced db start end_ category =
  if decide (Forall parses (raw_rows db start end_ category)) then
    if decide (reachable start end_) then
      Ok {| granularity := "week";
            data := bucket_for week_key_row (raw_rows db start end_ category)
                      <$> (week_label <$> weeks_of start end_) |}
    else Raise OverflowError
  else Raise ValueError.
Proof.
  intros Vs Ve. unfold _get_weekly_trend_advanced.
  fold (raw_rows db start end_ category).
  destruct (decide (Forall parses (raw_rows db start end_ category))) as [Hp|Hp].
  - rewrite weekly_map_of_ok by done. cbn.
    destruct (decide (reachable start end_)) as [Hr|Hn].
    + rewrite weekly_loop_days by done. cbn.
      by rewrite week_labels_of_days, bucket_of_accumulate_fmap.
    + destruct (not_reachable start end_ Vs Hn) as [-> Hf].
      by rewrite (weekly_loop_overflow _ (day_fuel start date_max)).
  - by rewrite weekly_map_of_error.
Qed.

(** The dispatch on the granularity string. *)
Lemma dispatch db start_date end_date start end_ g category :
  Strptime.strptime start_date = Ok start ->
  Strptime.strptime end_date = Ok end_ ->
  get_trend_data_advanced db start_date end_date g category =
  if decide (g = "week") then _get_weekly_trend_advanced db start end_ category
  else if decide (g = "month") then _get_monthly_trend_advanced db start end_ category
  else if decide (g = "year") then _get_yearly_trend_advanced db start end_ category
  else _get_daily_trend_advanced db start end_ category.
Proof.
  intros Es Ee. unfold get_trend_data_advanced. rewrite Es, Ee. cbn.
  destruct (String.eqb_spec g "day") as [->|?]; [done|].
  destruct (String.eqb_spec g "week") as [->|?]; [done|].
  rewrite decide_False by done.
  destruct (String.eqb_spec g "month") as [->|?]; [done|].
  rewrite decide_False by done.
  destruct (String.eqb_spec g "year") as [->|?]; [done|].
  by rewrite decide_False by done.
Qed.

End OutcomeFacts.

(* ===================================================================== *)
(** * Part IV: the claims                                                 *)
(* ===================================================================== *)

Import Calendar Database StatisticsService.
Import FormatFacts CalendarFacts StringFacts DatabaseFacts BucketFacts.
Import RangeFacts IsoFacts LoopFacts SeenFacts WeekFacts TrendFacts OutcomeFacts.

Lemma sample_db_wf : wf_db sample_db.
Proof.
  intros tx Htx. unfold sample_db in Htx.
  repeat (apply elem_of_cons in Htx as [->|Htx]);
    [exists (Date 2026 1 5) | exists (Date 2026 1 5)
    |exists (Date 2026 1 3) | exists (Date 2026 1 10) | by apply elem_of_nil in Htx];
    by vm_compute.
Qed.

(** ** The scenarios of the specification, by evaluation *)

Example scenario_day_unfiltered :
  exists res,
    get_trend_data_advanced sample_db "2026-01-01" "2026-01-15" "day" None = Ok res /\
    granularity res = "day" /\
    length (data res) = 15%nat /\
    data res !! 4%nat =
      Some {| label := "2026-01-05"; income := Hundredths 0;
              expense := Hundredths 3000 |} /\
    data res !! 9%nat =
      Some {| label := "2026-01-10"; income := Hundredths 0;
              expense := Hundredths 3000 |}.
Proof. eexists. by vm_compute. Qed.

Example scenario_day_food :
  exists res,
    get_trend_data_advanced sample_db "2026-01-01" "2026-01-15" "day"
      (Some "food") = Ok res /\
    data res !! 4%nat =
      Some {| label := "2026-01-05"; income := Hundredths 0;
              expense := Hundredths 3000 |} /\
    data res !! 9%nat =
      Some {| label := "2026-01-10"; income := Hundredths 0;
              expense := Hundredths 0 |}.
Proof. eexists. by vm_compute. Qed.

Example scenario_month_across_years :
  label <$> (default [] (match get_trend_data_advanced sample_db
                                 "2025-11-20" "2026-02-03" "month" None with
                         | Ok res => Some (data res)
                         | Raise _ => None
                         end)) =
  ["2025-11"; "2025-12"; "2026-01"; "2026-02"].
Proof. by vm_compute. Qed.

Example scenario_week_across_years :
  label <$> (default [] (match get_trend_data_advanced sample_db
                                 "2025-12-27" "2026-01-06" "week" None with
                         | Ok res => Some (data res)
                         | Raise _ => None
                         end)) =
  ["2025-W52"; "2026-W01"; "2026-W02"].
Proof. by vm_compute. Qed.

(** ** Period calculator *)

Lemma previous_month_index p :
  1 <= p.2 <= 12 ->
  1 <= (previous_month p).2 <= 12 /\
  month_index (previous_month p) = month_index p - 1.
Proof.
  destruct p as [y m]. unfold previous_month, month_index. simpl. intros Hm.
  destruct (Z.eqb_spec m 1); simpl; lia.
Qed.

Lemma iter_previous_month k p :
  1 <= p.2 <= 12 ->
  1 <= (Nat.iter k previous_month p).2 <= 12 /\
  month_index (Nat.iter k previous_month p) = month_index p - Z.of_nat k.
Proof.
  intros Hp. induction k as [|k [IH1 IH2]]; [simpl; lia|].
  rewrite Nat.iter_succ.
  destruct (previous_month_index _ IH1) as [H1 H2]. split; [done|]. lia.
Qed.

Lemma last_n_full_months_spec today n :
  valid_date today = true ->
  let '((sy, sm), (ey, em)) := last_n_full_months today n in
  1 <= em <= 12 /\ 1 <= sm <= 12 /\
  month_index (ey, em) = month_index (month_of today) - 1 /\
  month_index (sy, sm) = month_index (ey, em) - Z.max 0 (n - 1).
Proof.
  intros (Hy & Hm & Hd)%valid_date_spec. unfold last_n_full_months.
  set (end_ym := if month today =? 1 then (year today - 1, 12)
                 else (year today, month today - 1)).
  assert (He : 1 <= end_ym.2 <= 12 /\
               month_index end_ym = month_index (month_of today) - 1).
  { unfold end_ym, month_index, month_of.
    destruct (Z.eqb_spec (month today) 1); simpl; lia. }
  destruct He as [He1 He2].
  destruct (iter_previous_month (Z.to_nat (n - 1)) end_ym He1) as [Hs1 Hs2].
  destruct (Nat.iter (Z.to_nat (n - 1)) previous_month end_ym) as [sy sm].
  destruct end_ym as [ey em]. simpl in *. repeat split; try lia.
Qed.

Lemma get_last_n_full_months_range_eq today n :
  valid_date today = true ->
  let '((sy, sm), (ey, em)) := last_n_full_months today n in
  get_last_n_full_months_range today n =
  Ok (Format.ym sy sm +:+ "-01", Format.ymd ey em (days_in_month ey em)).
Proof.
  intros V. pose proof (last_n_full_months_spec today n V) as H.
  unfold get_last_n_full_months_range.
  destruct (last_n_full_months today n) as [[sy sm] [ey em]].
  destruct H as (He & _). unfold monthrange.
  destruct (Z.leb_spec 1 em), (Z.leb_spec em 12); try lia. done.
Qed.

(** C4. For every [n >= 1] and every date of today,
    [get_last_n_full_months_range] returns the first day of the month that
    lies [n-1] months before the end month and the last day of the month just
    before the current one (years roll over through the month index
    [12*year + month]); every date of the current month comes after the end
    date, as dates and as the stored strings compare; with today 2026-01-12
    and [n = 3] the result is 2025-10-01 to 2025-12-31. *)
Theorem last_n_full_months_range_correct (today : date) (n : Z) :
  valid_date today = true -> 1 <= n ->
  exists sy sm ey em,
    get_last_n_full_months_range today n =
      Ok (Format.ym sy sm +:+ "-01", Format.ymd ey em (days_in_month ey em)) /\
    1 <= sm <= 12 /\ 1 <= em <= 12 /\
    month_index (ey, em) = month_index (year today, month today) - 1 /\
    month_index (sy, sm) = month_index (ey, em) - (n - 1) /\
    (forall d, valid_date d = true ->
       year d = year today -> month d = month today ->
       date_lt (Date ey em (days_in_month ey em)) d /\
       String.leb (strftime d) (Format.ymd ey em (days_in_month ey em)) = false) /\
    get_last_n_full_months_range (Date 2026 1 12) 3 =
      Ok ("2025-10-01", "2025-12-31").
Proof.
  intros V Hn. pose proof (last_n_full_months_spec today n V) as H.
  pose proof (get_last_n_full_months_range_eq today n V) as E.
  destruct (last_n_full_months today n) as [[sy sm] [ey em]].
  destruct H as (He & Hs & Ie & Is). exists sy, sm, ey, em.
  pose proof V as (Hy & Hm & Hd)%valid_date_spec.
  unfold month_index, month_of in *. simpl in *.
  repeat split; try done; try lia.
  - unfold date_lt. rewrite date_ltb_spec. simpl. lia.
  - pose proof (days_in_month_bounds ey em He).
    pose proof H as (? & ? & ?)%valid_date_ranges.
    rewrite String_leb_compare. unfold strftime.
    rewrite ymd_compare by lia. unfold compare3.
    destruct (Z.compare_spec (year d) ey), (Z.compare_spec (month d) em);
      try done; lia.
Qed.

Lemma last_n_full_months_range_correct_witness :
  exists sy sm ey em,
    get_last_n_full_months_range (Date 2024 3 31) 14 =
      Ok (Format.ym sy sm +:+ "-01", Format.ymd ey em (days_in_month ey em)) /\
    1 <= sm <= 12 /\ 1 <= em <= 12 /\
    month_index (ey, em) = month_index (2024, 3) - 1 /\
    month_index (sy, sm) = month_index (ey, em) - (14 - 1) /\
    (forall d, valid_date d = true ->
       year d = 2024 -> month d = 3 ->
       date_lt (Date ey em (days_in_month ey em)) d /\
       String.leb (strftime d) (Format.ymd ey em (days_in_month ey em)) = false) /\
    get_last_n_full_months_range (Date 2026 1 12) 3 =
      Ok ("2025-10-01", "2025-12-31").
Proof.
  apply (last_n_full_months_range_correct (Date 2024 3 31) 14); [reflexivity|lia].
Defined.

(** C10. For [n <= 0] the loop that walks back does not run: the call
    returns, and returns what [n = 1] returns, the first and the last day of
    the month before the current one. *)
Theorem last_n_full_months_range_nonpositive (today : date) (n : Z) :
  valid_date today = true -> n <= 0 ->
  get_last_n_full_months_range today n = get_last_n_full_months_range today 1 /\
  exists ey em,
    1 <= em <= 12 /\
    month_index (ey, em) = month_index (year today, month today) - 1 /\
    get_last_n_full_months_range today n =
      Ok (Format.ym ey em +:+ "-01", Format.ymd ey em (days_in_month ey em)).
Proof.
  intros V Hn.
  assert (E : last_n_full_months today n = last_n_full_months today 1).
  { unfold last_n_full_months.
    by replace (Z.to_nat (n - 1)) with (Z.to_nat (1 - 1)) by lia. }
  split; [unfold get_last_n_full_months_range; by rewrite E|].
  pose proof (last_n_full_months_spec today n V) as H.
  pose proof (get_last_n_full_months_range_eq today n V) as R.
  unfold last_n_full_months in H, R.
  replace (Z.to_nat (n - 1)) with O in H, R by lia. simpl in H, R.
  destruct (if month today =? 1 then (year today - 1, 12)
            else (year today, month today - 1)) as [ey em].
  exists ey, em. unfold month_of in H. tauto.
Qed.

Lemma last_n_full_months_range_nonpositive_witness :
  get_last_n_full_months_range (Date 2026 1 12) (-3) =
    get_last_n_full_months_range (Date 2026 1 12) 1 /\
  exists ey em,
    1 <= em <= 12 /\
    month_index (ey, em) = month_index (2026, 1) - 1 /\
    get_last_n_full_months_range (Date 2026 1 12) (-3) =
      Ok (Format.ym ey em +:+ "-01", Format.ymd ey em (days_in_month ey em)).
Proof.
  apply (last_n_full_months_range_nonpositive (Date 2026 1 12) (-3));
    [reflexivity|lia].
Defined.

(** ** Summary and comparison *)

Lemma guarded_percent num den :
  (if 0 <? den then percent_of num den else Ok (PctInt 0)) =
  Ok (guarded_pct num den).
Proof.
  unfold guarded_pct, percent_of. destruct (Z.ltb_spec 0 den); [|done].
  destruct (Z.eqb_spec den 0); [lia|done].
Qed.

Lemma guarded_pct_zero num den : den = 0 -> guarded_pct num den = PctInt 0.
Proof. intros ->. reflexivity. Qed.

Lemma category_breakdown_fold total raw_data acc :
  foldl
    (fun acc item =>
       result ← acc;
       let amount := cat_amount_cents item in
       pct ← (if 0 <? total then percent_of amount total else Ok (PctInt 0));
       Ok (result ++ [{| be_category := cat_category item;
                         be_amount_cents := amount;
                         be_amount := div100 amount;
                         be_percentage := pct |}]))
    (Ok acc) raw_data =
  Ok (acc ++ (breakdown_entry total <$> raw_data)).
Proof.
  revert acc. induction raw_data as [|item raw IH]; intros acc; simpl.
  - by rewrite app_nil_r.
  - rewrite guarded_percent. cbn. rewrite IH. by rewrite <- app_assoc.
Qed.

Lemma category_breakdown_of_eq raw_data :
  category_breakdown_of raw_data =
  Ok (breakdown_entry (category_total raw_data) <$> raw_data).
Proof. apply (category_breakdown_fold (category_total raw_data) raw_data []). Qed.

Lemma get_month_range_ok y m :
  1 <= m <= 12 ->
  get_month_range y m =
  Ok (Format.ym y m +:+ "-01", Format.ymd y m (days_in_month y m)).
Proof.
  intros Hm. unfold get_month_range, monthrange.
  destruct (Z.leb_spec 1 m), (Z.leb_spec m 12); try lia. done.
Qed.

(** C6. Neither ratio divides by zero: [get_category_breakdown] returns for
    every input, with percentage [0] in every entry when the amounts total
    zero; [get_month_over_month_change] returns for every date of today, with
    a percentage delta [0] wherever last month's total is zero. *)
Theorem ratios_guard_zero_baseline (db : Database.t) (today : date) :
  valid_date today = true ->
  (forall raw_data, exists entries,
     category_breakdown_of raw_data = Ok entries /\
     (category_total raw_data = 0 ->
      Forall (fun e => be_percentage e = PctInt 0) entries)) /\
  (forall start_date end_date tx_ty,
     returns (get_category_breakdown db start_date end_date tx_ty)) /\
  exists current last change,
    get_current_month_summary db today = Ok current /\
    get_last_month_summary db today = Ok last /\
    get_month_over_month_change db today = Ok change /\
    (expense_cents last = 0 -> expense_change_pct change = PctInt 0) /\
    (income_cents last = 0 -> income_change_pct change = PctInt 0).
Proof.
  intros (Hy & Hm & Hd)%valid_date_spec. split; [|split].
  - intros raw. eexists. split; [apply category_breakdown_of_eq|].
    intros E. rewrite E. apply Forall_fmap, Forall_forall. by intros item _.
  - intros s e ty. unfold get_category_breakdown.
    rewrite category_breakdown_of_eq. by eexists.
  - unfold get_month_over_month_change, get_current_month_summary,
      get_last_month_summary.
    rewrite get_month_range_ok by done. cbn.
    set (prev := if month today =? 1 then (year today - 1, 12)
                 else (year today, month today - 1)).
    assert (Hp : 1 <= prev.2 <= 12)
      by (unfold prev; destruct (Z.eqb_spec (month today) 1); simpl; lia).
    destruct prev as [py pm]. simpl in Hp.
    rewrite get_month_range_ok by done. cbn.
    rewrite !guarded_percent. cbn.
    do 3 eexists. split; [done|]. split; [done|]. split; [done|].
    simpl. split; apply guarded_pct_zero.
Qed.

Lemma ratios_guard_zero_baseline_witness :
  (forall raw_data, exists entries,
     category_breakdown_of raw_data = Ok entries /\
     (category_total raw_data = 0 ->
      Forall (fun e => be_percentage e = PctInt 0) entries)) /\
  (forall start_date end_date tx_ty,
     returns (get_category_breakdown sample_db start_date end_date tx_ty)) /\
  exists current last change,
    get_current_month_summary sample_db (Date 2026 1 12) = Ok current /\
    get_last_month_summary sample_db (Date 2026 1 12) = Ok last /\
    get_month_over_month_change sample_db (Date 2026 1 12) = Ok change /\
    (expense_cents last = 0 -> expense_change_pct change = PctInt 0) /\
    (income_cents last = 0 -> income_change_pct change = PctInt 0).
Proof.
  apply (ratios_guard_zero_baseline sample_db (Date 2026 1 12)). reflexivity.
Defined.

#[local] Instance total_desc_transitive : Transitive total_desc.
Proof. intros a b c. unfold total_desc. lia. Qed.

#[local] Instance total_desc_total : Total total_desc.
Proof. intros a b. unfold total_desc. lia. Qed.

(** The storage query returns its rows by descending total. *)
Lemma get_category_summary_sorted db start_date end_date tx_ty :
  descending (cat_amount_cents <$> get_category_summary db start_date end_date tx_ty).
Proof.
  unfold get_category_summary, descending.
  apply (StronglySorted_fmap_mono total_desc); [done|].
  apply StronglySorted_merge_sort; apply _.
Qed.

(** C7, as stated, fails: on a storage sequence that is not sorted the
    breakdown keeps the storage order, here 100 before 300. *)
Lemma breakdown_not_sorted_by_service :
  exists entries,
    category_breakdown_of unsorted_rows = Ok entries /\
    be_amount_cents <$> entries = [100; 300] /\
    ~ descending (be_amount_cents <$> entries).
Proof.
  eexists. split; [reflexivity|]. split; [reflexivity|].
  simpl. intros H. inversion H as [|? ? _ Hall]. subst.
  apply Forall_cons in Hall as [Hle _]. lia.
Qed.

(** C7, amended. [get_category_breakdown] keeps the rows of the storage read
    in their order, with their categories and amounts; its result is in
    descending order of amount because [get_category_summary] orders its rows
    by total, descending. *)
Theorem breakdown_keeps_storage_order (db : Database.t)
    (start_date end_date tx_ty : string) :
  (forall raw_data, exists entries,
     category_breakdown_of raw_data = Ok entries /\
     be_category <$> entries = cat_category <$> raw_data /\
     be_amount_cents <$> entries = cat_amount_cents <$> raw_data) /\
  exists entries,
    get_category_breakdown db start_date end_date tx_ty = Ok entries /\
    descending (be_amount_cents <$> entries).
Proof.
  assert (G : forall raw_data,
    be_category <$> (breakdown_entry (category_total raw_data) <$> raw_data)
      = cat_category <$> raw_data /\
    be_amount_cents <$> (breakdown_entry (category_total raw_data) <$> raw_data)
      = cat_amount_cents <$> raw_data).
  { intros raw. rewrite <- !list_fmap_compose. split; by apply list_fmap_ext. }
  split.
  - intros raw. eexists. split; [apply category_breakdown_of_eq|]. apply G.
  - unfold get_category_breakdown. rewrite category_breakdown_of_eq.
    eexists. split; [done|]. destruct (G (get_category_summary db start_date end_date tx_ty)) as [_ ->].
    apply get_category_summary_sorted.
Qed.

(** ** Granularity bucketer *)

Lemma trend_parse_error db start_date end_date g category :
  (forall d, Strptime.strptime start_date <> Ok d) \/
  (forall d, Strptime.strptime end_date <> Ok d) ->
  forall res, get_trend_data_advanced db start_date end_date g category <> Ok res.
Proof.
  intros H res. unfold get_trend_data_advanced.
  destruct (Strptime.strptime start_date) as [start|e1] eqn:E1; [|done].
  destruct (Strptime.strptime end_date) as [end_|e2] eqn:E2; [|done].
  destruct H as [H|H]; by edestruct H.
Qed.

(** The bounds given to the modelled loops are large enough: no call ends
    for lack of fuel. *)
Lemma trend_never_out_of_fuel db start_date end_date g category :
  get_trend_data_advanced db start_date end_date g category <> Raise OutOfFuel.
Proof.
  destruct (Strptime.strptime start_date) as [start|e1] eqn:Es.
  2: { unfold get_trend_data_advanced. rewrite Es. cbn.
       by rewrite (strptime_error _ _ Es). }
  destruct (Strptime.strptime end_date) as [end_|e2] eqn:Ee.
  2: { unfold get_trend_data_advanced. rewrite Es, Ee. cbn.
       by rewrite (strptime_error _ _ Ee). }
  pose proof (strptime_valid _ _ Es) as Vs. pose proof (strptime_valid _ _ Ee) as Ve.
  rewrite (dispatch db _ _ start end_) by done.
  repeat case_decide.
  - rewrite weekly_outcome by done. by repeat case_decide.
  - by rewrite monthly_result.
  - by rewrite yearly_result.
  - rewrite daily_outcome by done. by case_decide.
Qed.

(** C8. A granularity outside day, week, month and year takes the day path:
    the call has the outcome of the call with ["day"], its result carries
    the tag ["day"], and it returns wherever the day walk stays within
    [date.max]. *)
Theorem unknown_granularity_is_day (db : Database.t)
    (start_date end_date g : string) (category : option string) :
  g ∉ ["day"; "week"; "month"; "year"] ->
  get_trend_data_advanced db start_date end_date g category =
    get_trend_data_advanced db start_date end_date "day" category /\
  (forall res,
     get_trend_data_advanced db start_date end_date g category = Ok res ->
     granularity res = "day") /\
  (forall start end_,
     Strptime.strptime start_date = Ok start ->
     Strptime.strptime end_date = Ok end_ ->
     reachable start end_ ->
     returns (get_trend_data_advanced db start_date end_date g category)).
Proof.
  intros Hg.
  assert (Hne : g <> "day" /\ g <> "week" /\ g <> "month" /\ g <> "year").
  { repeat split; intros ->; apply Hg; set_solver. }
  destruct Hne as (H1 & H2 & H3 & H4).
  assert (E : get_trend_data_advanced db start_date end_date g category =
              get_trend_data_advanced db start_date end_date "day" category).
  { unfold get_trend_data_advanced.
    destruct (Strptime.strptime start_date) as [start|]; [|done].
    destruct (Strptime.strptime end_date) as [end_|]; [|done]. cbn.
    apply String.eqb_neq in H1, H2, H3, H4. by rewrite H1, H2, H3, H4. }
  split; [done|]. rewrite E. split.
  - intros res Hres.
    destruct (Strptime.strptime start_date) as [start|] eqn:Es;
      [|by eapply trend_parse_error in Hres; [|left; by rewrite Es]].
    destruct (Strptime.strptime end_date) as [end_|] eqn:Ee;
      [|by eapply trend_parse_error in Hres; [|right; by rewrite Ee]].
    rewrite (dispatch db _ _ start end_) in Hres by done. simpl in Hres.
    rewrite daily_outcome in Hres by (by eapply strptime_valid).
    destruct (decide (reachable start end_)); [|done]. by injection Hres as <-.
  - intros start end_ Es Ee Hr.
    rewrite (dispatch db _ _ start end_) by done. simpl.
    rewrite daily_outcome by (by eapply strptime_valid).
    rewrite decide_True by done. by eexists.
Qed.

Lemma unknown_granularity_is_day_witness :
  get_trend_data_advanced sample_db "2026-01-01" "2026-01-15" "quarter" None =
    get_trend_data_advanced sample_db "2026-01-01" "2026-01-15" "day" None /\
  (forall res,
     get_trend_data_advanced sample_db "2026-01-01" "2026-01-15" "quarter" None
       = Ok res ->
     granularity res = "day") /\
  (forall start end_,
     Strptime.strptime "2026-01-01" = Ok start ->
     Strptime.strptime "2026-01-15" = Ok end_ ->
     reachable start end_ ->
     returns (get_trend_data_advanced sample_db "2026-01-01" "2026-01-15"
                "quarter" None)).
Proof.
  apply (unknown_granularity_is_day sample_db "2026-01-01" "2026-01-15"
           "quarter" None).
  intros H. repeat (apply elem_of_cons in H as [H|H]; [discriminate H|]).
  by apply elem_of_nil in H.
Defined.

(** C9. With [start_date] after [end_date], both from year 1000 on, the
    call returns at each of the four granularities, whatever the ledger
    stores: no bucket for day and week; for month and year always a result,
    which is one zero bucket for month when both dates lie in one calendar
    month, and for year when both lie in one calendar year. *)
Theorem empty_range_by_granularity (db : Database.t)
    (start_date end_date : string) (start end_ : date)
    (category : option string) :
  Strptime.strptime start_date = Ok start ->
  Strptime.strptime end_date = Ok end_ ->
  date_lt end_ start ->
  1000 <= year end_ ->
  get_trend_data_advanced db start_date end_date "day" category =
    Ok {| granularity := "day"; data := [] |} /\
  get_trend_data_advanced db start_date end_date "week" category =
    Ok {| granularity := "week"; data := [] |} /\
  returns (get_trend_data_advanced db start_date end_date "month" category) /\
  returns (get_trend_data_advanced db start_date end_date "year" category) /\
  (year start = year end_ -> month start = month end_ ->
   get_trend_data_advanced db start_date end_date "month" category =
     Ok {| granularity := "month";
           data := [zero_bucket (Format.ym (year start) (month start))] |}) /\
  (year start = year end_ ->
   get_trend_data_advanced db start_date end_date "year" category =
     Ok {| granularity := "year";
           data := [zero_bucket (Format.fmt_0d 4 (year start))] |}).
Proof.
  intros Es Ee Hlt _.
  pose proof (strptime_valid _ _ Es) as Vs. pose proof (strptime_valid _ _ Ee) as Ve.
  assert (Hraw : raw_rows db start end_ category = [])
    by (by apply by_category_empty).
  rewrite !(dispatch db _ _ start end_) by done. simpl.
  split; [|split; [|split; [|split; [|split]]]].
  - rewrite daily_result by (done || by right). by rewrite days_of_empty.
  - rewrite weekly_result by (done || by right).
    unfold weeks_of. by rewrite days_of_empty.
  - rewrite monthly_result by done. by eexists.
  - rewrite yearly_result. by eexists.
  - intros Hy Hm. rewrite monthly_result, Hraw by done.
    unfold months_of, month_fuel. rewrite Hy, Hm.
    by replace (12 * year end_ + month end_ - (12 * year end_ + month end_) + 1)
      with 1 by lia.
  - intros Hy. rewrite yearly_result, Hraw.
    unfold years_of. rewrite Hy.
    by replace (year end_ + 1 - year end_) with 1 by lia.
Qed.

Lemma empty_range_by_granularity_witness :
  get_trend_data_advanced sample_db "2026-01-20" "2026-01-04" "day" (Some "food") =
    Ok {| granularity := "day"; data := [] |} /\
  get_trend_data_advanced sample_db "2026-01-20" "2026-01-04" "week" (Some "food") =
    Ok {| granularity := "week"; data := [] |} /\
  returns (get_trend_data_advanced sample_db "2026-01-20" "2026-01-04" "month"
             (Some "food")) /\
  returns (get_trend_data_advanced sample_db "2026-01-20" "2026-01-04" "year"
             (Some "food")) /\
  (2026 = 2026 -> 1 = 1 ->
   get_trend_data_advanced sample_db "2026-01-20" "2026-01-04" "month" (Some "food") =
     Ok {| granularity := "month";
           data := [zero_bucket (Format.ym 2026 1)] |}) /\
  (2026 = 2026 ->
   get_trend_data_advanced sample_db "2026-01-20" "2026-01-04" "year" (Some "food") =
     Ok {| granularity := "year";
           data := [zero_bucket (Format.fmt_0d 4 2026)] |}).
Proof.
  apply (empty_range_by_granularity sample_db "2026-01-20" "2026-01-04"
           (Date 2026 1 20) (Date 2026 1 4) (Some "food"));
    [reflexivity|reflexivity|reflexivity|simpl; lia].
Defined.

Lemma bucket_incomes_ext (kf : string -> string) raw1 raw2 (ks : list string) :
  (fun r => (row_date r, row_income r)) <$> raw1 =
  (fun r => (row_date r, row_income r)) <$> raw2 ->
  (fun b => (label b, income b)) <$> (bucket_for (fun r => kf (row_date r)) raw1 <$> ks) =
  (fun b => (label b, income b)) <$> (bucket_for (fun r => kf (row_date r)) raw2 <$> ks).
Proof.
  intros E. rewrite <- !list_fmap_compose. apply list_fmap_ext. intros _ k _.
  simpl. by rewrite (sum_where_income_ext kf k raw1 raw2 E).
Qed.

Lemma parses_ext raw1 raw2 :
  row_date <$> raw1 = row_date <$> raw2 ->
  Forall parses raw1 -> Forall parses raw2.
Proof.
  revert raw2. induction raw1 as [|r1 raw1 IH]; intros [|r2 raw2] E H; try done.
  simpl in E. injection E as E1 E2. apply Forall_cons in H as [H1 H2].
  constructor; [|by apply IH]. unfold parses in *. by rewrite <- E1.
Qed.

(** C3. The category filter leaves the tag, the labels and the income of
    every bucket as in the unfiltered call, for every range, granularity and
    category, and the filtered call raises exactly when the unfiltered one
    does. *)
Theorem category_filter_keeps_income (db : Database.t)
    (start_date end_date g category : string) :
  incomes (get_trend_data_advanced db start_date end_date g (Some category)) =
  incomes (get_trend_data_advanced db start_date end_date g None).
Proof.
  destruct (Strptime.strptime start_date) as [start|e1] eqn:Es;
    [|unfold get_trend_data_advanced; by rewrite Es].
  destruct (Strptime.strptime end_date) as [end_|e2] eqn:Ee;
    [|unfold get_trend_data_advanced; by rewrite Es, Ee].
  pose proof (strptime_valid _ _ Es) as Vs. pose proof (strptime_valid _ _ Ee) as Ve.
  rewrite !(dispatch db _ _ start end_) by done.
  pose proof (by_category_income db (strftime start) (strftime end_) (Some category))
    as E.
  fold (raw_rows db start end_ (Some category)) in E.
  fold (raw_rows db start end_ None) in E.
  assert (Ed : row_date <$> raw_rows db start end_ (Some category) =
               row_date <$> raw_rows db start end_ None).
  { apply (f_equal (fmap fst)) in E. rewrite <- !list_fmap_compose in E. done. }
  destruct (decide (g = "week")); [|destruct (decide (g = "month"));
    [|destruct (decide (g = "year"))]].
  - rewrite !weekly_outcome by done.
    destruct (decide (Forall parses (raw_rows db start end_ (Some category)))) as [P1|P1],
             (decide (Forall parses (raw_rows db start end_ None))) as [P2|P2].
    + destruct (decide (reachable start end_)); [|done]. cbn. do 2 f_equal.
      apply (bucket_incomes_ext
               (fun s => match Strptime.strptime s with
                         | Ok d => week_key_of d
                         | Raise _ => ""
                         end)), E.
    + exfalso. apply P2. by apply (parses_ext _ _ Ed).
    + exfalso. apply P1. by apply (parses_ext _ _ (eq_sym Ed)).
    + done.
  - rewrite !monthly_result by done. cbn. do 2 f_equal.
    apply (bucket_incomes_ext (Format.prefix 7)), E.
  - rewrite !yearly_result. cbn. do 2 f_equal.
    apply (bucket_incomes_ext (Format.prefix 4)), E.
  - rewrite !daily_outcome by done.
    destruct (decide (reachable start end_)); [|done]. cbn. do 2 f_equal.
    apply (bucket_incomes_ext id), E.
Qed.

(** *** The four kinds of calendar unit *)

Lemma unit_kinds_ok g : g ∈ unit_kinds -> kind_ok g.
Proof.
  unfold unit_kinds. intros H.
  repeat (apply elem_of_cons in H as [->|H]); [| | | |by apply elem_of_nil in H];
    constructor; simpl.
  - apply date_lt_irrefl.
  - apply day_label_inj.
  - apply day_key_label.
  - apply pair_lt_irrefl.
  - apply week_label_inj.
  - apply week_key_label.
  - apply pair_lt_irrefl.
  - apply month_label_inj.
  - apply month_key_label.
  - intros u. lia.
  - apply year_label_inj.
  - apply year_key_label.
Qed.

(** Two enumerations of the same range are the same list. *)
Lemma enumerates_unique {U} (lt : U -> U -> Prop) unit_of start end_ l1 l2 :
  (forall a, ~ lt a a) -> (forall a b c, lt a b -> lt b c -> lt a c) ->
  enumerates lt unit_of start end_ l1 -> enumerates lt unit_of start end_ l2 ->
  l1 = l2.
Proof.
  intros Hirr Htr [S1 E1] [S2 E2].
  assert (Hiff : forall u, u ∈ l1 <-> u ∈ l2) by (intros u; by rewrite E1, E2).
  clear E1 E2. revert l2 S2 Hiff.
  induction S1 as [|x l1 S1 IH Hx]; intros l2 S2 Hiff.
  - destruct l2 as [|y l2]; [done|]. exfalso.
    assert (y ∈ []) by (apply Hiff; by left). by apply elem_of_nil in H.
  - destruct S2 as [|y l2 S2 Hy].
    { exfalso. assert (x ∈ []) by (apply Hiff; by left). by apply elem_of_nil in H. }
    rewrite Forall_forall in Hx, Hy.
    assert (x = y) as <-.
    { assert (Hx' : x ∈ y :: l2) by (apply Hiff; by left).
      assert (Hy' : y ∈ x :: l1) by (apply Hiff; by left).
      apply elem_of_cons in Hx' as [?|Hx']; [done|].
      apply elem_of_cons in Hy' as [?|Hy']; [done|].
      exfalso. apply (Hirr x), (Htr x y x); [by apply Hx | by apply Hy]. }
    f_equal. apply IH; [done|]. intros u. split; intros Hu.
    + assert (Hu' : u ∈ x :: l2) by (apply Hiff; by right).
      apply elem_of_cons in Hu' as [->|?]; [|done].
      exfalso. by apply (Hirr x), Hx.
    + assert (Hu' : u ∈ x :: l1) by (apply Hiff; by right).
      apply elem_of_cons in Hu' as [->|?]; [|done].
      exfalso. by apply (Hirr x), Hy.
Qed.

(** What a call on a kind returns, through the path of its name. *)
Lemma kind_outcome db start_date end_date start end_ category g :
  g ∈ unit_kinds ->
  wf_db db \/ date_lt end_ start ->
  Strptime.strptime start_date = Ok start ->
  Strptime.strptime end_date = Ok end_ ->
  (steps_days g -> reachable start end_) ->
  exists units : list (uk_unit g),
    get_trend_data_advanced db start_date end_date (uk_name g) category =
      Ok {| granularity := uk_name g;
            data := buckets_of g (raw_rows db start end_ category) units |} /\
    (date_le start end_ -> units_of g start end_ units).
Proof.
  unfold unit_kinds, units_of, buckets_of, steps_days. intros H Hwf Es Ee Hr.
  pose proof (strptime_valid _ _ Es) as Vs. pose proof (strptime_valid _ _ Ee) as Ve.
  rewrite (dispatch db _ _ start end_) by done.
  repeat (apply elem_of_cons in H as [->|H]); [| | | |by apply elem_of_nil in H];
    simpl in *.
  - exists (days_of start end_). rewrite daily_result by (done || apply Hr; by left).
    split; [done|]. intros. by apply days_of_enumerates.
  - exists (weeks_of start end_).
    rewrite weekly_result by (done || apply Hr; by right).
    split; [done|]. intros. by apply weeks_of_enumerates.
  - exists (months_of start end_). rewrite monthly_result by done.
    split; [done|]. intros. by apply months_of_enumerates.
  - exists (years_of start end_). rewrite yearly_result.
    split; [done|]. intros. by apply years_of_enumerates.
Qed.

Lemma date_lt_trans a b c : date_lt a b -> date_lt b c -> date_lt a c.
Proof. unfold date_lt. rewrite !date_ltb_spec. lia. Qed.

Lemma buckets_of_labels (g : unit_kind) raw (units : list (uk_unit g)) :
  label <$> buckets_of g raw units = uk_label g <$> units.
Proof. apply label_bucket_for. Qed.

Lemma buckets_of_lookup (g : unit_kind) raw (units : list (uk_unit g)) i u b :
  units !! i = Some u -> buckets_of g raw units !! i = Some b ->
  b = bucket_for (uk_key g) raw (uk_label g u).
Proof.
  unfold buckets_of. rewrite !list_lookup_fmap. intros ->. simpl. congruence.
Qed.

(** C1. The code breaks the claim on a range that ends on [date.max]: the
    day walk, and the week walk, have appended the last bucket when they add
    one more day to the current date, which raises OverflowError, so that the
    call returns no bucket sequence at all.  The month and the year path,
    which count in ints, return their one bucket on the same range. *)
Lemma trend_overflow_at_date_max :
  Strptime.strptime "9999-12-31" = Ok date_max /\
  date_le date_max date_max /\
  get_trend_data_advanced [] "9999-12-31" "9999-12-31" "day" None
    = Raise OverflowError /\
  get_trend_data_advanced [] "9999-12-31" "9999-12-31" "week" None
    = Raise OverflowError /\
  ~ returns (get_trend_data_advanced [] "9999-12-31" "9999-12-31" "day" None) /\
  get_trend_data_advanced [] "9999-12-31" "9999-12-31" "month" None
    = Ok {| granularity := "month"; data := [zero_bucket "9999-12"] |} /\
  get_trend_data_advanced [] "9999-12-31" "9999-12-31" "year" None
    = Ok {| granularity := "year"; data := [zero_bucket "9999"] |}.
Proof.
  split; [by vm_compute|]. split; [by vm_compute|].
  split; [by vm_compute|]. split; [by vm_compute|].
  split; [|split; by vm_compute].
  intros [res H]. vm_compute in H. discriminate H.
Qed.

Lemma sums_no_rows key (ks : list string) :
  sum_income (bucket_for key [] <$> ks) = 0 /\
  sum_expense (bucket_for key [] <$> ks) = 0.
Proof.
  unfold sum_income, sum_expense.
  induction ks as [|k ks [IH1 IH2]]; [done|].
  rewrite fmap_cons. cbn [foldr]. by rewrite IH1, IH2.
Qed.

(** Conservation for one kind, on forward and on empty ranges. *)
Lemma kind_conserves (g : unit_kind) db start end_ category
    (units : list (uk_unit g)) :
  kind_ok g -> wf_db db ->
  valid_date start = true -> valid_date end_ = true ->
  (date_le start end_ -> units_of g start end_ units) ->
  sum_income (buckets_of g (raw_rows db start end_ category) units) =
    sum_rows row_income (raw_rows db start end_ category) /\
  sum_expense (buckets_of g (raw_rows db start end_ category) units) =
    sum_rows row_expense (raw_rows db start end_ category).
Proof.
  intros [Hirr Hinj Hkey] Hwf Vs Ve En. unfold buckets_of.
  destruct (date_leb start end_) eqn:Hle.
  - apply (units_conserve (uk_unit_of g) (uk_lt g) (uk_label g) (uk_key g)
             Hirr Hinj Hkey start end_); [by apply En|].
    by apply by_category_in_range.
  - apply date_leb_false in Hle. unfold raw_rows.
    rewrite by_category_empty by done. apply sums_no_rows.
Qed.

Lemma kind_of_in g : kind_of g ∈ unit_kinds.
Proof.
  unfold kind_of, unit_kinds. repeat case_decide; set_solver.
Qed.

Lemma dispatch_kind db start_date end_date g category :
  get_trend_data_advanced db start_date end_date g category =
  get_trend_data_advanced db start_date end_date (uk_name (kind_of g)) category.
Proof.
  unfold get_trend_data_advanced.
  destruct (Strptime.strptime start_date) as [start|]; [|done].
  destruct (Strptime.strptime end_date) as [end_|]; [|done]. cbn.
  unfold kind_of.
  destruct (String.eqb_spec g "day") as [->|?]; [done|].
  destruct (String.eqb_spec g "week") as [->|?]; [done|].
  rewrite decide_False by done.
  destruct (String.eqb_spec g "month") as [->|?]; [done|].
  rewrite decide_False by done.
  destruct (String.eqb_spec g "year") as [->|?]; [done|].
  by rewrite decide_False by done.
Qed.

(** On the day-stepping paths a result implies the walk stayed in range. *)
Lemma steps_days_reachable db start_date end_date start end_ category g res :
  g ∈ unit_kinds -> steps_days g ->
  Strptime.strptime start_date = Ok start ->
  Strptime.strptime end_date = Ok end_ ->
  get_trend_data_advanced db start_date end_date (uk_name g) category = Ok res ->
  reachable start end_.
Proof.
  intros Hg Hs Es Ee R.
  pose proof (strptime_valid _ _ Es) as Vs. pose proof (strptime_valid _ _ Ee) as Ve.
  rewrite (dispatch db _ _ start end_) in R by done.
  destruct (decide (reachable start end_)) as [?|Hn]; [done|exfalso].
  unfold unit_kinds in Hg. destruct Hs as [Hs|Hs];
    repeat (apply elem_of_cons in Hg as [->|Hg]); try done;
    try (by apply elem_of_nil in Hg); simpl in R.
  - rewrite daily_outcome, decide_False in R by done. done.
  - rewrite weekly_outcome in R by done.
    destruct (decide (Forall parses _)); [|done].
    by rewrite decide_False in R by done.
Qed.

(** C2. For every granularity string and every category filter, present
    or absent, and two dates from year 1000 on, the incomes of the returned
    buckets add up, in minor units, to the incomes of the daily totals the
    storage returns for the range, and the expenses to their expenses; the
    call returns whenever the day walk stays within [date.max]. *)
Theorem trend_conserves_totals (db : Database.t)
    (start_date end_date g : string) (start end_ : date)
    (category : option string) :
  wf_db db ->
  Strptime.strptime start_date = Ok start ->
  Strptime.strptime end_date = Ok end_ ->
  1000 <= year start -> 1000 <= year end_ ->
  (reachable start end_ ->
   returns (get_trend_data_advanced db start_date end_date g category)) /\
  forall res,
    get_trend_data_advanced db start_date end_date g category = Ok res ->
    sum_income (data res) =
      sum_rows row_income
        (get_daily_summary_by_category db (strftime start) (strftime end_) category) /\
    sum_expense (data res) =
      sum_rows row_expense
        (get_daily_summary_by_category db (strftime start) (strftime end_) category).
Proof.
  intros Hwf Es Ee _ _.
  pose proof (strptime_valid _ _ Es) as Vs. pose proof (strptime_valid _ _ Ee) as Ve.
  rewrite dispatch_kind. pose proof (kind_of_in g) as Hk.
  generalize dependent (kind_of g). intros k Hk. split.
  - intros Hr.
    destruct (kind_outcome db start_date end_date start end_ category k)
      as (units & R & _); try done; [by left|]. by eexists.
  - intros res R.
    destruct (kind_outcome db start_date end_date start end_ category k)
      as (units & R' & En); try done; [by left| |].
    + intros Hs. by eapply steps_days_reachable.
    + rewrite R' in R. injection R as <-. simpl.
      by apply kind_conserves; [apply unit_kinds_ok|..].
Qed.

Lemma trend_conserves_totals_witness :
  (reachable (Date 2026 1 1) (Date 2026 1 15) ->
   returns (get_trend_data_advanced sample_db "2026-01-01" "2026-01-15" "week"
              (Some "food"))) /\
  forall res,
    get_trend_data_advanced sample_db "2026-01-01" "2026-01-15" "week"
      (Some "food") = Ok res ->
    sum_income (data res) =
      sum_rows row_income
        (get_daily_summary_by_category sample_db (strftime (Date 2026 1 1))
           (strftime (Date 2026 1 15)) (Some "food")) /\
    sum_expense (data res) =
      sum_rows row_expense
        (get_daily_summary_by_category sample_db (strftime (Date 2026 1 1))
           (strftime (Date 2026 1 15)) (Some "food")).
Proof.
  apply (trend_conserves_totals sample_db "2026-01-01" "2026-01-15" "week"
           (Date 2026 1 1) (Date 2026 1 15) (Some "food")).
  - apply sample_db_wf.
  - reflexivity.
  - reflexivity.
  - simpl; lia.
  - simpl; lia.
Defined.

Lemma sorted_lookup_lt {A} (lt : A -> A -> Prop) (l : list A) i j a b :
  StronglySorted lt l -> l !! i = Some a -> l !! j = Some b ->
  (i < j)%nat -> lt a b.
Proof.
  intros Hs. revert i j. induction Hs as [|x l Hs IH Hx]; intros i j Hi Hj Hlt.
  - done.
  - destruct j as [|j]; [lia|]. simpl in Hj. destruct i as [|i].
    + simpl in Hi. injection Hi as <-. rewrite Forall_forall in Hx.
      by eapply Hx, list_elem_of_lookup_2.
    + simpl in Hi. apply (IH i j); [done..|lia].
Qed.

Lemma pair_lt_trans a b c : pair_lt a b -> pair_lt b c -> pair_lt a c.
Proof. unfold pair_lt. lia. Qed.

(** In an ascending list an earlier unit sits at an earlier index. *)
Lemma sorted_index_order (l : list (Z * Z)) i j a b :
  StronglySorted pair_lt l -> l !! i = Some a -> l !! j = Some b ->
  pair_lt a b -> (i < j)%nat.
Proof.
  intros Hs Hi Hj Hlt.
  destruct (Nat.lt_trichotomy i j) as [?|[->|Hgt]]; [done|exfalso..].
  - rewrite Hi in Hj. injection Hj as ->. by apply (pair_lt_irrefl b).
  - pose proof (sorted_lookup_lt pair_lt l j i b a Hs Hj Hi Hgt).
    by apply (pair_lt_irrefl a), (pair_lt_trans a b a).
Qed.

(** C5. Under week granularity, for two dates from year 1000 on, every
    date of the range has exactly one bucket, labelled with the ISO 8601 year and week of the date (the year
    that holds the Thursday of the date's Monday-based week, and the count of
    weeks from the one with that year's first Thursday); the bucket holds the
    totals of the rows dated in that week.  2026-01-05 and 2026-01-11 share
    the label 2026-W02; 2026-01-12 has 2026-W03, which comes later in every
    result that covers these dates. *)
Theorem week_buckets_follow_iso_calendar (db : Database.t)
    (start_date end_date : string) (start end_ : date)
    (category : option string) :
  wf_db db ->
  Strptime.strptime start_date = Ok start ->
  Strptime.strptime end_date = Ok end_ ->
  1000 <= year start -> 1000 <= year end_ ->
  (reachable start end_ ->
   returns (get_trend_data_advanced db start_date end_date "week" category)) /\
  (forall r d, valid_date d = true -> row_date r = strftime d ->
     week_key_row r = week_key_of d) /\
  week_key_of (Date 2026 1 5) = "2026-W02" /\
  week_key_of (Date 2026 1 11) = "2026-W02" /\
  week_key_of (Date 2026 1 12) = "2026-W03" /\
  forall res,
    get_trend_data_advanced db start_date end_date "week" category = Ok res ->
    granularity res = "week" /\
    (forall d, valid_date d = true -> date_le start d -> date_le d end_ ->
       exists iso_year iso_week i b,
         iso_week_of d = (iso_year, iso_week) /\
         firstday iso_year <= thursday_of d < firstday (iso_year + 1) /\
         iso_week = (thursday_of d - firstday iso_year) / 7 + 1 /\
         week_key_of d = Format.week_key iso_year iso_week /\
         data res !! i = Some b /\
         label b = Format.week_key iso_year iso_week /\
         (forall j b', data res !! j = Some b' -> label b' = label b -> j = i) /\
         income b =
           div100 (sum_where row_income week_key_row (label b)
                     (raw_rows db start end_ category)) /\
         expense b =
           div100 (sum_where row_expense week_key_row (label b)
                     (raw_rows db start end_ category))) /\
    (date_le start (Date 2026 1 5) -> date_le (Date 2026 1 12) end_ ->
     exists i j,
       (i < j)%nat /\
       label <$> data res !! i = Some "2026-W02" /\
       label <$> data res !! j = Some "2026-W03").
Proof.
  intros Hwf Es Ee _ _.
  pose proof (strptime_valid _ _ Es) as Vs. pose proof (strptime_valid _ _ Ee) as Ve.
  assert (Hin : week_kind ∈ unit_kinds)
    by apply list_elem_of_further, list_elem_of_here.
  split; [|split; [|split; [|split; [|split]]]];
    [| |vm_compute; reflexivity|vm_compute; reflexivity|vm_compute; reflexivity|].
  - intros Hr.
    destruct (kind_outcome db start_date end_date start end_ category week_kind)
      as (units & R & _); try done; [by left|]. by eexists.
  - intros r d Vd Ed. rewrite (week_key_label r d Vd Ed).
    by rewrite week_key_of_label.
  - intros res R.
    assert (Hr : reachable start end_).
    { eapply (steps_days_reachable db _ _ start end_ category week_kind);
        try done. by right. }
    rewrite (dispatch db _ _ start end_) in R by done. simpl in R.
    rewrite weekly_result in R by (done || by left). injection R as <-. simpl.
    pose proof (weeks_of_enumerates start end_ Vs Ve) as [Hsorted Hmem].
    assert (Hnd : NoDup (week_label <$> weeks_of start end_)).
    { apply (unit_labels_NoDup iso_week_of pair_lt week_label
               pair_lt_irrefl week_label_inj start end_).
      by apply weeks_of_enumerates. }
    assert (Hat : forall d, valid_date d = true -> date_le start d ->
              date_le d end_ ->
              exists i, weeks_of start end_ !! i = Some (iso_week_of d)).
    { intros d Vd H1 H2. apply list_elem_of_lookup_1, Hmem. by exists d. }
    split; [done|]. split.
    + intros d Vd H1 H2. destruct (Hat d Vd H1 H2) as [i Hi].
      pose proof (iso_week_thursday d Vd) as Hiso.
      pose proof (week_key_of_label d) as Hkey.
      destruct (iso_week_of d) as [iso_year iso_week] eqn:Ew.
      destruct Hiso as [Hth Hw].
      exists iso_year, iso_week, i,
        (bucket_for week_key_row (raw_rows db start end_ category)
           (week_label (iso_year, iso_week))).
      split; [done|]. split; [done|]. split; [done|]. split; [done|].
      split; [by rewrite !list_lookup_fmap, Hi|]. split; [done|].
      split; [|done].
      intros j b' Hj Hl.
      apply (NoDup_lookup (week_label <$> weeks_of start end_) j i
               (week_label (iso_year, iso_week))); [done| |].
      * rewrite !list_lookup_fmap in Hj.
        destruct (weeks_of start end_ !! j) as [w|] eqn:Ej; [|done].
        simpl in Hj. injection Hj as <-. simpl in Hl.
        by rewrite list_lookup_fmap, Ej, <- Hl.
      * by rewrite list_lookup_fmap, Hi.
    + intros H1 H2.
      assert (V5 : valid_date (Date 2026 1 5) = true) by reflexivity.
      assert (V12 : valid_date (Date 2026 1 12) = true) by reflexivity.
      assert (L5 : date_le (Date 2026 1 5) (Date 2026 1 12)) by reflexivity.
      destruct (Hat (Date 2026 1 5) V5 H1) as [i Hi].
      { unfold date_le in *. rewrite date_leb_spec in *. simpl in *. lia. }
      destruct (Hat (Date 2026 1 12) V12) as [j Hj]; [|done|].
      { unfold date_le in *. rewrite date_leb_spec in *. simpl in *. lia. }
      assert (E5 : iso_week_of (Date 2026 1 5) = (2026, 2))
        by (vm_compute; reflexivity).
      assert (E12 : iso_week_of (Date 2026 1 12) = (2026, 3))
        by (vm_compute; reflexivity).
      rewrite E5 in Hi. rewrite E12 in Hj.
      exists i, j. split.
      * apply (sorted_index_order (weeks_of start end_) i j _ _ Hsorted Hi Hj).
        right. simpl. lia.
      * rewrite !list_lookup_fmap, Hi, Hj. split; vm_compute; reflexivity.
Qed.

Lemma week_buckets_follow_iso_calendar_witness :
  (reachable (Date 2026 1 1) (Date 2026 1 15) ->
   returns (get_trend_data_advanced sample_db "2026-01-01" "2026-01-15" "week" None)) /\
  (forall r d, valid_date d = true -> row_date r = strftime d ->
     week_key_row r = week_key_of d) /\
  week_key_of (Date 2026 1 5) = "2026-W02" /\
  week_key_of (Date 2026 1 11) = "2026-W02" /\
  week_key_of (Date 2026 1 12) = "2026-W03" /\
  forall res,
    get_trend_data_advanced sample_db "2026-01-01" "2026-01-15" "week" None = Ok res ->
    granularity res = "week" /\
    (forall d, valid_date d = true ->
       date_le (Date 2026 1 1) d -> date_le d (Date 2026 1 15) ->
       exists iso_year iso_week i b,
         iso_week_of d = (iso_year, iso_week) /\
         firstday iso_year <= thursday_of d < firstday (iso_year + 1) /\
         iso_week = (thursday_of d - firstday iso_year) / 7 + 1 /\
         week_key_of d = Format.week_key iso_year iso_week /\
         data res !! i = Some b /\
         label b = Format.week_key iso_year iso_week /\
         (forall j b', data res !! j = Some b' -> label b' = label b -> j = i) /\
         income b =
           div100 (sum_where row_income week_key_row (label b)
                     (raw_rows sample_db (Date 2026 1 1) (Date 2026 1 15) None)) /\
         expense b =
           div100 (sum_where row_expense week_key_row (label b)
                     (raw_rows sample_db (Date 2026 1 1) (Date 2026 1 15) None))) /\
    (date_le (Date 2026 1 1) (Date 2026 1 5) ->
     date_le (Date 2026 1 12) (Date 2026 1 15) ->
     exists i j,
       (i < j)%nat /\
       label <$> data res !! i = Some "2026-W02" /\
       label <$> data res !! j = Some "2026-W03").
Proof.
  apply (week_buckets_follow_iso_calendar sample_db "2026-01-01" "2026-01-15"
           (Date 2026 1 1) (Date 2026 1 15) None).
  - apply sample_db_wf.
  - reflexivity.
  - reflexivity.
  - simpl; lia.
  - simpl; lia.
Defined.

(* ===================================================================== *)
(** * Part V: further properties of the code                              *)
(* ===================================================================== *)

(** Properties of the functions around those of Part IV: the ranges of the
    period calculator as sets of dates, the summaries and the storage reads
    as totals of transactions, and how the trend functions, the summaries
    and the breakdown agree with each other. *)

(** ** Sums over the table *)

Module SumFacts.

Lemma sum_case_app cond l1 l2 :
  sum_case cond (l1 ++ l2) = sum_case cond l1 + sum_case cond l2.
Proof.
  unfold sum_case. induction l1 as [|x l1 IH]; simpl; [done|]. rewrite IH. lia.
Qed.

Lemma sum_case_perm cond l l' : l ≡ₚ l' -> sum_case cond l = sum_case cond l'.
Proof.
  unfold sum_case. induction 1 as [|x l l' _ IH|x y l|l l' l'' _ IH1 _ IH2];
    simpl; [done|by rewrite IH|lia|by rewrite IH1].
Qed.

Lemma sum_case_ext cond1 cond2 l :
  (forall tx, tx ∈ l -> cond1 tx = cond2 tx) ->
  sum_case cond1 l = sum_case cond2 l.
Proof.
  unfold sum_case. induction l as [|x l IH]; intros H; simpl; [done|].
  rewrite (H x) by (by left). rewrite IH; [done|]. intros tx Htx. apply H. by right.
Qed.

Lemma sum_case_filter cond (P : Transaction -> Prop) `{forall tx, Decision (P tx)} l :
  sum_case cond (filter P l) = sum_case (fun tx => cond tx && bool_decide (P tx)) l.
Proof.
  induction l as [|x l IH]; [done|]. rewrite filter_cons.
  destruct (decide (P x)) as [Hx|Hx]; simpl.
  - rewrite IH. rewrite bool_decide_true by done. by rewrite andb_true_r.
  - rewrite IH. rewrite bool_decide_false by done. by rewrite andb_false_r.
Qed.

Lemma foldr_sum_perm {K} (g : K -> Z) (ks ks' : list K) :
  ks ≡ₚ ks' ->
  foldr (fun k acc => g k + acc) 0 ks = foldr (fun k acc => g k + acc) 0 ks'.
Proof.
  induction 1 as [|x l l' _ IH|x y l|l l' l'' _ IH1 _ IH2];
    simpl; [done|by rewrite IH|lia|by rewrite IH1].
Qed.

Lemma foldr_sum_zero {K} (g : K -> Z) (ks : list K) :
  (forall k, k ∈ ks -> g k = 0) -> foldr (fun k acc => g k + acc) 0 ks = 0.
Proof.
  induction ks as [|k ks IH]; intros H; simpl; [done|].
  rewrite (H k) by (by left). rewrite IH; [done|]. intros k' Hk'. apply H. by right.
Qed.

Lemma foldr_sum_add {K} (a b : K -> Z) (ks : list K) :
  foldr (fun k acc => a k + b k + acc) 0 ks =
  foldr (fun k acc => a k + acc) 0 ks + foldr (fun k acc => b k + acc) 0 ks.
Proof. induction ks as [|k ks IH]; [done|]. cbn [foldr]. rewrite IH. lia. Qed.

Lemma foldr_sum_indicator {K} `{EqDecision K} (x : Z) (k : K) (ks : list K) :
  NoDup ks -> k ∈ ks ->
  foldr (fun k' acc => (if decide (k = k') then x else 0) + acc) 0 ks = x.
Proof.
  induction 1 as [|k0 ks Hk0 Hnd IH]; [by intros ?%elem_of_nil|]. cbn [foldr].
  intros [->|Hin]%elem_of_cons.
  - rewrite decide_True by done. rewrite foldr_sum_zero; [lia|].
    intros k' Hk'. rewrite decide_False; [done|]. by intros ->.
  - rewrite decide_False by (by intros ->). by rewrite IH.
Qed.

(** Grouping shares out a sum: over distinct keys that cover the rows, the
    sums of the groups add up to the sum of all rows. *)
Lemma sum_case_groups {K} `{EqDecision K} (f : Transaction -> K) cond l
    (ks : list K) :
  NoDup ks -> (forall tx, tx ∈ l -> f tx ∈ ks) ->
  foldr (fun k acc => sum_case cond (filter (fun tx => f tx = k) l) + acc) 0 ks =
  sum_case cond l.
Proof.
  intros Hnd. induction l as [|x l IH]; intros Hcov.
  - apply foldr_sum_zero. by intros k _.
  - rewrite <- (foldr_ext
      (fun k acc => (if decide (f x = k) then (if cond x then tx_amount_cents x else 0) else 0)
                    + sum_case cond (filter (fun tx => f tx = k) l) + acc)
      _ 0 0 ks ks); [|intros k acc|done|done].
    + rewrite foldr_sum_add, foldr_sum_indicator, IH; [done| |done|].
      * intros tx Htx. apply Hcov. by right.
      * apply Hcov. by left.
    + rewrite filter_cons. destruct (decide (f x = k)); simpl; lia.
Qed.

(** The daily rows add up to the totals of the transactions in the range. *)
Lemma daily_query_income_total cond db s e :
  sum_rows row_income (daily_query cond db s e) =
  sum_case is_income (filter (in_range s e) db).
Proof.
  unfold daily_query, sum_rows.
  set (rows := filter (in_range s e) db).
  rewrite foldr_fmap. simpl.
  rewrite (foldr_sum_perm
             (fun d => sum_case is_income (filter (fun tx => tx_date tx = d) rows))
             _ (remove_dups (tx_date <$> rows)))
    by apply merge_sort_Permutation.
  apply (sum_case_groups tx_date); [apply NoDup_remove_dups|].
  intros tx Htx. apply elem_of_remove_dups. by apply list_elem_of_fmap_2.
Qed.

Lemma daily_query_expense_total cond db s e :
  sum_rows row_expense (daily_query cond db s e) =
  sum_case cond (filter (in_range s e) db).
Proof.
  unfold daily_query, sum_rows.
  set (rows := filter (in_range s e) db).
  rewrite foldr_fmap. simpl.
  rewrite (foldr_sum_perm
             (fun d => sum_case cond (filter (fun tx => tx_date tx = d) rows))
             _ (remove_dups (tx_date <$> rows)))
    by apply merge_sort_Permutation.
  apply (sum_case_groups tx_date); [apply NoDup_remove_dups|].
  intros tx Htx. apply elem_of_remove_dups. by apply list_elem_of_fmap_2.
Qed.

End SumFacts.

(** ** Ranges of the period calculator as sets of dates *)

Module PeriodFacts.
Import SumFacts.

Lemma leb_ymd y1 m1 d1 y2 m2 d2 :
  0 <= y1 <= 9999 -> 0 <= m1 <= 99 -> 0 <= d1 <= 99 ->
  0 <= y2 <= 9999 -> 0 <= m2 <= 99 -> 0 <= d2 <= 99 ->
  String.leb (Format.ymd y1 m1 d1) (Format.ymd y2 m2 d2) = true <->
  y1 < y2 \/ (y1 = y2 /\ (m1 < m2 \/ (m1 = m2 /\ d1 <= d2))).
Proof.
  intros. rewrite String_leb_compare, ymd_compare by done. unfold compare3.
  destruct (Z.compare_spec y1 y2), (Z.compare_spec m1 m2), (Z.compare_spec d1 d2);
    split; (done || lia).
Qed.

Lemma append_assoc (a b c : string) : (a +:+ b) +:+ c = a +:+ (b +:+ c).
Proof.
  induction a as [|x a IH]; [by rewrite !append_nil|].
  by rewrite !append_cons, IH.
Qed.

Lemma first_of_month y m : Format.ym y m +:+ "-01" = Format.ymd y m 1.
Proof.
  unfold Format.ym, Format.ymd. rewrite !append_assoc.
  do 3 f_equal.
Qed.

Lemma year_bounds_eq y :
  get_year_range y = (Format.ymd y 1 1, Format.ymd y 12 31).
Proof. unfold get_year_range, Format.ymd. done. Qed.

(** A TEXT range between the first day of one month and the last day of
    another holds the printed dates of the months from the one to the
    other. *)
Lemma month_span_dates sy sm ey em d :
  0 <= sy <= 9999 -> 1 <= sm <= 12 -> 0 <= ey <= 9999 -> 1 <= em <= 12 ->
  valid_date d = true ->
  text_between (Format.ymd sy sm 1) (Format.ymd ey em (days_in_month ey em))
    (strftime d) <->
  month_index (sy, sm) <= month_index (month_of d) <= month_index (ey, em).
Proof.
  intros Hsy Hsm Hey Hem V.
  pose proof (proj1 (valid_date_spec d) V) as (Hy & Hm & Hd).
  pose proof (days_in_month_bounds ey em Hem).
  pose proof (days_in_month_bounds (year d) (month d) Hm).
  unfold text_between, strftime, month_index, month_of. cbn [fst snd].
  rewrite !leb_ymd by lia. split.
  - intros [H1 H2]. lia.
  - intros [H1 H2]. split; [lia|].
    assert (year d = ey -> month d = em -> day d <= days_in_month ey em)
      by (intros <- <-; lia).
    lia.
Qed.

Lemma date_of_printed tx d :
  valid_date d = true -> tx_date tx = strftime d -> date_of tx = Some d.
Proof.
  intros V E. unfold date_of. rewrite E, strptime_strftime by done.
  by rewrite decide_True.
Qed.

(** On a ledger of printed dates, a TEXT range that holds the dates
    satisfying [P] selects the transactions dated on them. *)
Lemma sum_case_dated cond P db s e :
  wf_db db ->
  (forall d, valid_date d = true -> text_between s e (strftime d) <-> P d = true) ->
  sum_case cond (filter (in_range s e) db) = total_of cond P db.
Proof.
  intros Hwf HP. rewrite sum_case_filter. apply sum_case_ext.
  intros tx Htx. destruct (Hwf tx Htx) as (d & V & E).
  unfold dated_in. rewrite (date_of_printed tx d) by done. f_equal.
  destruct (P d) eqn:HPd.
  - apply bool_decide_eq_true. unfold in_range, text_le. rewrite E. by apply HP.
  - apply bool_decide_eq_false. unfold in_range, text_le. rewrite E.
    intros H. apply HP in H; congruence.
Qed.

Lemma foldl_insert_lookup (g : string -> Z) (types : list string)
    (m : gmap string Z) k :
  foldl (fun result ty => <[ty := g ty]> result) m types !! k =
  if decide (k ∈ types) then Some (g k) else m !! k.
Proof.
  revert m. induction types as [|ty types IH]; intros m; cbn [foldl].
  - by rewrite decide_False by apply not_elem_of_nil.
  - rewrite IH. destruct (decide (k ∈ types)) as [Hin|Hin].
    + rewrite decide_True; [done|]. by right.
    + destruct (decide (k = ty)) as [->|Hne].
      * rewrite lookup_insert_eq. rewrite decide_True; [done|]. by left.
      * rewrite lookup_insert_ne by done. rewrite decide_False; [done|].
        intros [?|?]%elem_of_cons; done.
Qed.

Lemma sum_case_of_type ty rows :
  sum_case (fun _ => true) (filter (fun tx => tx_type tx = ty) rows) =
  sum_case (fun tx => String.eqb (tx_type tx) ty) rows.
Proof.
  rewrite sum_case_filter. apply sum_case_ext. intros tx _. simpl.
  destruct (String.eqb_spec (tx_type tx) ty).
  - by rewrite bool_decide_true.
  - by rewrite bool_decide_false.
Qed.

Lemma sum_case_none cond rows :
  (forall tx, tx ∈ rows -> cond tx = false) -> sum_case cond rows = 0.
Proof.
  intros H. unfold sum_case. induction rows as [|x rows IH]; [done|]. simpl.
  rewrite (H x) by (by left). rewrite IH; [done|]. intros tx Htx. apply H. by right.
Qed.

(** What the summary dict holds under a key it starts with. *)
Lemma summary_lookup db s e ty :
  ty = "income" \/ ty = "expense" ->
  default 0 (get_summary_by_date_range db s e !! ty) =
  sum_case (fun tx => String.eqb (tx_type tx) ty) (filter (in_range s e) db).
Proof.
  intros Hty. unfold get_summary_by_date_range.
  set (rows := filter (in_range s e) db).
  rewrite (foldl_insert_lookup
    (fun ty => let total := sum_case (fun _ => true)
                              (filter (fun tx => tx_type tx = ty) rows) in
               if total =? 0 then 0 else total)).
  destruct (decide (ty ∈ remove_dups (tx_type <$> rows))) as [Hin|Hin]; simpl.
  - rewrite sum_case_of_type.
    destruct (Z.eqb_spec (sum_case (fun tx => String.eqb (tx_type tx) ty) rows) 0); lia.
  - rewrite sum_case_none.
    + by destruct Hty as [-> | ->].
    + intros tx Htx. apply String.eqb_neq. intros <-. apply Hin.
      apply elem_of_remove_dups. by apply list_elem_of_fmap_2.
Qed.

Lemma period_summary_eq db s e :
  _get_period_summary db s e =
  {| income_cents := sum_case is_income (filter (in_range s e) db);
     expense_cents := sum_case is_expense (filter (in_range s e) db) |}.
Proof.
  unfold _get_period_summary. cbv zeta.
  rewrite !summary_lookup by auto. done.
Qed.

Lemma month_range_dates y m d :
  0 <= y <= 9999 -> 1 <= m <= 12 -> valid_date d = true ->
  text_between (Format.ym y m +:+ "-01") (Format.ymd y m (days_in_month y m))
    (strftime d) <-> in_month (y, m) d = true.
Proof.
  intros Hy Hm V. rewrite first_of_month, month_span_dates by done.
  pose proof (proj1 (valid_date_spec d) V) as (_ & Hdm & _).
  unfold in_month. rewrite bool_decide_eq_true. split.
  - intros H. apply month_index_inj; [done|done|lia].
  - intros ->. lia.
Qed.

Lemma year_range_dates y d :
  0 <= y <= 9999 -> valid_date d = true ->
  text_between (Format.ymd y 1 1) (Format.ymd y 12 31) (strftime d) <->
  in_year y d = true.
Proof.
  intros Hy V. change 31 with (days_in_month y 12) at 1.
  rewrite month_span_dates by (done || lia).
  pose proof (proj1 (valid_date_spec d) V) as (_ & Hdm & _).
  unfold in_year, month_index, month_of. rewrite bool_decide_eq_true. simpl. lia.
Qed.

Lemma month_total cond db y m :
  wf_db db -> 0 <= y <= 9999 -> 1 <= m <= 12 ->
  sum_case cond
    (filter (in_range (Format.ym y m +:+ "-01")
                      (Format.ymd y m (days_in_month y m))) db) =
  total_of cond (in_month (y, m)) db.
Proof.
  intros Hwf Hy Hm. apply sum_case_dated; [done|].
  intros d Vd. by apply month_range_dates.
Qed.

Lemma year_total cond db y :
  wf_db db -> 0 <= y <= 9999 ->
  sum_case cond (filter (in_range (Format.ymd y 1 1) (Format.ymd y 12 31)) db) =
  total_of cond (in_year y) db.
Proof.
  intros Hwf Hy. apply sum_case_dated; [done|].
  intros d Vd. by apply year_range_dates.
Qed.

End PeriodFacts.

(** ** The storage reads as sets and sums of transactions *)

Module QueryFacts.
Import SumFacts PeriodFacts.

#[local] Instance text_le_transitive : Transitive text_le.
Proof. intros a b c. apply String_leb_trans. Qed.

#[local] Instance text_le_total : Total text_le.
Proof. intros a b. apply String.leb_total. Qed.

Lemma StronglySorted_strict {A} (R : A -> A -> Prop) (l : list A) :
  StronglySorted R l -> NoDup l -> StronglySorted (fun a b => R a b /\ a <> b) l.
Proof.
  induction 1 as [|x l Hs IH Hx]; intros Hnd; [constructor|].
  apply NoDup_cons in Hnd as [Hnin Hnd]. constructor; [by apply IH|].
  apply Forall_forall. intros y Hy. split.
  - by eapply Forall_forall in Hx.
  - by intros ->.
Qed.

Lemma daily_query_sorted cond db s e :
  StronglySorted text_lt (row_date <$> daily_query cond db s e).
Proof.
  apply StronglySorted_strict; [|apply daily_query_NoDup].
  rewrite daily_query_dates. apply StronglySorted_merge_sort; apply _.
Qed.

(** The group of a date of the range holds all the transactions stored
    with that date. *)
Lemma group_of_date cond db s e d :
  (exists tx, tx ∈ db /\ in_range s e tx /\ tx_date tx = d) ->
  sum_case cond (filter (fun tx => tx_date tx = d) (filter (in_range s e) db)) =
  sum_case cond (filter (fun tx => tx_date tx = d) db).
Proof.
  intros (tx0 & _ & Hr & Hd). rewrite !sum_case_filter.
  apply sum_case_ext. intros tx _.
  destruct (decide (tx_date tx = d)) as [E|E].
  - rewrite !(bool_decide_true (tx_date tx = d)) by done.
    rewrite (bool_decide_true (in_range s e tx)); [by rewrite !andb_true_r|].
    unfold in_range in *. by rewrite E, <- Hd.
  - rewrite !(bool_decide_false (tx_date tx = d)) by done. by rewrite !andb_false_r.
Qed.

Lemma daily_query_row cond db s e r :
  r ∈ daily_query cond db s e ->
  row_income r = sum_case is_income (filter (fun tx => tx_date tx = row_date r) db) /\
  row_expense r = sum_case cond (filter (fun tx => tx_date tx = row_date r) db).
Proof.
  intros Hr.
  assert (Hd : row_date r ∈ row_date <$> daily_query cond db s e)
    by (by apply list_elem_of_fmap_2).
  apply daily_query_elem in Hd.
  unfold daily_query in Hr. apply list_elem_of_fmap in Hr as (d & -> & _).
  cbn [row_date row_income row_expense] in *.
  by rewrite !group_of_date.
Qed.

Lemma by_category_query db s e category :
  get_daily_summary_by_category db s e category =
  daily_query (expense_cond category) db s e.
Proof. by destruct category. Qed.

Lemma category_total_perm l l' :
  l ≡ₚ l' -> category_total l = category_total l'.
Proof. apply (foldr_sum_perm cat_amount_cents). Qed.

(** The totals of the categories add up to the total of the type. *)
Lemma category_summary_total db s e ty :
  category_total (get_category_summary db s e ty) =
  sum_case (fun tx => String.eqb (tx_type tx) ty) (filter (in_range s e) db).
Proof.
  unfold get_category_summary.
  set (rows := filter (fun tx => in_range s e tx /\ tx_type tx = ty) db).
  rewrite (category_total_perm _ _ (merge_sort_Permutation _ _)).
  unfold category_total. rewrite foldr_fmap. cbn [cat_amount_cents].
  rewrite (sum_case_groups tx_category (fun _ => true) rows);
    [|apply NoDup_remove_dups|].
  - unfold rows. rewrite !sum_case_filter. apply sum_case_ext. intros tx _.
    cbn [andb].
    destruct (String.eqb_spec (tx_type tx) ty) as [E|E],
             (decide (in_range s e tx)) as [R|R].
    + by rewrite !bool_decide_true.
    + rewrite !bool_decide_false; [done|done|]. by intros [? _].
    + rewrite bool_decide_false; [done|]. by intros [_ ?].
    + rewrite bool_decide_false; [done|]. by intros [_ ?].
  - intros tx Htx. apply elem_of_remove_dups. by apply list_elem_of_fmap_2.
Qed.

Lemma category_summary_elem db s e ty c :
  c ∈ cat_category <$> get_category_summary db s e ty <->
  exists tx, tx ∈ db /\ in_range s e tx /\ tx_type tx = ty /\
             default uncategorized (tx_category tx) = c.
Proof.
  unfold get_category_summary.
  rewrite (merge_sort_Permutation _ _). rewrite <- list_fmap_compose.
  rewrite list_elem_of_fmap. split.
  - intros (g & -> & Hg). rewrite elem_of_remove_dups in Hg.
    apply list_elem_of_fmap in Hg as (tx & -> & Htx).
    apply list_elem_of_filter in Htx as [[Hr Hty] Htx]. by exists tx.
  - intros (tx & Htx & Hr & Hty & <-). exists (tx_category tx). split; [done|].
    apply elem_of_remove_dups. apply list_elem_of_fmap_2.
    by apply list_elem_of_filter.
Qed.

Lemma category_summary_NoDup db s e ty :
  (forall tx, tx ∈ db -> tx_category tx <> Some uncategorized) ->
  NoDup (cat_category <$> get_category_summary db s e ty).
Proof.
  intros Hlabel. unfold get_category_summary.
  rewrite (merge_sort_Permutation _ _). rewrite <- list_fmap_compose.
  apply NoDup_fmap_2_strong; [|apply NoDup_remove_dups].
  assert (forall g, g ∈ remove_dups (tx_category <$>
            filter (fun tx => in_range s e tx /\ tx_type tx = ty) db) ->
          g <> Some uncategorized) as Hg.
  { intros g Hin. rewrite elem_of_remove_dups in Hin.
    apply list_elem_of_fmap in Hin as (tx & -> & Htx).
    apply list_elem_of_filter in Htx as [_ Htx]. by apply Hlabel. }
  intros [c1|] [c2|] H1 H2; cbn; intros E; try done.
  - by rewrite E.
  - rewrite E in H1. by destruct (Hg _ H1).
  - rewrite <- E in H2. by destruct (Hg _ H2).
Qed.

Lemma sum_amounts_entries total raw_data :
  sum_amounts (breakdown_entry total <$> raw_data) = category_total raw_data.
Proof.
  unfold sum_amounts, category_total. by rewrite foldr_fmap.
Qed.

End QueryFacts.

(** ** Results of the trend functions, for every ledger *)

Module ResultFacts.
Import SumFacts PeriodFacts QueryFacts.

(** What a returned result holds, whatever the ledger stores. *)
Lemma trend_result db s e start end_ g category res :
  Strptime.strptime s = Ok start -> Strptime.strptime e = Ok end_ ->
  get_trend_data_advanced db s e g category = Ok res ->
  granularity res = uk_name (kind_of g) /\
  data res =
    bucket_for (uk_key (kind_of g)) (raw_rows db start end_ category)
      <$> trend_labels g start end_.
Proof.
  intros Es Ee R.
  pose proof (strptime_valid _ _ Es) as Vs. pose proof (strptime_valid _ _ Ee) as Ve.
  rewrite (dispatch db _ _ start end_) in R by done.
  unfold kind_of, trend_labels.
  destruct (decide (g = "week")).
  { rewrite weekly_outcome in R by done.
    destruct (decide (Forall parses _)); [|done].
    destruct (decide (reachable _ _)); [|done]. by injection R as <-. }
  destruct (decide (g = "month")).
  { rewrite monthly_result in R by done. by injection R as <-. }
  destruct (decide (g = "year")).
  { rewrite yearly_result in R. by injection R as <-. }
  rewrite daily_outcome in R by done.
  destruct (decide (reachable _ _)); [|done]. by injection R as <-.
Qed.

(** The key of a row depends on its date only. *)
Lemma key_of_date g r1 r2 :
  row_date r1 = row_date r2 -> uk_key (kind_of g) r1 = uk_key (kind_of g) r2.
Proof.
  intros E. unfold kind_of. repeat case_decide; simpl;
    unfold week_key_row, month_key_row, year_key_row; by rewrite E.
Qed.

Lemma sum_where_le f key k raw1 raw2 :
  Forall2 (fun r1 r2 => key r1 = key r2 /\ f r1 <= f r2) raw1 raw2 ->
  sum_where f key k raw1 <= sum_where f key k raw2.
Proof.
  unfold sum_where. induction 1 as [|r1 r2 raw1 raw2 [Hk Hf] _ IH]; simpl; [done|].
  rewrite Hk. destruct (decide (key r2 = k)); lia.
Qed.

Lemma sum_where_eq f key k raw1 raw2 :
  Forall2 (fun r1 r2 => key r1 = key r2 /\ f r1 = f r2) raw1 raw2 ->
  sum_where f key k raw1 = sum_where f key k raw2.
Proof.
  unfold sum_where. induction 1 as [|r1 r2 raw1 raw2 [Hk Hf] _ IH]; simpl; [done|].
  rewrite Hk, Hf, IH. done.
Qed.

Lemma Forall2_fmap_same {A B} (R : B -> B -> Prop) (f g : A -> B) (l : list A) :
  (forall x, x ∈ l -> R (f x) (g x)) -> Forall2 R (f <$> l) (g <$> l).
Proof.
  induction l as [|x l IH]; intros H; simpl; constructor.
  - apply H. by left.
  - apply IH. intros y Hy. apply H. by right.
Qed.

Lemma sum_case_le cond1 cond2 l :
  (forall tx, tx ∈ l -> 0 <= tx_amount_cents tx) ->
  (forall tx, cond1 tx = true -> cond2 tx = true) ->
  sum_case cond1 l <= sum_case cond2 l.
Proof.
  intros Hpos Himp. unfold sum_case.
  induction l as [|x l IH]; simpl; [done|].
  assert (0 <= tx_amount_cents x) by (apply Hpos; by left).
  assert (foldr (fun tx acc => (if cond1 tx then tx_amount_cents tx else 0) + acc) 0 l
          <= foldr (fun tx acc => (if cond2 tx then tx_amount_cents tx else 0) + acc) 0 l)
    by (apply IH; intros tx Htx; apply Hpos; by right).
  destruct (cond1 x) eqn:E1.
  - rewrite (Himp x E1). lia.
  - destruct (cond2 x); lia.
Qed.

Lemma sum_case_nonneg cond l :
  (forall tx, tx ∈ l -> 0 <= tx_amount_cents tx) -> 0 <= sum_case cond l.
Proof.
  intros Hpos. unfold sum_case. induction l as [|x l IH]; simpl; [done|].
  assert (0 <= tx_amount_cents x) by (apply Hpos; by left).
  assert (0 <= foldr (fun tx acc => (if cond tx then tx_amount_cents tx else 0) + acc) 0 l)
    by (apply IH; intros tx Htx; apply Hpos; by right).
  destruct (cond x); lia.
Qed.

Lemma sum_where_nonneg f key k raw :
  (forall r, r ∈ raw -> 0 <= f r) -> 0 <= sum_where f key k raw.
Proof.
  intros Hpos. unfold sum_where. induction raw as [|x raw IH]; simpl; [done|].
  assert (0 <= f x) by (apply Hpos; by left).
  assert (0 <= foldr (fun r acc => (if decide (key r = k) then f r else 0) + acc) 0 raw)
    by (apply IH; intros r Hr; apply Hpos; by right).
  destruct (decide (key x = k)); lia.
Qed.

Lemma daily_query_expense_nonneg cond db s e r :
  (forall tx, tx ∈ db -> 0 <= tx_amount_cents tx) ->
  r ∈ daily_query cond db s e -> 0 <= row_expense r.
Proof.
  intros Hpos Hr. unfold daily_query in Hr.
  apply list_elem_of_fmap in Hr as (d & -> & _). cbn [row_expense].
  apply sum_case_nonneg.
  intros tx [_ [_ Htx]%list_elem_of_filter]%list_elem_of_filter. by apply Hpos.
Qed.

Lemma is_expense_of_expense c tx : is_expense_of c tx = true -> is_expense tx = true.
Proof. unfold is_expense_of. by intros [? _]%andb_true_iff. Qed.

(** Row by row, the filtered daily summary has the dates and incomes of the
    unfiltered one and, when no amount is negative, no larger an expense. *)
Lemma filtered_rows_le db s e c :
  (forall tx, tx ∈ db -> 0 <= tx_amount_cents tx) ->
  Forall2 (fun r1 r2 => row_date r1 = row_date r2 /\
                        row_income r1 = row_income r2 /\
                        row_expense r1 <= row_expense r2)
    (daily_query (is_expense_of c) db s e) (daily_query is_expense db s e).
Proof.
  intros Hpos. unfold daily_query. apply Forall2_fmap_same.
  intros d _. cbn [row_date row_income row_expense]. do 2 (split; [done|]).
  apply sum_case_le; [|apply is_expense_of_expense].
  intros tx [_ [_ Htx]%list_elem_of_filter]%list_elem_of_filter. by apply Hpos.
Qed.

Lemma sum_where_unique f key raw r :
  NoDup (key <$> raw) -> r ∈ raw -> sum_where f key (key r) raw = f r.
Proof.
  unfold sum_where. induction raw as [|x raw IH]; intros Hnd Hr.
  - by apply elem_of_nil in Hr.
  - rewrite fmap_cons in Hnd. apply NoDup_cons in Hnd as [Hnin Hnd]. cbn [foldr].
    apply elem_of_cons in Hr as [->|Hr].
    + rewrite decide_True by done. fold (sum_where f key (key x) raw).
      rewrite sum_where_absent by done. lia.
    + rewrite decide_False, IH by (done || (intros E; apply Hnin; rewrite E;
        by apply list_elem_of_fmap_2)). done.
Qed.

Lemma date_seq_length n d : length (date_seq n d) = n.
Proof. revert d. induction n as [|n IH]; intros d; simpl; [done|]. by rewrite IH. Qed.

Lemma month_seq_length n p : length (month_seq n p) = n.
Proof. revert p. induction n as [|n IH]; intros p; simpl; [done|]. by rewrite IH. Qed.

Lemma first_seen_length {A} `{EqDecision A} (seen l : list A) :
  (length (first_seen seen l) <= length l)%nat.
Proof.
  revert seen. induction l as [|x l IH]; intros seen; simpl; [done|].
  destruct (decide (x ∈ seen)); simpl.
  - pose proof (IH seen). lia.
  - pose proof (IH (x :: seen)). lia.
Qed.

(** The text range of two printed dates holds the printed dates between
    them. *)
Lemma between_dates start end_ d :
  valid_date start = true -> valid_date end_ = true -> valid_date d = true ->
  text_between (strftime start) (strftime end_) (strftime d) <->
  between start end_ d = true.
Proof.
  intros Vs Ve Vd. unfold text_between, between.
  rewrite !strftime_leb by done. by rewrite andb_true_iff.
Qed.

(** The rows the trend functions read add up to the transactions dated in
    the range. *)
Lemma raw_rows_totals db start end_ category :
  wf_db db -> valid_date start = true -> valid_date end_ = true ->
  sum_rows row_income (raw_rows db start end_ category) =
    total_of is_income (between start end_) db /\
  sum_rows row_expense (raw_rows db start end_ category) =
    total_of (expense_cond category) (between start end_) db.
Proof.
  intros Hwf Vs Ve. unfold raw_rows. rewrite by_category_query.
  rewrite daily_query_income_total, daily_query_expense_total.
  rewrite !(sum_case_dated _ (between start end_))
    by (done || (intros d Vd; by apply between_dates)).
  done.
Qed.

(** The sums of a returned result are the sums of the rows read. *)
Lemma trend_sums db s e start end_ g category res :
  wf_db db ->
  Strptime.strptime s = Ok start -> Strptime.strptime e = Ok end_ ->
  get_trend_data_advanced db s e g category = Ok res ->
  sum_income (data res) = sum_rows row_income (raw_rows db start end_ category) /\
  sum_expense (data res) = sum_rows row_expense (raw_rows db start end_ category).
Proof.
  intros Hwf Es Ee.
  pose proof (strptime_valid _ _ Es) as Vs. pose proof (strptime_valid _ _ Ee) as Ve.
  rewrite dispatch_kind. pose proof (kind_of_in g) as Hk.
  generalize dependent (kind_of g). intros k Hk R.
  destruct (kind_outcome db s e start end_ category k)
    as (units & R' & En); try done; [by left| |].
  - intros Hs. by eapply steps_days_reachable.
  - rewrite R' in R. injection R as <-. simpl.
    by apply kind_conserves; [apply unit_kinds_ok|..].
Qed.

(** Two dates of one month are less than 31 days apart. *)
Lemma same_month_days d1 d2 :
  valid_date d1 = true -> valid_date d2 = true ->
  month_of d1 = month_of d2 -> days_between d1 d2 <= 30.
Proof.
  intros V1 V2 [= Hy Hm].
  pose proof (proj1 (valid_date_spec d1) V1) as (_ & Hm1 & Hd1).
  pose proof (proj1 (valid_date_spec d2) V2) as (_ & Hm2 & Hd2).
  pose proof (days_in_month_bounds (year d2) (month d2) Hm2).
  unfold days_between, toordinal, ymd2ord. rewrite Hy, Hm. lia.
Qed.

Lemma rows_parse_iff db start end_ category :
  Forall parses (raw_rows db start end_ category) <->
  forall tx, tx ∈ db -> in_range (strftime start) (strftime end_) tx ->
    exists d, Strptime.strptime (tx_date tx) = Ok d.
Proof.
  unfold raw_rows. rewrite by_category_query, Forall_forall. split.
  - intros H tx Htx Hr.
    assert (Hd : tx_date tx ∈ row_date <$>
              daily_query (expense_cond category) db (strftime start) (strftime end_))
      by (apply daily_query_elem; by exists tx).
    apply list_elem_of_fmap in Hd as (r & -> & Hr'). by apply H.
  - intros H r Hr.
    assert (Hd : row_date r ∈ row_date <$>
              daily_query (expense_cond category) db (strftime start) (strftime end_))
      by (by apply list_elem_of_fmap_2).
    apply daily_query_elem in Hd as (tx & Htx & Hrange & E).
    unfold parses. rewrite <- E. by apply H.
Qed.

End ResultFacts.

(** ** Counting the weeks of a range *)

Module CountFacts.
Import SumFacts PeriodFacts QueryFacts ResultFacts.

Lemma first_seen_length_equiv {A B C} `{EqDecision B} `{EqDecision C}
    (f : A -> B) (g : A -> C) (seen l : list A) :
  (forall x y, x ∈ seen ++ l -> y ∈ seen ++ l -> f x = f y <-> g x = g y) ->
  length (first_seen (f <$> seen) (f <$> l)) =
  length (first_seen (g <$> seen) (g <$> l)).
Proof.
  revert seen. induction l as [|x l IH]; intros seen Heq; [done|].
  rewrite !fmap_cons. cbn [first_seen].
  assert (f x ∈ f <$> seen <-> g x ∈ g <$> seen) as Hin.
  { rewrite !list_elem_of_fmap. split; intros (y & E & Hy); exists y;
      (split; [|done]); apply (Heq x y); try done; set_solver. }
  destruct (decide (f x ∈ f <$> seen)) as [Hf|Hf].
  - rewrite decide_True by (by apply Hin). apply IH.
    intros a b Ha Hb. apply Heq; set_solver.
  - rewrite decide_False by (by rewrite <- Hin). cbn [length]. f_equal.
    apply (IH (x :: seen)). intros a b Ha Hb. apply Heq; set_solver.
Qed.

(** Over consecutive ordinals the distinct Monday-based weeks number the
    last week index minus the first, plus one. *)
Lemma first_seen_weeks n : forall (seen : list Z) (a : Z),
  (forall s, s ∈ seen -> s <= (a + 6) / 7) ->
  Z.of_nat (length (first_seen seen
                      ((fun o => (o + 6) / 7) <$> seqZ a (Z.of_nat n)))) =
  match n with
  | O => 0
  | S _ => (a + Z.of_nat n - 1 + 6) / 7 - (a + 6) / 7 +
           (if decide ((a + 6) / 7 ∈ seen) then 0 else 1)
  end.
Proof.
  induction n as [|n IH]; intros seen a Hseen; [done|].
  rewrite seqZ_cons by lia. rewrite fmap_cons. cbn [first_seen].
  replace (Z.pred (Z.of_nat (S n))) with (Z.of_nat n) by lia.
  replace (Z.succ a) with (a + 1) by lia.
  assert ((a + 1 + 6) / 7 = (a + 6) / 7 \/ (a + 1 + 6) / 7 = (a + 6) / 7 + 1)
    as Hstep by (Z.div_mod_to_equations; lia).
  destruct (decide ((a + 6) / 7 ∈ seen)) as [Hin|Hin].
  - rewrite IH by (intros s Hs; specialize (Hseen s Hs); lia).
    destruct n as [|n]; [replace (a + Z.of_nat 1 - 1 + 6) with (a + 6) by lia; lia|].
    destruct (decide ((a + 1 + 6) / 7 ∈ seen)) as [Hin'|Hin'].
    + specialize (Hseen _ Hin'). replace (a + 1 + Z.of_nat (S n) - 1 + 6)
        with (a + Z.of_nat (S (S n)) - 1 + 6) by lia. lia.
    + assert ((a + 1 + 6) / 7 <> (a + 6) / 7) by (intros E; by rewrite E in Hin').
      replace (a + 1 + Z.of_nat (S n) - 1 + 6)
        with (a + Z.of_nat (S (S n)) - 1 + 6) by lia. lia.
  - cbn [length]. rewrite Nat2Z.inj_succ.
    rewrite IH.
    2:{ intros s [->|Hs]%elem_of_cons; [lia|]. specialize (Hseen s Hs). lia. }
    destruct n as [|n]; [replace (a + Z.of_nat 1 - 1 + 6) with (a + 6) by lia; lia|].
    replace (a + 1 + Z.of_nat (S n) - 1 + 6)
      with (a + Z.of_nat (S (S n)) - 1 + 6) by lia.
    destruct (decide ((a + 1 + 6) / 7 ∈ (a + 6) / 7 :: seen)) as [Hin'|Hin'].
    + apply elem_of_cons in Hin' as [E|Hin']; [lia|].
      specialize (Hseen _ Hin').
      assert ((a + 1 + 6) / 7 = (a + 6) / 7) as E by lia.
      rewrite E in Hin'. done.
    + assert ((a + 1 + 6) / 7 <> (a + 6) / 7)
        by (intros E; apply Hin'; rewrite E; by left).
      lia.
Qed.

Lemma firstday_mono y1 y2 : y1 < y2 -> firstday (y1 + 1) <= firstday y2.
Proof.
  intros H. rewrite !firstday_eq.
  pose proof (days_before_year_mono (y1 + 1) y2). lia.
Qed.

(** The Thursday of the week of a date, from its week index. *)
Lemma thursday_of_index d : thursday_of d = 7 * week_index d - 3.
Proof.
  unfold thursday_of, weekday, week_index. Z.div_mod_to_equations. lia.
Qed.

(** Two dates share their ISO week exactly when they share their
    Monday-based week. *)
Lemma iso_week_index d1 d2 :
  valid_date d1 = true -> valid_date d2 = true ->
  iso_week_of d1 = iso_week_of d2 <-> week_index d1 = week_index d2.
Proof.
  intros V1 V2. split.
  - intros E.
    pose proof (iso_week_of_spec d1 V1) as [H1 W1].
    pose proof (iso_week_of_spec d2 V2) as [H2 W2].
    rewrite <- E in H2, W2. cbv zeta in *.
    pose proof (isoweek1monday_spec (iso_week_of d1).1) as [_ Hmon].
    unfold week_index. rewrite W1 in W2.
    Z.div_mod_to_equations. lia.
  - intros E.
    pose proof (iso_week_thursday d1 V1) as H1.
    pose proof (iso_week_thursday d2 V2) as H2.
    rewrite !thursday_of_index, <- E in *.
    destruct (iso_week_of d1) as [Y1 W1], (iso_week_of d2) as [Y2 W2].
    destruct H1 as [B1 ->], H2 as [B2 ->].
    assert (Y1 = Y2) as ->.
    { destruct (Z.lt_trichotomy Y1 Y2) as [Hlt|[?|Hlt]]; [|done|].
      - pose proof (firstday_mono _ _ Hlt). lia.
      - pose proof (firstday_mono _ _ Hlt). lia. }
    done.
Qed.

Lemma weeks_of_length start end_ :
  valid_date start = true -> valid_date end_ = true -> date_le start end_ ->
  Z.of_nat (length (weeks_of start end_)) = week_index end_ - week_index start + 1.
Proof.
  intros Vs Ve Hle. unfold weeks_of.
  pose proof (days_of_bound start end_ Vs Ve) as Hb.
  pose proof (date_seq_spec _ start Vs Hb) as [Hvalid Hord].
  fold (days_of start end_) in Hvalid, Hord.
  rewrite (first_seen_length_equiv iso_week_of week_index [] (days_of start end_)).
  2:{ intros x y Hx Hy. rewrite app_nil_l in Hx, Hy.
      apply iso_week_index; by eapply Forall_forall in Hvalid. }
  change (week_index <$> days_of start end_)
    with ((fun o => (o + 6) / 7) ∘ toordinal <$> days_of start end_).
  rewrite list_fmap_compose, Hord.
  change (week_index <$> []) with (@nil Z).
  rewrite first_seen_weeks by (by intros s ?%elem_of_nil).
  pose proof (toordinal_le start end_ Vs Ve Hle).
  unfold days_between in *.
  destruct (Z.to_nat (toordinal end_ - toordinal start + 1)) as [|n] eqn:En; [lia|].
  rewrite decide_False by apply not_elem_of_nil.
  unfold week_index.
  replace (toordinal start + Z.of_nat (S n) - 1 + 6) with (toordinal end_ + 6) by lia.
  lia.
Qed.

(** The number of labels, per granularity. *)
Lemma trend_labels_length g start end_ :
  valid_date start = true -> valid_date end_ = true ->
  Z.of_nat (length (trend_labels g start end_)) =
  if decide (g = "week") then
    if date_leb start end_ then week_index end_ - week_index start + 1 else 0
  else if decide (g = "month") then
    Z.max 0 (month_index (month_of end_) - month_index (month_of start) + 1)
  else if decide (g = "year") then Z.max 0 (year end_ - year start + 1)
  else Z.max 0 (days_between start end_ + 1).
Proof.
  intros Vs Ve. unfold trend_labels. repeat case_decide; rewrite length_fmap.
  - destruct (date_leb start end_) eqn:Hle.
    + by apply weeks_of_length.
    + apply date_leb_false in Hle. unfold weeks_of.
      by rewrite days_of_empty.
  - unfold months_of. rewrite month_seq_length. unfold month_fuel, month_index, month_of.
    cbn [fst snd]. lia.
  - unfold years_of. rewrite length_seqZ. lia.
  - unfold days_of. rewrite date_seq_length. lia.
Qed.

End CountFacts.

Import SumFacts PeriodFacts QueryFacts ResultFacts CountFacts.
Import StatisticsWidget.

(** ** Period calculator *)

(** X1. For a year that prints with four digits, [get_month_range] raises
    exactly when the month is outside 1..12; otherwise the closed TEXT range
    it returns holds the printed form of a calendar date exactly when the
    date lies in that month of that year. *)
Theorem month_range_selects_month (y m : Z) :
  0 <= y <= 9999 ->
  (1 <= m <= 12 ->
   exists start_date end_date,
     get_month_range y m = Ok (start_date, end_date) /\
     forall d, valid_date d = true ->
       text_between start_date end_date (strftime d) <->
       year d = y /\ month d = m) /\
  (~ 1 <= m <= 12 -> get_month_range y m = Raise IllegalMonthError).
Proof.
  intros Hy. split.
  - intros Hm. eexists _, _. split; [by apply get_month_range_ok|].
    intros d V. rewrite month_range_dates by done.
    unfold in_month, month_of. rewrite bool_decide_eq_true.
    split; [by intros [= -> ->]|by intros [-> ->]].
  - intros Hm. unfold get_month_range, monthrange.
    destruct (Z.leb_spec 1 m), (Z.leb_spec m 12); simpl; try done. lia.
Qed.

Lemma month_range_selects_month_witness :
  (1 <= 2 <= 12 ->
   exists start_date end_date,
     get_month_range 2024 2 = Ok (start_date, end_date) /\
     forall d, valid_date d = true ->
       text_between start_date end_date (strftime d) <->
       year d = 2024 /\ month d = 2) /\
  (~ 1 <= 2 <= 12 -> get_month_range 2024 2 = Raise IllegalMonthError).
Proof. apply (month_range_selects_month 2024 2). lia. Defined.

(** X2. For a year that prints with four digits, the closed TEXT range of
    [get_year_range] holds the printed form of a calendar date exactly when
    the date lies in that year. *)
Theorem year_range_selects_year (y : Z) (d : date) :
  0 <= y <= 9999 -> valid_date d = true ->
  text_between (get_year_range y).1 (get_year_range y).2 (strftime d) <->
  year d = y.
Proof.
  intros Hy V. rewrite year_bounds_eq. cbn [fst snd].
  rewrite year_range_dates by done.
  unfold in_year. by rewrite bool_decide_eq_true.
Qed.

Lemma year_range_selects_year_witness :
  text_between (get_year_range 2026).1 (get_year_range 2026).2
    (strftime (Date 2026 2 28)) <->
  year (Date 2026 2 28) = 2026.
Proof. apply (year_range_selects_year 2026 (Date 2026 2 28)); [lia|reflexivity]. Defined.

(** X3. For [n >= 1] months that do not reach back before year 0, the closed
    TEXT range of [get_last_n_full_months_range] holds the printed form of a
    calendar date exactly when the date lies in one of the [n] months before
    the month of today. *)
Theorem last_n_months_select_n_months (today : date) (n : Z) :
  valid_date today = true -> 1 <= n -> n < month_index (month_of today) ->
  exists start_date end_date,
    get_last_n_full_months_range today n = Ok (start_date, end_date) /\
    forall d, valid_date d = true ->
      text_between start_date end_date (strftime d) <->
      month_index (month_of today) - n <= month_index (month_of d)
        < month_index (month_of today).
Proof.
  intros V Hn Hlow.
  pose proof (last_n_full_months_spec today n V) as Hspec.
  pose proof (get_last_n_full_months_range_eq today n V) as Heq.
  destruct (last_n_full_months today n) as [[sy sm] [ey em]].
  destruct Hspec as (Hem & Hsm & He & Hs).
  pose proof (proj1 (valid_date_spec today) V) as (Hty & Htm & _).
  unfold month_index, month_of in *. cbn [fst snd] in *.
  eexists _, _. split; [exact Heq|]. intros d Vd.
  rewrite first_of_month, month_span_dates by (done || lia).
  unfold month_index, month_of. cbn [fst snd]. lia.
Qed.

Lemma last_n_months_select_n_months_witness :
  exists start_date end_date,
    get_last_n_full_months_range (Date 2026 1 12) 3 = Ok (start_date, end_date) /\
    forall d, valid_date d = true ->
      text_between start_date end_date (strftime d) <->
      month_index (month_of (Date 2026 1 12)) - 3 <= month_index (month_of d)
        < month_index (month_of (Date 2026 1 12)).
Proof.
  apply (last_n_months_select_n_months (Date 2026 1 12) 3);
    [reflexivity|lia|vm_compute; reflexivity].
Defined.

(** ** Period summaries *)

Lemma stored_between_empty db s e :
  String.leb s e = false -> stored_between db s e = [].
Proof.
  intros Hse. unfold stored_between. apply elem_of_nil_inv.
  intros tx [[H1 H2] _]%list_elem_of_filter. unfold text_le in *.
  by rewrite (String_leb_trans _ _ _ H1 H2) in Hse.
Qed.

(** X4. The period summary holds, as income, the total of the income
    transactions stored with a date of the closed TEXT range and, as expense,
    the total of the expense ones; rows of another type count in neither, and
    a range whose start is after its end gives zero for both. *)
Theorem period_summary_totals (db : Database.t) (start_date end_date : string) :
  income_cents (get_custom_period_summary db start_date end_date) =
    sum_case is_income (stored_between db start_date end_date) /\
  expense_cents (get_custom_period_summary db start_date end_date) =
    sum_case is_expense (stored_between db start_date end_date) /\
  (String.leb start_date end_date = false ->
   get_custom_period_summary db start_date end_date =
     {| income_cents := 0; expense_cents := 0 |}).
Proof.
  unfold get_custom_period_summary. rewrite period_summary_eq.
  fold (stored_between db start_date end_date). simpl.
  repeat split. intros Hse. by rewrite stored_between_empty.
Qed.

(** X5. On a ledger of printed dates, [get_current_month_summary] totals
    the transactions dated in the month of today and
    [get_last_month_summary] those dated in the month before it. *)
Theorem month_summaries_cover_their_month (db : Database.t) (today : date) :
  wf_db db -> valid_date today = true ->
  exists current last,
    get_current_month_summary db today = Ok current /\
    get_last_month_summary db today = Ok last /\
    income_cents current = total_of is_income (in_month (month_of today)) db /\
    expense_cents current = total_of is_expense (in_month (month_of today)) db /\
    income_cents last =
      total_of is_income (in_month (previous_month (month_of today))) db /\
    expense_cents last =
      total_of is_expense (in_month (previous_month (month_of today))) db.
Proof.
  intros Hwf V.
  pose proof (proj1 (valid_date_spec today) V) as (Hy & Hm & _).
  pose proof (previous_month_index (month_of today) Hm) as [Hpm Hpi].
  unfold get_current_month_summary, get_last_month_summary.
  change (if month today =? 1 then (year today - 1, 12)
          else (year today, month today - 1))
    with (previous_month (month_of today)).
  destruct (previous_month (month_of today)) as [py pm] eqn:Hp.
  cbn [fst snd] in Hpm.
  assert (0 <= py <= 9999) as Hpy.
  { unfold month_index, month_of in Hpi. cbn [fst snd] in Hpi. lia. }
  rewrite !get_month_range_ok by done. cbn.
  rewrite !period_summary_eq. eexists _, _. do 2 (split; [done|]). simpl.
  rewrite !month_total by (done || lia). done.
Qed.

Lemma month_summaries_cover_their_month_witness :
  exists current last,
    get_current_month_summary sample_db (Date 2026 1 12) = Ok current /\
    get_last_month_summary sample_db (Date 2026 1 12) = Ok last /\
    income_cents current =
      total_of is_income (in_month (month_of (Date 2026 1 12))) sample_db /\
    expense_cents current =
      total_of is_expense (in_month (month_of (Date 2026 1 12))) sample_db /\
    income_cents last =
      total_of is_income
        (in_month (previous_month (month_of (Date 2026 1 12)))) sample_db /\
    expense_cents last =
      total_of is_expense
        (in_month (previous_month (month_of (Date 2026 1 12)))) sample_db.
Proof.
  apply (month_summaries_cover_their_month sample_db (Date 2026 1 12));
    [apply sample_db_wf|reflexivity].
Defined.

(** X6. On a ledger of printed dates, [get_current_year_summary] totals the
    transactions dated in the year of today. *)
Theorem year_summary_covers_its_year (db : Database.t) (today : date) :
  wf_db db -> valid_date today = true ->
  income_cents (get_current_year_summary db today) =
    total_of is_income (in_year (year today)) db /\
  expense_cents (get_current_year_summary db today) =
    total_of is_expense (in_year (year today)) db.
Proof.
  intros Hwf V.
  pose proof (proj1 (valid_date_spec today) V) as (Hy & _ & _).
  unfold get_current_year_summary. rewrite year_bounds_eq, period_summary_eq.
  simpl.
  rewrite !year_total by (done || lia). done.
Qed.

Lemma year_summary_covers_its_year_witness :
  income_cents (get_current_year_summary sample_db (Date 2026 1 12)) =
    total_of is_income (in_year (year (Date 2026 1 12))) sample_db /\
  expense_cents (get_current_year_summary sample_db (Date 2026 1 12)) =
    total_of is_expense (in_year (year (Date 2026 1 12))) sample_db.
Proof.
  apply (year_summary_covers_its_year sample_db (Date 2026 1 12));
    [apply sample_db_wf|reflexivity].
Defined.


(** X7. On a ledger of printed dates, [get_month_over_month_change] returns
    for every date of today, and its two deltas are the total of the month of
    today minus the total of the month before it, for expenses and for
    income; the displayed delta has the delta in minor units as numerator. *)
Theorem month_over_month_is_difference (db : Database.t) (today : date) :
  wf_db db -> valid_date today = true ->
  exists change,
    get_month_over_month_change db today = Ok change /\
    expense_change_cents change =
      total_of is_expense (in_month (month_of today)) db -
      total_of is_expense (in_month (previous_month (month_of today))) db /\
    income_change_cents change =
      total_of is_income (in_month (month_of today)) db -
      total_of is_income (in_month (previous_month (month_of today))) db /\
    minor_units (expense_change change) = expense_change_cents change /\
    minor_units (income_change change) = income_change_cents change.
Proof.
  intros Hwf V.
  pose proof (proj1 (valid_date_spec today) V) as (Hy & Hm & _).
  pose proof (previous_month_index (month_of today) Hm) as [Hpm Hpi].
  unfold get_month_over_month_change, get_current_month_summary,
    get_last_month_summary.
  change (if month today =? 1 then (year today - 1, 12)
          else (year today, month today - 1))
    with (previous_month (month_of today)).
  destruct (previous_month (month_of today)) as [py pm] eqn:Hp.
  cbn [fst snd] in Hpm.
  assert (0 <= py <= 9999) as Hpy.
  { unfold month_index, month_of in Hpi. cbn [fst snd] in Hpi. lia. }
  rewrite !get_month_range_ok by done. cbn -[_get_period_summary].
  rewrite !guarded_percent. cbn -[_get_period_summary].
  eexists. split; [done|]. cbn -[_get_period_summary].
  rewrite !period_summary_eq. cbn [income_cents expense_cents].
  rewrite !month_total by (done || lia). done.
Qed.

Lemma month_over_month_is_difference_witness :
  exists change,
    get_month_over_month_change sample_db (Date 2026 2 12) = Ok change /\
    expense_change_cents change =
      total_of is_expense (in_month (month_of (Date 2026 2 12))) sample_db -
      total_of is_expense
        (in_month (previous_month (month_of (Date 2026 2 12)))) sample_db /\
    income_change_cents change =
      total_of is_income (in_month (month_of (Date 2026 2 12))) sample_db -
      total_of is_income
        (in_month (previous_month (month_of (Date 2026 2 12)))) sample_db /\
    minor_units (expense_change change) = expense_change_cents change /\
    minor_units (income_change change) = income_change_cents change.
Proof.
  apply (month_over_month_is_difference sample_db (Date 2026 2 12));
    [apply sample_db_wf|reflexivity].
Defined.

(** ** Storage reads *)

(** X8. The daily summary, with or without a category, has one row per date
    stored in the closed TEXT range, in strictly ascending TEXT order; a row
    holds the income total of all transactions stored with its date and the
    expense total of those the expense condition selects. *)
Theorem daily_summary_rows (db : Database.t) (start_date end_date : string)
    (category : option string) :
  StronglySorted text_lt
    (row_date <$> get_daily_summary_by_category db start_date end_date category) /\
  (forall x,
     x ∈ row_date <$> get_daily_summary_by_category db start_date end_date category <->
     exists tx, tx ∈ db /\ in_range start_date end_date tx /\ tx_date tx = x) /\
  (forall r,
     r ∈ get_daily_summary_by_category db start_date end_date category ->
     row_income r =
       sum_case is_income (filter (fun tx => tx_date tx = row_date r) db) /\
     row_expense r =
       sum_case (expense_cond category)
         (filter (fun tx => tx_date tx = row_date r) db)).
Proof.
  rewrite by_category_query. split; [apply daily_query_sorted|]. split.
  - intros x. apply daily_query_elem.
  - intros r. apply daily_query_row.
Qed.

(** X9. Two reads agree: the incomes of the rows of [get_daily_summary] add
    up to the income of the period summary of the same range, and the
    expenses to its expense. *)
Theorem daily_summary_adds_up_to_period (db : Database.t)
    (start_date end_date : string) :
  sum_rows row_income (get_daily_summary db start_date end_date) =
    income_cents (get_custom_period_summary db start_date end_date) /\
  sum_rows row_expense (get_daily_summary db start_date end_date) =
    expense_cents (get_custom_period_summary db start_date end_date).
Proof.
  unfold get_daily_summary, get_custom_period_summary.
  rewrite daily_query_income_total, daily_query_expense_total, period_summary_eq.
  done.
Qed.

(** X10. The breakdown of a period is a breakdown of its summary: the
    amounts of the expense breakdown add up to the expense of the period
    summary and those of the income breakdown to its income, and every
    percentage is the guarded share of the entry in that total. *)
Theorem breakdown_adds_up_to_period (db : Database.t)
    (start_date end_date : string) :
  exists expenses incomes,
    get_category_breakdown db start_date end_date "expense" = Ok expenses /\
    get_category_breakdown db start_date end_date "income" = Ok incomes /\
    sum_amounts expenses =
      expense_cents (get_custom_period_summary db start_date end_date) /\
    sum_amounts incomes =
      income_cents (get_custom_period_summary db start_date end_date) /\
    Forall (fun en =>
              be_percentage en =
              guarded_pct (be_amount_cents en)
                (expense_cents (get_custom_period_summary db start_date end_date)))
           expenses /\
    Forall (fun en =>
              be_percentage en =
              guarded_pct (be_amount_cents en)
                (income_cents (get_custom_period_summary db start_date end_date)))
           incomes.
Proof.
  unfold get_category_breakdown, get_custom_period_summary.
  rewrite !category_breakdown_of_eq, period_summary_eq.
  rewrite !category_summary_total. cbn [income_cents expense_cents].
  eexists _, _. do 2 (split; [done|]).
  rewrite !sum_amounts_entries, !category_summary_total.
  do 2 (split; [done|]).
  split; apply Forall_fmap, Forall_forall; by intros item _.
Qed.

(** X11. [get_expense_categories] lists the categories of the expense
    breakdown of the same range, in the same order; a label is listed exactly
    when an expense stored in the range carries it, a missing category under
    the label for uncategorized; no label is listed twice, unless a
    transaction carries the label for uncategorized as its category. *)
Theorem expense_categories_of_breakdown (db : Database.t)
    (start_date end_date : string) :
  (exists entries,
     get_category_breakdown db start_date end_date "expense" = Ok entries /\
     get_expense_categories db start_date end_date = be_category <$> entries) /\
  (forall c,
     c ∈ get_expense_categories db start_date end_date <->
     exists tx, tx ∈ db /\ in_range start_date end_date tx /\
                tx_type tx = "expense" /\
                default uncategorized (tx_category tx) = c) /\
  ((forall tx, tx ∈ db -> tx_category tx <> Some uncategorized) ->
   NoDup (get_expense_categories db start_date end_date)).
Proof.
  split; [|split].
  - unfold get_category_breakdown, get_expense_categories.
    rewrite category_breakdown_of_eq. eexists. split; [done|].
    by rewrite <- list_fmap_compose.
  - intros c. apply category_summary_elem.
  - intros Hlabel. unfold get_expense_categories. by apply category_summary_NoDup.
Qed.


(** ** Trend buckets and the other reads *)

(** X12. On a ledger of printed dates, for two dates from year 1000 on,
    whatever the granularity and the category filter, the incomes of the returned buckets add up to the total
    of the income transactions dated from the start date to the end date, and
    the expenses to the total of the expense transactions dated in that range
    (of the chosen category, under a filter). *)
Theorem trend_totals_are_transaction_totals (db : Database.t)
    (start_date end_date g : string) (start end_ : date)
    (category : option string) (res : TrendResult) :
  wf_db db ->
  Strptime.strptime start_date = Ok start ->
  Strptime.strptime end_date = Ok end_ ->
  1000 <= year start -> 1000 <= year end_ ->
  get_trend_data_advanced db start_date end_date g category = Ok res ->
  sum_income (data res) = total_of is_income (between start end_) db /\
  sum_expense (data res) =
    total_of (expense_cond category) (between start end_) db.
Proof.
  intros Hwf Es Ee _ _ R.
  pose proof (strptime_valid _ _ Es) as Vs. pose proof (strptime_valid _ _ Ee) as Ve.
  destruct (trend_sums db start_date end_date start end_ g category res)
    as [-> ->]; try done.
  by apply raw_rows_totals.
Qed.

Lemma trend_totals_are_transaction_totals_witness :
  exists res,
    get_trend_data_advanced sample_db "2026-01-01" "2026-01-15" "week"
      (Some "food") = Ok res /\
    sum_income (data res) =
      total_of is_income (between (Date 2026 1 1) (Date 2026 1 15)) sample_db /\
    sum_expense (data res) =
      total_of (expense_cond (Some "food"))
        (between (Date 2026 1 1) (Date 2026 1 15)) sample_db.
Proof.
  eexists. split; [vm_compute; reflexivity|].
  apply (trend_totals_are_transaction_totals sample_db "2026-01-01" "2026-01-15"
           "week" (Date 2026 1 1) (Date 2026 1 15) (Some "food"));
    [apply sample_db_wf|vm_compute; reflexivity|vm_compute; reflexivity
    |simpl; lia|simpl; lia|vm_compute; reflexivity].
Defined.

(** X13. On a ledger of printed dates, for two dates from year 1000 on, the
    chart and the summary agree: the buckets of an unfiltered trend, at every
    granularity, add up to the
    income and the expense of the period summary of the same range. *)
Theorem unfiltered_trend_matches_summary (db : Database.t)
    (start_date end_date g : string) (start end_ : date) (res : TrendResult) :
  wf_db db ->
  Strptime.strptime start_date = Ok start ->
  Strptime.strptime end_date = Ok end_ ->
  1000 <= year start -> 1000 <= year end_ ->
  get_trend_data_advanced db start_date end_date g None = Ok res ->
  sum_income (data res) =
    income_cents
      (get_custom_period_summary db (strftime start) (strftime end_)) /\
  sum_expense (data res) =
    expense_cents
      (get_custom_period_summary db (strftime start) (strftime end_)).
Proof.
  intros Hwf Es Ee _ _ R.
  destruct (trend_sums db start_date end_date start end_ g None res)
    as [-> ->]; try done.
  unfold raw_rows, get_daily_summary_by_category, get_daily_summary,
    get_custom_period_summary.
  by rewrite daily_query_income_total, daily_query_expense_total, period_summary_eq.
Qed.

Lemma unfiltered_trend_matches_summary_witness :
  exists res,
    get_trend_data_advanced sample_db "2026-01-01" "2026-01-15" "month" None
      = Ok res /\
    sum_income (data res) =
      income_cents
        (get_custom_period_summary sample_db (strftime (Date 2026 1 1))
           (strftime (Date 2026 1 15))) /\
    sum_expense (data res) =
      expense_cents
        (get_custom_period_summary sample_db (strftime (Date 2026 1 1))
           (strftime (Date 2026 1 15))).
Proof.
  eexists. split; [vm_compute; reflexivity|].
  apply (unfiltered_trend_matches_summary sample_db "2026-01-01" "2026-01-15"
           "month" (Date 2026 1 1) (Date 2026 1 15));
    [apply sample_db_wf|vm_compute; reflexivity|vm_compute; reflexivity
    |simpl; lia|simpl; lia|vm_compute; reflexivity].
Defined.

Lemma category_row_amount db s e c :
  sum_case (fun _ => true)
    (filter (fun tx => tx_category tx = Some c)
       (filter (fun tx => in_range s e tx /\ tx_type tx = "expense") db)) =
  sum_case (is_expense_of c) (filter (in_range s e) db).
Proof.
  rewrite !sum_case_filter. apply sum_case_ext. intros tx _.
  unfold is_expense_of, is_expense. cbn [andb].
  destruct (String.eqb_spec (tx_type tx) "expense") as [Ht|Ht],
           (decide (in_range s e tx)) as [Hr|Hr];
    destruct (tx_category tx) as [c'|] eqn:Hc;
    try destruct (String.eqb_spec c' c) as [->|Hne];
    repeat (first [rewrite bool_decide_true by (done || (by split))
                  |rewrite bool_decide_false by (done || congruence || (by intros [? ?]))]);
    done.
Qed.

(** X14. On a ledger of printed dates, for two dates from year 1000 on,
    the filtered chart and the breakdown agree: when an expense of category [c] is stored in the range, the
    expense breakdown of the range has an entry for [c], and the expenses of
    the buckets of the trend filtered by [c] add up to its amount. *)
Theorem filtered_trend_matches_breakdown (db : Database.t)
    (start_date end_date g : string) (start end_ : date) (c : string)
    (res : TrendResult) :
  wf_db db ->
  Strptime.strptime start_date = Ok start ->
  Strptime.strptime end_date = Ok end_ ->
  1000 <= year start -> 1000 <= year end_ ->
  (exists tx, tx ∈ db /\ in_range (strftime start) (strftime end_) tx /\
              tx_type tx = "expense" /\ tx_category tx = Some c) ->
  get_trend_data_advanced db start_date end_date g (Some c) = Ok res ->
  exists entries en,
    get_category_breakdown db (strftime start) (strftime end_) "expense"
      = Ok entries /\
    en ∈ entries /\ be_category en = c /\
    be_amount_cents en = sum_expense (data res).
Proof.
  intros Hwf Es Ee _ _ (tx & Htx & Hr & Hty & Hc) R.
  destruct (trend_sums db start_date end_date start end_ g (Some c) res)
    as [_ ->]; try done.
  unfold raw_rows, get_daily_summary_by_category.
  rewrite daily_query_expense_total.
  unfold get_category_breakdown. rewrite category_breakdown_of_eq.
  eexists _, _. split; [done|]. split.
  - apply list_elem_of_fmap_2. unfold get_category_summary.
    rewrite (merge_sort_Permutation _ _).
    apply (list_elem_of_fmap_2 _ _ (Some c)).
    apply elem_of_remove_dups. rewrite <- Hc. apply list_elem_of_fmap_2.
    by apply list_elem_of_filter.
  - cbn [breakdown_entry be_category be_amount_cents cat_category
         cat_amount_cents default from_option]. split; [done|].
    apply category_row_amount.
Qed.

Lemma filtered_trend_matches_breakdown_witness :
  exists res,
    get_trend_data_advanced sample_db "2026-01-01" "2026-01-15" "day"
      (Some "food") = Ok res /\
    exists entries en,
      get_category_breakdown sample_db (strftime (Date 2026 1 1))
        (strftime (Date 2026 1 15)) "expense" = Ok entries /\
      en ∈ entries /\ be_category en = "food" /\
      be_amount_cents en = sum_expense (data res).
Proof.
  eexists. split; [vm_compute; reflexivity|].
  apply (filtered_trend_matches_breakdown sample_db "2026-01-01" "2026-01-15"
           "day" (Date 2026 1 1) (Date 2026 1 15) "food");
    [apply sample_db_wf|vm_compute; reflexivity|vm_compute; reflexivity
    |simpl; lia|simpl; lia| |vm_compute; reflexivity].
  exists {| tx_type := "expense"; tx_amount_cents := 1000;
            tx_date := "2026-01-05"; tx_category := Some "food" |}.
  split; [apply list_elem_of_here|]. split; [|done].
  split; vm_compute; reflexivity.
Defined.

(** X15. When no stored amount is negative, a category filter never shows
    more than the unfiltered call: the two results have the same number of
    buckets and, position by position, the same label, the same income and
    an expense that is at least zero and at most the unfiltered expense. *)
Theorem filter_never_exceeds_unfiltered (db : Database.t)
    (start_date end_date g c : string) (filtered unfiltered : TrendResult) :
  (forall tx, tx ∈ db -> 0 <= tx_amount_cents tx) ->
  get_trend_data_advanced db start_date end_date g (Some c) = Ok filtered ->
  get_trend_data_advanced db start_date end_date g None = Ok unfiltered ->
  Forall2 (fun b1 b2 =>
             label b1 = label b2 /\ income b1 = income b2 /\
             0 <= minor_units (expense b1) <= minor_units (expense b2))
    (data filtered) (data unfiltered).
Proof.
  intros Hpos R1 R2.
  destruct (Strptime.strptime start_date) as [start|] eqn:Es;
    [|by unfold get_trend_data_advanced in R1; rewrite Es in R1].
  destruct (Strptime.strptime end_date) as [end_|] eqn:Ee;
    [|by unfold get_trend_data_advanced in R1; rewrite Es, Ee in R1].
  destruct (trend_result _ _ _ _ _ _ _ _ Es Ee R1) as [_ ->].
  destruct (trend_result _ _ _ _ _ _ _ _ Es Ee R2) as [_ ->].
  apply Forall2_fmap_same. intros k _.
  pose proof (filtered_rows_le db (strftime start) (strftime end_) c Hpos) as Hrows.
  unfold bucket_for, raw_rows, get_daily_summary_by_category, get_daily_summary.
  cbn [label income expense minor_units div100]. split; [done|]. split; [|split].
  - f_equal. apply sum_where_eq. eapply Forall2_impl; [exact Hrows|].
    intros r1 r2 (Hd & Hi & _). split; [by apply key_of_date|done].
  - apply sum_where_nonneg. intros r Hr.
    by eapply daily_query_expense_nonneg.
  - apply sum_where_le. eapply Forall2_impl; [exact Hrows|].
    intros r1 r2 (Hd & _ & He). split; [by apply key_of_date|done].
Qed.

Lemma filter_never_exceeds_unfiltered_witness :
  exists filtered unfiltered,
    get_trend_data_advanced sample_db "2026-01-01" "2026-01-15" "week"
      (Some "food") = Ok filtered /\
    get_trend_data_advanced sample_db "2026-01-01" "2026-01-15" "week" None
      = Ok unfiltered /\
    Forall2 (fun b1 b2 =>
               label b1 = label b2 /\ income b1 = income b2 /\
               0 <= minor_units (expense b1) <= minor_units (expense b2))
      (data filtered) (data unfiltered).
Proof.
  eexists _, _. split; [vm_compute; reflexivity|].
  split; [vm_compute; reflexivity|].
  apply (filter_never_exceeds_unfiltered sample_db "2026-01-01" "2026-01-15"
           "week" "food"); [|vm_compute; reflexivity..].
  intros tx Htx. unfold sample_db in Htx.
  repeat (apply elem_of_cons in Htx as [->|Htx]); simpl; try lia.
  by apply elem_of_nil in Htx.
Defined.

Lemma bucket_for_row raw r :
  NoDup (row_date <$> raw) -> r ∈ raw ->
  bucket_for row_date raw (row_date r) =
  {| label := row_date r; income := div100 (row_income r);
     expense := div100 (row_expense r) |}.
Proof.
  intros Hnd Hr. unfold bucket_for.
  by rewrite !(sum_where_unique _ row_date raw r).
Qed.

(** X16. On a ledger of printed dates, for two dates from year 1000 on,
    the day trend is the daily trend with the gaps filled: every entry of [get_daily_trend] for the range appears
    as a bucket with its date, income and expense, and every other bucket is
    a zero bucket for a date that has no entry; the displayed amounts of an
    entry have its minor units as numerators. *)
Theorem day_trend_fills_daily_trend (db : Database.t)
    (start_date end_date : string) (start end_ : date) (res : TrendResult) :
  wf_db db ->
  Strptime.strptime start_date = Ok start ->
  Strptime.strptime end_date = Ok end_ ->
  1000 <= year start -> 1000 <= year end_ ->
  get_trend_data_advanced db start_date end_date "day" None = Ok res ->
  (forall en,
     en ∈ get_daily_trend db (strftime start) (strftime end_) ->
     bucket_of_entry en ∈ data res /\
     minor_units (dt_income en) = dt_income_cents en /\
     minor_units (dt_expense en) = dt_expense_cents en) /\
  (forall b, b ∈ data res ->
     (exists en,
        en ∈ get_daily_trend db (strftime start) (strftime end_) /\
        b = bucket_of_entry en) \/
     (b = zero_bucket (label b) /\
      forall en,
        en ∈ get_daily_trend db (strftime start) (strftime end_) ->
        dt_date en <> label b)).
Proof.
  intros Hwf Es Ee _ _ R.
  pose proof (strptime_valid _ _ Es) as Vs. pose proof (strptime_valid _ _ Ee) as Ve.
  destruct (trend_result _ _ _ _ _ _ _ _ Es Ee R) as [_ Hdata].
  change (uk_key (kind_of "day")) with row_date in Hdata.
  change (trend_labels "day" start end_) with (strftime <$> days_of start end_)
    in Hdata.
  change (raw_rows db start end_ None)
    with (get_daily_summary db (strftime start) (strftime end_)) in Hdata.
  pose proof (by_category_in_range db start end_ None Hwf Vs Ve) as [Hnd Hin].
  change (get_daily_summary_by_category db (strftime start) (strftime end_) None)
    with (get_daily_summary db (strftime start) (strftime end_)) in Hnd, Hin.
  unfold get_daily_trend. rewrite Hdata.
  set (raw := get_daily_summary db (strftime start) (strftime end_)) in *.
  split.
  - intros en (r & -> & Hr)%list_elem_of_fmap. split; [|done].
    destruct (Hin r Hr) as (d & Vd & Ed & Hsd & Hde).
    unfold bucket_of_entry. cbn [dt_date dt_income dt_expense].
    rewrite <- (bucket_for_row raw r) by done.
    apply list_elem_of_fmap_2. rewrite Ed. apply list_elem_of_fmap_2.
    by apply days_of_elem.
  - intros b (k & -> & Hk)%list_elem_of_fmap.
    destruct (decide (k ∈ row_date <$> raw)) as [Hkin|Hkin].
    + left. apply list_elem_of_fmap in Hkin as (r & -> & Hr).
      eexists. split; [by apply list_elem_of_fmap_2|].
      by rewrite bucket_for_row.
    + right. rewrite bucket_for_absent by done. split; [done|].
      intros en (r & -> & Hr)%list_elem_of_fmap. cbn [dt_date zero_bucket label].
      intros E. apply Hkin. rewrite <- E. by apply list_elem_of_fmap_2.
Qed.

Lemma day_trend_fills_daily_trend_witness :
  exists res,
    get_trend_data_advanced sample_db "2026-01-01" "2026-01-15" "day" None
      = Ok res /\
    (forall en,
       en ∈ get_daily_trend sample_db (strftime (Date 2026 1 1))
              (strftime (Date 2026 1 15)) ->
       bucket_of_entry en ∈ data res /\
       minor_units (dt_income en) = dt_income_cents en /\
       minor_units (dt_expense en) = dt_expense_cents en) /\
    (forall b, b ∈ data res ->
       (exists en,
          en ∈ get_daily_trend sample_db (strftime (Date 2026 1 1))
                 (strftime (Date 2026 1 15)) /\
          b = bucket_of_entry en) \/
       (b = zero_bucket (label b) /\
        forall en,
          en ∈ get_daily_trend sample_db (strftime (Date 2026 1 1))
                 (strftime (Date 2026 1 15)) ->
          dt_date en <> label b)).
Proof.
  eexists. split; [vm_compute; reflexivity|].
  apply (day_trend_fills_daily_trend sample_db "2026-01-01" "2026-01-15"
           (Date 2026 1 1) (Date 2026 1 15));
    [apply sample_db_wf|vm_compute; reflexivity|vm_compute; reflexivity
    |simpl; lia|simpl; lia|vm_compute; reflexivity].
Defined.

(** ** Outcomes and sizes *)

(** X17. A start or an end date of ASCII characters that [strptime] rejects
    -- a malformed string, or a date that does not exist -- makes
    [get_trend_data_advanced] raise ValueError at every granularity, and
    [get_trend_data] too.  For a granularity other than week, and for
    [get_trend_data], this is the only way to a ValueError: when the call
    raises it, one of the two dates is rejected. *)
Theorem rejected_date_raises_value_error (db : Database.t)
    (start_date end_date g : string) (category : option string) :
  ((ascii_only start_date = true /\ rejected start_date) \/
   (ascii_only end_date = true /\ rejected end_date) ->
   get_trend_data_advanced db start_date end_date g category = Raise ValueError /\
   get_trend_data db start_date end_date = Raise ValueError) /\
  (g <> "week" ->
   get_trend_data_advanced db start_date end_date g category = Raise ValueError ->
   rejected start_date \/ rejected end_date) /\
  (get_trend_data db start_date end_date = Raise ValueError ->
   rejected start_date \/ rejected end_date).
Proof.
  unfold rejected.
  assert (forall g' category', g' <> "week" ->
            get_trend_data_advanced db start_date end_date g' category'
              = Raise ValueError ->
            (forall d, Strptime.strptime start_date <> Ok d) \/
            (forall d, Strptime.strptime end_date <> Ok d)) as Hconv.
  { intros g' category' Hg R.
    destruct (Strptime.strptime start_date) as [start|ex] eqn:Es; [|by left].
    destruct (Strptime.strptime end_date) as [end_|ex] eqn:Ee; [|by right].
    exfalso.
    pose proof (strptime_valid _ _ Es) as Vs.
    pose proof (strptime_valid _ _ Ee) as Ve.
    rewrite (dispatch db _ _ start end_) in R by done.
    rewrite decide_False in R by done.
    destruct (decide (g' = "month")).
    { by rewrite monthly_result in R. }
    destruct (decide (g' = "year")).
    { by rewrite yearly_result in R. }
    rewrite daily_outcome in R by done.
    by destruct (decide (reachable start end_)). }
  split; [|split].
  - intros H. unfold get_trend_data, get_trend_data_advanced.
    destruct (Strptime.strptime start_date) as [start|ex] eqn:Es.
    + destruct H as [[_ H]|[_ H]]; [by destruct (H start)|].
      destruct (Strptime.strptime end_date) as [end_|ex] eqn:Ee;
        [by destruct (H end_)|].
      apply strptime_error in Ee as ->. done.
    + apply strptime_error in Es as ->. done.
  - apply Hconv.
  - intros R. unfold get_trend_data in R.
    destruct (Strptime.strptime start_date) as [start|ex] eqn:Es; [|by left].
    destruct (Strptime.strptime end_date) as [end_|ex] eqn:Ee; [|by right].
    cbn in R.
    destruct (days_between start end_ + 1 <=? 31).
    + destruct (Hconv "day" None) as [H|H]; [done|done|..].
      * by destruct (H start).
      * by destruct (H end_).
    + destruct (Hconv "month" None) as [H|H]; [done|done|..].
      * by destruct (H start).
      * by destruct (H end_).
Qed.

Lemma rejected_date_raises_value_error_witness :
  (ascii_only "2026-02-30" = true /\ rejected "2026-02-30") /\
  get_trend_data_advanced sample_db "2026-02-30" "2026-03-01" "month" None
    = Raise ValueError /\
  get_trend_data sample_db "2026-02-30" "2026-03-01" = Raise ValueError.
Proof.
  assert (ascii_only "2026-02-30" = true /\ rejected "2026-02-30") as H.
  { split; [reflexivity|]. intros d. vm_compute. discriminate. }
  split; [exact H|].
  apply (rejected_date_raises_value_error sample_db "2026-02-30" "2026-03-01"
           "month" None).
  left. exact H.
Defined.

(** X18. For dates that parse, the month and the year granularity return
    whatever the ledger stores and whatever the range; the day granularity
    returns unless the range is not empty and ends on [date.max], where it
    raises OverflowError. *)
Theorem day_month_year_outcomes (db : Database.t)
    (start_date end_date : string) (start end_ : date)
    (category : option string) :
  Strptime.strptime start_date = Ok start ->
  Strptime.strptime end_date = Ok end_ ->
  returns (get_trend_data_advanced db start_date end_date "month" category) /\
  returns (get_trend_data_advanced db start_date end_date "year" category) /\
  (end_ <> date_max \/ date_lt end_ start ->
   returns (get_trend_data_advanced db start_date end_date "day" category)) /\
  (end_ = date_max -> date_le start end_ ->
   get_trend_data_advanced db start_date end_date "day" category
     = Raise OverflowError).
Proof.
  intros Es Ee.
  pose proof (strptime_valid _ _ Es) as Vs. pose proof (strptime_valid _ _ Ee) as Ve.
  rewrite !(dispatch db _ _ start end_) by done. cbn.
  rewrite monthly_result, yearly_result, daily_outcome by done.
  split; [by eexists|]. split; [by eexists|]. split.
  - intros Hr.
    destruct (decide (reachable start end_)) as [?|Hn]; [by eexists|by destruct Hn].
  - intros -> Hle.
    destruct (decide (reachable start date_max)) as [[?|Hlt]|?]; [done| |done].
    unfold date_le, date_lt in *. apply date_leb_false in Hlt. congruence.
Qed.

Lemma day_month_year_outcomes_witness :
  returns (get_trend_data_advanced sample_db "9999-12-01" "9999-12-31" "month" None) /\
  returns (get_trend_data_advanced sample_db "9999-12-01" "9999-12-31" "year" None) /\
  (date_max <> date_max \/ date_lt date_max (Date 9999 12 1) ->
   returns (get_trend_data_advanced sample_db "9999-12-01" "9999-12-31" "day" None)) /\
  (date_max = date_max -> date_le (Date 9999 12 1) date_max ->
   get_trend_data_advanced sample_db "9999-12-01" "9999-12-31" "day" None
     = Raise OverflowError).
Proof.
  apply (day_month_year_outcomes sample_db "9999-12-01" "9999-12-31"
           (Date 9999 12 1) date_max None); vm_compute; reflexivity.
Defined.

(** X19. For two dates from year 1000 on, the week granularity parses every
    stored date it reads: when a transaction stored in the TEXT range of the
    two printed dates has a date of ASCII characters that [strptime] rejects,
    the call raises ValueError, before any bucket is made; when every stored
    date of the range parses, it returns unless the range is not empty and
    ends on [date.max], where it raises OverflowError. *)
Theorem week_outcomes (db : Database.t)
    (start_date end_date : string) (start end_ : date)
    (category : option string) :
  Strptime.strptime start_date = Ok start ->
  Strptime.strptime end_date = Ok end_ ->
  1000 <= year start -> 1000 <= year end_ ->
  ((exists tx, tx ∈ db /\ in_range (strftime start) (strftime end_) tx /\
               ascii_only (tx_date tx) = true /\ rejected (tx_date tx)) ->
   get_trend_data_advanced db start_date end_date "week" category
     = Raise ValueError) /\
  ((forall tx, tx ∈ db -> in_range (strftime start) (strftime end_) tx ->
               exists d, Strptime.strptime (tx_date tx) = Ok d) ->
   (end_ <> date_max \/ date_lt end_ start ->
    returns (get_trend_data_advanced db start_date end_date "week" category)) /\
   (end_ = date_max -> date_le start end_ ->
    get_trend_data_advanced db start_date end_date "week" category
      = Raise OverflowError)).
Proof.
  intros Es Ee _ _.
  pose proof (strptime_valid _ _ Es) as Vs. pose proof (strptime_valid _ _ Ee) as Ve.
  rewrite !(dispatch db _ _ start end_) by done. cbn.
  rewrite weekly_outcome by done. split.
  - intros (tx & Htx & Hr & _ & Hbad).
    destruct (decide (Forall parses (raw_rows db start end_ category)))
      as [Hp|?]; [|done].
    destruct (proj1 (rows_parse_iff db start end_ category) Hp tx Htx Hr) as [d Hd].
    by destruct (Hbad d).
  - intros Hall.
    pose proof (proj2 (rows_parse_iff db start end_ category) Hall) as Hp.
    destruct (decide (Forall parses (raw_rows db start end_ category)))
      as [_|?]; [|done].
    split.
    + intros Hr.
      destruct (decide (reachable start end_)) as [?|Hn]; [by eexists|by destruct Hn].
    + intros -> Hle.
      destruct (decide (reachable start date_max)) as [[?|Hlt]|?]; [done| |done].
      unfold date_le, date_lt in *. apply date_leb_false in Hlt. congruence.
Qed.

Lemma week_outcomes_witness :
  get_trend_data_advanced timestamp_db "2026-01-01" "2026-01-15" "week" None
    = Raise ValueError /\
  returns (get_trend_data_advanced sample_db "2026-01-01" "2026-01-15" "week" None).
Proof.
  split.
  - apply (week_outcomes timestamp_db "2026-01-01" "2026-01-15"
             (Date 2026 1 1) (Date 2026 1 15) None);
      [reflexivity|reflexivity|simpl; lia|simpl; lia|].
    exists {| tx_type := "expense"; tx_amount_cents := 100;
              tx_date := "2026-01-10T08:00"; tx_category := None |}.
    split; [apply list_elem_of_here|].
    split; [split; vm_compute; reflexivity|].
    split; [reflexivity|]. intros d. vm_compute. discriminate.
  - apply (week_outcomes sample_db "2026-01-01" "2026-01-15"
             (Date 2026 1 1) (Date 2026 1 15) None);
      [reflexivity|reflexivity|simpl; lia|simpl; lia| |left; discriminate].
    intros tx Htx _. destruct (sample_db_wf tx Htx) as (d & Vd & ->).
    exists d. by apply strptime_strftime.
Defined.

(** A stored timestamp lies in the TEXT range of its day and does not parse:
    the week call raises where the day and the month call return. *)
Example week_rejects_a_timestamp :
  get_trend_data_advanced timestamp_db "2026-01-01" "2026-01-15" "week" None
    = Raise ValueError /\
  returns (get_trend_data_advanced timestamp_db "2026-01-01" "2026-01-15" "day" None) /\
  returns (get_trend_data_advanced timestamp_db "2026-01-01" "2026-01-15" "month" None).
Proof.
  split; [vm_compute; reflexivity|]. split; eexists; vm_compute; reflexivity.
Qed.

Lemma months_apart start end_ :
  valid_date start = true -> valid_date end_ = true ->
  30 < days_between start end_ ->
  month_index (month_of start) < month_index (month_of end_).
Proof.
  intros Vs Ve Hd.
  assert (date_le start end_) as Hle
    by (apply toordinal_le_iff; [done|done|unfold days_between in Hd; lia]).
  pose proof (date_le_month_index start end_ Vs Ve Hle).
  destruct (decide (month_index (month_of start) = month_index (month_of end_)))
    as [E|?]; [|lia].
  pose proof (proj1 (valid_date_spec start) Vs) as (_ & Hm1 & _).
  pose proof (proj1 (valid_date_spec end_) Ve) as (_ & Hm2 & _).
  apply month_index_inj in E; [|done|done].
  pose proof (same_month_days start end_ Vs Ve E). lia.
Qed.

(** X20. [get_trend_data] picks the granularity by the length of the range:
    more than 31 days give month buckets, one per month from the month of the
    start to the month of the end and so at least two, also for a range that
    ends on [date.max]; up to 31 days give one day bucket per day, none for
    an empty range, or OverflowError when such a range ends on [date.max]. *)
Theorem auto_granularity (db : Database.t)
    (start_date end_date : string) (start end_ : date) :
  Strptime.strptime start_date = Ok start ->
  Strptime.strptime end_date = Ok end_ ->
  (31 < days_between start end_ + 1 ->
   exists res,
     get_trend_data db start_date end_date = Ok res /\
     granularity res = "month" /\
     Z.of_nat (length (data res)) =
       month_index (month_of end_) - month_index (month_of start) + 1 /\
     (2 <= length (data res))%nat) /\
  (days_between start end_ + 1 <= 31 ->
   end_ <> date_max \/ date_lt end_ start ->
   exists res,
     get_trend_data db start_date end_date = Ok res /\
     granularity res = "day" /\
     Z.of_nat (length (data res)) = Z.max 0 (days_between start end_ + 1) /\
     (length (data res) <= 31)%nat) /\
  (days_between start end_ + 1 <= 31 ->
   end_ = date_max -> date_le start end_ ->
   get_trend_data db start_date end_date = Raise OverflowError).
Proof.
  intros Es Ee.
  pose proof (strptime_valid _ _ Es) as Vs. pose proof (strptime_valid _ _ Ee) as Ve.
  unfold get_trend_data. rewrite Es, Ee. cbn.
  destruct (Z.leb_spec (days_between start end_ + 1) 31) as [Hd|Hd].
  - rewrite (dispatch db _ _ start end_) by done. cbn.
    rewrite daily_outcome by done. split; [lia|]. split.
    + intros _ Hr.
      destruct (decide (reachable start end_)) as [?|Hn]; [|by destruct Hn].
      eexists. split; [done|]. split; [done|]. cbn [data].
      rewrite !length_fmap. unfold days_of. rewrite date_seq_length. lia.
    + intros _ -> Hle.
      destruct (decide (reachable start date_max)) as [[?|Hlt]|?]; [done| |done].
      unfold date_le, date_lt in *. apply date_leb_false in Hlt. congruence.
  - rewrite (dispatch db _ _ start end_) by done. cbn.
    rewrite monthly_result by done. split; [|split; lia].
    intros _. pose proof (months_apart start end_ Vs Ve) as Hm.
    eexists. split; [done|]. split; [done|]. cbn [data].
    rewrite !length_fmap. unfold months_of. rewrite month_seq_length.
    unfold month_fuel. unfold month_index, month_of in *. cbn [fst snd] in *. lia.
Qed.

Lemma auto_granularity_witness :
  (31 < days_between (Date 2026 1 1) (Date 2026 2 1) + 1 ->
   exists res,
     get_trend_data sample_db "2026-01-01" "2026-02-01" = Ok res /\
     granularity res = "month" /\
     Z.of_nat (length (data res)) =
       month_index (month_of (Date 2026 2 1))
       - month_index (month_of (Date 2026 1 1)) + 1 /\
     (2 <= length (data res))%nat) /\
  (days_between (Date 2026 1 1) (Date 2026 2 1) + 1 <= 31 ->
   Date 2026 2 1 <> date_max \/ date_lt (Date 2026 2 1) (Date 2026 1 1) ->
   exists res,
     get_trend_data sample_db "2026-01-01" "2026-02-01" = Ok res /\
     granularity res = "day" /\
     Z.of_nat (length (data res)) =
       Z.max 0 (days_between (Date 2026 1 1) (Date 2026 2 1) + 1) /\
     (length (data res) <= 31)%nat) /\
  (days_between (Date 2026 1 1) (Date 2026 2 1) + 1 <= 31 ->
   Date 2026 2 1 = date_max -> date_le (Date 2026 1 1) (Date 2026 2 1) ->
   get_trend_data sample_db "2026-01-01" "2026-02-01" = Raise OverflowError).
Proof.
  apply (auto_granularity sample_db "2026-01-01" "2026-02-01"
           (Date 2026 1 1) (Date 2026 2 1)); vm_compute; reflexivity.
Defined.


(** X21. The number of buckets of a returned result is fixed by the two
    dates: for the day granularity, the days of the range; for month, the
    months from the month of the start to the month of the end; for year,
    the years from the one to the other; for week, the Monday-based weeks
    from the week of the start to the week of the end; and none where the
    end lies before the start in that unit (for week: in days). *)
Theorem bucket_counts (db : Database.t)
    (start_date end_date g : string) (start end_ : date)
    (category : option string) (res : TrendResult) :
  Strptime.strptime start_date = Ok start ->
  Strptime.strptime end_date = Ok end_ ->
  get_trend_data_advanced db start_date end_date g category = Ok res ->
  Z.of_nat (length (data res)) =
  if decide (g = "week") then
    if date_leb start end_ then week_index end_ - week_index start + 1 else 0
  else if decide (g = "month") then
    Z.max 0 (month_index (month_of end_) - month_index (month_of start) + 1)
  else if decide (g = "year") then Z.max 0 (year end_ - year start + 1)
  else Z.max 0 (days_between start end_ + 1).
Proof.
  intros Es Ee R.
  pose proof (strptime_valid _ _ Es) as Vs. pose proof (strptime_valid _ _ Ee) as Ve.
  destruct (trend_result _ _ _ _ _ _ _ _ Es Ee R) as [_ ->].
  rewrite length_fmap. by apply trend_labels_length.
Qed.

Lemma bucket_counts_witness :
  exists res,
    get_trend_data_advanced sample_db "2025-12-27" "2026-01-06" "week" None
      = Ok res /\
    Z.of_nat (length (data res)) =
    if decide ("week" = "week") then
      if date_leb (Date 2025 12 27) (Date 2026 1 6)
      then week_index (Date 2026 1 6) - week_index (Date 2025 12 27) + 1 else 0
    else if decide ("week" = "month") then
      Z.max 0 (month_index (month_of (Date 2026 1 6))
               - month_index (month_of (Date 2025 12 27)) + 1)
    else if decide ("week" = "year") then
      Z.max 0 (year (Date 2026 1 6) - year (Date 2025 12 27) + 1)
    else Z.max 0 (days_between (Date 2025 12 27) (Date 2026 1 6) + 1).
Proof.
  eexists. split; [vm_compute; reflexivity|].
  apply (bucket_counts sample_db "2025-12-27" "2026-01-06" "week"
           (Date 2025 12 27) (Date 2026 1 6) None); vm_compute; reflexivity.
Defined.

(** ** The period selector *)

Lemma month_bounds_printed y m :
  1 <= y <= 9999 -> 1 <= m <= 12 ->
  valid_date (Date y m 1) = true /\
  valid_date (Date y m (days_in_month y m)) = true /\
  Format.ym y m +:+ "-01" = strftime (Date y m 1) /\
  Format.ymd y m (days_in_month y m) = strftime (Date y m (days_in_month y m)).
Proof.
  intros Hy Hm. pose proof (days_in_month_bounds y m Hm).
  split; [|split; [|split]].
  - apply valid_date_spec. cbn [year month day]. lia.
  - apply valid_date_spec. cbn [year month day]. lia.
  - apply first_of_month.
  - done.
Qed.

Lemma last_n_range_printed today n :
  valid_date today = true -> 2 <= year today -> 1 <= n <= 12 ->
  exists start end_,
    get_last_n_full_months_range today n = Ok (strftime start, strftime end_) /\
    valid_date start = true /\ valid_date end_ = true /\ date_le start end_ /\
    day start = 1 /\ day end_ = days_in_month (year end_) (month end_) /\
    date_lt end_ today.
Proof.
  intros V Hy Hn.
  pose proof (last_n_full_months_spec today n V) as Hspec.
  pose proof (get_last_n_full_months_range_eq today n V) as Heq.
  destruct (last_n_full_months today n) as [[sy sm] [ey em]].
  destruct Hspec as (Hem & Hsm & He & Hs).
  pose proof (proj1 (valid_date_spec today) V) as (Hty & Htm & Htd).
  unfold month_index, month_of in *. cbn [fst snd] in *.
  assert (1 <= sy <= 9999) as Hsy by lia.
  assert (1 <= ey <= 9999) as Hey by lia.
  destruct (month_bounds_printed sy sm Hsy Hsm) as (Vs & _ & Es & _).
  destruct (month_bounds_printed ey em Hey Hem) as (_ & Ve & _ & Ee).
  pose proof (days_in_month_bounds ey em Hem).
  exists (Date sy sm 1), (Date ey em (days_in_month ey em)).
  rewrite <- Es, <- Ee. split; [done|]. do 2 (split; [done|]).
  split; [apply date_leb_spec; cbn [year month day]; lia|].
  do 2 (split; [done|]).
  apply date_ltb_spec. cbn [year month day]. lia.
Qed.

Lemma trend_returns db start end_ g category :
  wf_db db -> valid_date start = true -> valid_date end_ = true ->
  reachable start end_ ->
  returns (get_trend_data_advanced db (strftime start) (strftime end_) g category).
Proof.
  intros Hwf Vs Ve Hr. rewrite dispatch_kind.
  destruct (kind_outcome db (strftime start) (strftime end_) start end_ category
              (kind_of g)) as (units & R & _);
    [apply kind_of_in|by left|by apply strptime_strftime
    |by apply strptime_strftime|done|].
  by eexists.
Qed.

(** X22. A period the selector computes from the date of today (not before
    year 2) is a range of printed dates from the first day of a month to the
    last day of a month, start not after end; the ranges of the last 3, 6 and
    12 months end before today.  On a ledger of printed dates every trend
    call on such a range returns, at every granularity and for every
    category, unless the range ends on [date.max]. *)
Theorem selected_period_feeds_the_trend (period : string) (today : date)
    (custom_start custom_end : string) :
  valid_date today = true -> 2 <= year today ->
  period ∈ named_periods ->
  exists start end_,
    _get_date_range period today custom_start custom_end
      = Ok (strftime start, strftime end_) /\
    valid_date start = true /\ valid_date end_ = true /\ date_le start end_ /\
    day start = 1 /\ day end_ = days_in_month (year end_) (month end_) /\
    (period <> "current_month" -> period <> "current_year" ->
     date_lt end_ today) /\
    forall db g category,
      wf_db db -> end_ <> date_max ->
      returns (get_trend_data_advanced db (strftime start) (strftime end_)
                 g category).
Proof.
  intros V Hy Hp.
  pose proof (proj1 (valid_date_spec today) V) as (Hty & Htm & Htd).
  assert (forall start end_,
            valid_date start = true -> valid_date end_ = true ->
            forall db g category, wf_db db -> end_ <> date_max ->
              returns (get_trend_data_advanced db (strftime start) (strftime end_)
                         g category)) as Hret.
  { intros start end_ Vs Ve db g category Hwf Hmax.
    apply trend_returns; try done. by left. }
  unfold named_periods in Hp. unfold _get_date_range.
  repeat (apply elem_of_cons in Hp as [->|Hp]); [| | | | |by apply elem_of_nil in Hp];
    cbn [String.eqb Ascii.eqb Bool.eqb andb].
  - rewrite get_month_range_ok by done.
    destruct (month_bounds_printed (year today) (month today)) as (Vs & Ve & -> & ->);
      [lia|done|].
    pose proof (days_in_month_bounds (year today) (month today) Htm).
    eexists _, _. split; [done|]. do 2 (split; [done|]).
    split; [apply date_leb_spec; cbn [year month day]; lia|].
    do 2 (split; [done|]). split; [done|]. by apply Hret.
  - destruct (last_n_range_printed today 3 V Hy)
      as (start & end_ & R & Vs & Ve & Hle & Hd1 & Hd2 & Hlt); [lia|].
    exists start, end_. split; [exact R|]. do 5 (split; [done|]).
    split; [done|]. by apply Hret.
  - destruct (last_n_range_printed today 6 V Hy)
      as (start & end_ & R & Vs & Ve & Hle & Hd1 & Hd2 & Hlt); [lia|].
    exists start, end_. split; [exact R|]. do 5 (split; [done|]).
    split; [done|]. by apply Hret.
  - destruct (last_n_range_printed today 12 V Hy)
      as (start & end_ & R & Vs & Ve & Hle & Hd1 & Hd2 & Hlt); [lia|].
    exists start, end_. split; [exact R|]. do 5 (split; [done|]).
    split; [done|]. by apply Hret.
  - rewrite year_bounds_eq.
    destruct (month_bounds_printed (year today) 1) as (Vs & _ & _ & _); [lia|lia|].
    destruct (month_bounds_printed (year today) 12) as (_ & Ve & _ & _); [lia|lia|].
    exists (Date (year today) 1 1), (Date (year today) 12 31).
    split; [done|]. do 2 (split; [done|]).
    split; [apply date_leb_spec; cbn [year month day]; lia|].
    do 2 (split; [done|]). split; [done|]. by apply Hret.
Qed.

Lemma selected_period_feeds_the_trend_witness :
  exists start end_,
    _get_date_range "last_6_months" (Date 2026 1 12) "2026-01-01" "2026-01-12"
      = Ok (strftime start, strftime end_) /\
    valid_date start = true /\ valid_date end_ = true /\ date_le start end_ /\
    day start = 1 /\ day end_ = days_in_month (year end_) (month end_) /\
    ("last_6_months" <> "current_month" -> "last_6_months" <> "current_year" ->
     date_lt end_ (Date 2026 1 12)) /\
    forall db g category,
      wf_db db -> end_ <> date_max ->
      returns (get_trend_data_advanced db (strftime start) (strftime end_)
                 g category).
Proof.
  apply (selected_period_feeds_the_trend "last_6_months" (Date 2026 1 12)
           "2026-01-01" "2026-01-12");
    [reflexivity|simpl; lia|].
  unfold named_periods. do 2 apply list_elem_of_further. apply list_elem_of_here.
Defined.

(** ** Gap-free buckets *)

Lemma sum_where_zero f key k raw :
  (forall r, r ∈ raw -> key r = k -> f r = 0) -> sum_where f key k raw = 0.
Proof.
  intros H. unfold sum_where. induction raw as [|x raw IH]; simpl; [done|].
  rewrite IH by (intros r Hr; apply H; by right).
  destruct (decide (key x = k)) as [E|?]; [|done].
  rewrite (H x) by (done || by left). done.
Qed.

(** A unit in which no transaction matches has a zero bucket, whatever rows
    the dates of the unit have. *)
Lemma zero_fill_matching (g : unit_kind) db start end_ category
    (units : list (uk_unit g)) u :
  kind_ok g -> wf_db db ->
  valid_date start = true -> valid_date end_ = true ->
  units_of g start end_ units -> u ∈ units ->
  no_matching_transaction_in (uk_unit_of g) db category u ->
  bucket_for (uk_key g) (raw_rows db start end_ category) (uk_label g u) =
  zero_bucket (uk_label g u).
Proof.
  intros [Hirr Hinj Hkey] Hwf Vs Ve [Hsorted Hspan] Hu Hno.
  pose proof (by_category_in_range db start end_ category Hwf Vs Ve) as [Hnd Hin].
  fold (raw_rows db start end_ category) in Hnd, Hin.
  assert (forall r, r ∈ raw_rows db start end_ category ->
            uk_key g r = uk_label g u -> row_income r = 0 /\ row_expense r = 0)
    as Hzero.
  { intros r Hr Hk. destruct (Hin r Hr) as (d & Vd & Ed & _ & _).
    rewrite (Hkey r d Vd Ed) in Hk.
    apply Hspan in Hu as (d' & Vd' & _ & _ & <-).
    apply Hinj in Hk; [|done|done].
    unfold raw_rows in Hr. rewrite by_category_query in Hr.
    destruct (daily_query_row _ _ _ _ _ Hr) as [-> ->].
    split; apply sum_case_none;
      intros tx [Hdate Htx]%list_elem_of_filter;
      destruct (Hno tx d Htx Vd) as [Hi He]; try done; by rewrite Hdate. }
  unfold bucket_for, zero_bucket.
  rewrite !sum_where_zero; [done| |]; intros r Hr Hk; by apply Hzero.
Qed.


(** X23. On a ledger of printed dates, for [start_date <= end_date] from
    year 1000 on -- with [end_date] before [date.max] for the day and week
    granularities -- the call returns the tag of the granularity and one
    bucket per calendar unit spanned by the closed range: the labels are
    those of the spanned units, each once, in ascending order; a unit in
    which no transaction matches the call (no income, and no expense, of the
    category under a filter) has income and expense [0.0]; for the day
    granularity there are [(end_date - start_date).days + 1] buckets. *)
Theorem trend_gap_free (db : Database.t) (start_date end_date : string)
    (start end_ : date) (category : option string) (g : unit_kind) :
  wf_db db ->
  Strptime.strptime start_date = Ok start ->
  Strptime.strptime end_date = Ok end_ ->
  date_le start end_ ->
  1000 <= year start ->
  g ∈ unit_kinds ->
  (steps_days g -> end_ <> date_max) ->
  exists res (units : list (uk_unit g)),
    get_trend_data_advanced db start_date end_date (uk_name g) category = Ok res /\
    granularity res = uk_name g /\
    units_of g start end_ units /\
    label <$> data res = uk_label g <$> units /\
    (forall i u b,
       units !! i = Some u -> data res !! i = Some b ->
       no_matching_transaction_in (uk_unit_of g) db category u ->
       income b = Hundredths 0 /\ expense b = Hundredths 0) /\
    (uk_name g = "day" ->
     Z.of_nat (length (data res)) = days_between start end_ + 1).
Proof.
  intros Hwf Es Ee Hle _ Hg Hmax.
  pose proof (strptime_valid _ _ Es) as Vs. pose proof (strptime_valid _ _ Ee) as Ve.
  destruct (kind_outcome db start_date end_date start end_ category g)
    as (units & R & En); try done; [by left | intros; left; auto |].
  specialize (En Hle).
  eexists _, units. split; [exact R|]. simpl.
  split; [done|]. split; [done|]. split; [apply buckets_of_labels|]. split.
  - intros i u b Hu Hb Hno.
    rewrite (buckets_of_lookup g _ units i u b Hu Hb).
    rewrite (zero_fill_matching g db start end_ category units u); try done.
    + by apply unit_kinds_ok.
    + by eapply list_elem_of_lookup_2.
  - intros Hname.
    assert (g = day_kind) as ->.
    { unfold unit_kinds in Hg.
      repeat (apply elem_of_cons in Hg as [->|Hg]); try done.
      by apply elem_of_nil in Hg. }
    rewrite (enumerates_unique date_lt id start end_ units (days_of start end_)
               date_lt_irrefl date_lt_trans En (days_of_enumerates _ _ Vs Ve)).
    unfold buckets_of. rewrite !length_fmap. by apply days_of_length.
Qed.

Lemma trend_gap_free_witness :
  exists res (units : list (uk_unit week_kind)),
    get_trend_data_advanced sample_db "2026-01-01" "2026-01-15"
      (uk_name week_kind) (Some "food") = Ok res /\
    granularity res = uk_name week_kind /\
    units_of week_kind (Date 2026 1 1) (Date 2026 1 15) units /\
    label <$> data res = uk_label week_kind <$> units /\
    (forall i u b,
       units !! i = Some u -> data res !! i = Some b ->
       no_matching_transaction_in (uk_unit_of week_kind) sample_db (Some "food") u ->
       income b = Hundredths 0 /\ expense b = Hundredths 0) /\
    (uk_name week_kind = "day" ->
     Z.of_nat (length (data res)) =
     days_between (Date 2026 1 1) (Date 2026 1 15) + 1).
Proof.
  apply (trend_gap_free sample_db "2026-01-01" "2026-01-15"
           (Date 2026 1 1) (Date 2026 1 15) (Some "food") week_kind).
  - apply sample_db_wf.
  - reflexivity.
  - reflexivity.
  - reflexivity.
  - simpl; lia.
  - apply list_elem_of_further, list_elem_of_here.
  - intros _. discriminate.
Defined.

(** Under the filter food the day 2026-01-10 has an expense of another
    category only: no transaction matches, and its bucket is zero. *)
Example zero_fill_under_a_filter :
  no_matching_transaction_in id sample_db (Some "food") (Date 2026 1 10) /\
  exists res,
    get_trend_data_advanced sample_db "2026-01-01" "2026-01-15" "day"
      (Some "food") = Ok res /\
    data res !! 9%nat = Some (zero_bucket "2026-01-10").
Proof.
  split.
  - intros tx d Htx Vd Ed Hu. simpl in Hu. subst d. unfold sample_db in Htx.
    repeat (apply elem_of_cons in Htx as [->|Htx]);
      [..|by apply elem_of_nil in Htx]; try (by vm_compute in Ed);
      by vm_compute.
  - eexists. by vm_compute.
Qed.
